(** * Invoice_App_04: record store, derived queries and reminder scheduling

  A shallow embedding of [lib/storage.ts], [lib/notifications.ts] and of
  the completion handler of [app/(tabs)/upcoming.tsx], followed by the
  properties of the specification that they satisfy (or fail).

  Conventions of the embedding:
  - JavaScript strings are [string] (sequences of 8-bit characters); case
    folding and white space are the ASCII ones.
  - A JavaScript number that holds money is a [number]: an exact rational,
    an infinity or NaN.  Rounding of IEEE doubles and the sign of zero are
    outside the model, so no property below rests on a law of arithmetic
    that rounding breaks: sums are taken in the order in which the code
    adds, and of addition only [x + 0 = x] is used.
  - A JavaScript number that is an integer or NaN (a counter, a day count,
    a time stamp in milliseconds) is an [option Z], [None] being NaN.
  - [async] functions are computations of the monad [M] over the state of
    the device: the key-value store and the platform's notification
    registry.  A rejected promise is the result [Throw]. *)

From Stdlib Require Import ZArith QArith Qcanon Lia.
From Stdlib Require Import Strings.String Strings.Ascii Lists.List.
From Stdlib Require Import Sorting.Permutation.
From stdpp Require Import gmap strings list.

Local Open Scope Z_scope.

(** ** Host language primitives *)

Module JS.

(** *** Characters and strings *)

Definition code (c : ascii) : N := N_of_ascii c.

(** White space and line terminators of the ASCII range. *)
Definition isSpace (c : ascii) : bool :=
  let n := code c in
  ((9 <=? n)%N && (n <=? 13)%N) || (n =? 32)%N.

Definition isDigit (c : ascii) : bool :=
  let n := code c in (48 <=? n)%N && (n <=? 57)%N.

Definition digitVal (c : ascii) : N := (code c - 48)%N.

Definition digitChar (d : N) : ascii := ascii_of_N (48 + d).

Definition lowerChar (c : ascii) : ascii :=
  let n := code c in
  if (65 <=? n)%N && (n <=? 90)%N then ascii_of_N (n + 32) else c.

(** [String.prototype.toLowerCase] *)
Fixpoint toLowerCase (s : string) : string :=
  match s with
  | EmptyString => EmptyString
  | String c r => String (lowerChar c) (toLowerCase r)
  end.

Fixpoint trimStart (s : string) : string :=
  match s with
  | EmptyString => EmptyString
  | String c r => if isSpace c then trimStart r else s
  end.

Fixpoint trimEnd (s : string) : string :=
  match s with
  | EmptyString => EmptyString
  | String c r =>
      match trimEnd r with
      | EmptyString => if isSpace c then EmptyString else String c EmptyString
      | r' => String c r'
      end
  end.

(** [String.prototype.trim] *)
Definition trim (s : string) : string := trimEnd (trimStart s).

Fixpoint startsWith (s p : string) : bool :=
  match p, s with
  | EmptyString, _ => true
  | String _ _, EmptyString => false
  | String a p', String b s' => if Ascii.eqb a b then startsWith s' p' else false
  end.

(** [String.prototype.includes] *)
Fixpoint includes (s q : string) : bool :=
  if startsWith s q then true
  else match s with
       | EmptyString => false
       | String _ r => includes r q
       end.

(** The filler of [padStart]: [n] characters cycling through [fill]. *)
Fixpoint cycle (n : nat) (fill cur : string) : string :=
  match n with
  | O => EmptyString
  | S m =>
      match cur with
      | String c r => String c (cycle m fill r)
      | EmptyString =>
          match fill with
          | String c r => String c (cycle m fill r)
          | EmptyString => EmptyString
          end
      end
  end.

(** [String.prototype.padStart] *)
Definition padStart (width : nat) (fill s : string) : string :=
  let len := String.length s in
  if (width <=? len)%nat then s
  else cycle (width - len) fill fill +:+ s.

(** A string used as a condition: only the empty string is falsy. *)
Definition truthyString (s : string) : bool :=
  match s with EmptyString => false | _ => true end.

(** [a || b] on strings. *)
Definition orString (a b : string) : string :=
  if truthyString a then a else b.

(** [a || b] where [a] may be [undefined]. *)
Definition orMissing (a : option string) (b : string) : string :=
  match a with
  | Some s => orString s b
  | None => b
  end.

(** *** Integers *)

(** The value of the longest prefix of decimal digits. *)
Fixpoint scanDigits (acc : N) (s : string) : N :=
  match s with
  | EmptyString => acc
  | String c r => if isDigit c then scanDigits (10 * acc + digitVal c) r else acc
  end.

Fixpoint digitsFrom (fuel : nat) (n : N) (acc : string) : string :=
  let acc' := String (digitChar (n mod 10)) acc in
  match fuel with
  | O => acc'
  | S f => if (n <? 10)%N then acc' else digitsFrom f (n / 10) acc'
  end.

(** The decimal numeral of a natural number. *)
Definition showN (n : N) : string := digitsFrom (N.to_nat (N.log2 n)) n EmptyString.

Definition showZ (z : Z) : string :=
  match z with
  | Zneg p => String "-" (showN (Npos p))
  | _ => showN (Z.to_N z)
  end.

(** [Number.prototype.toString] on an integer or NaN. *)
Definition toString (x : option Z) : string :=
  match x with
  | Some z => showZ z
  | None => "NaN"
  end.

(** An optional sign in front of a numeral. *)
Definition signOf (s : string) : bool * string :=
  match s with
  | String "-" r => (true, r)
  | String "+" r => (false, r)
  | _ => (false, s)
  end.

Definition startsWithDigit (s : string) : bool :=
  match s with
  | String c _ => isDigit c
  | EmptyString => false
  end.

(** [parseInt(s, 10)]: leading white space, an optional sign, then the
    longest run of digits; NaN when there is no digit. *)
Definition parseInt (s : string) : option Z :=
  let '(neg, r) := signOf (trimStart s) in
  if startsWithDigit r then
    let v := Z.of_N (scanDigits 0 r) in
    Some (if neg then - v else v)
  else None.

(** Ceiling of an integer quotient, as [Math.ceil(a / b)] for [0 < b]. *)
Definition ceilDiv (a b : Z) : Z := - ((- a) / b).

(** *** Money numbers *)

Inductive number : Type :=
| NaN
| Inf (negative : bool)
| Fin (q : Qc).

Definition zero : number := Fin (Q2Qc 0).

Definition ofNat (n : nat) : number := Fin (Q2Qc (inject_Z (Z.of_nat n))).

Definition isZeroQc (q : Qc) : bool := (Qnum (this q) =? 0)%Z.

Definition isNegQc (q : Qc) : bool := (Qnum (this q) <? 0)%Z.

(** A number used as a condition: NaN and zero are falsy. *)
Definition truthy (x : number) : bool :=
  match x with
  | NaN => false
  | Inf _ => true
  | Fin q => negb (isZeroQc q)
  end.

(** [x || 0] *)
Definition orZero (x : number) : number := if truthy x then x else zero.

Definition neg (x : number) : number :=
  match x with
  | NaN => NaN
  | Inf b => Inf (negb b)
  | Fin q => Fin (- q)%Qc
  end.

Definition add (x y : number) : number :=
  match x, y with
  | NaN, _ | _, NaN => NaN
  | Inf a, Inf b => if Bool.eqb a b then Inf a else NaN
  | Inf a, Fin _ => Inf a
  | Fin _, Inf b => Inf b
  | Fin p, Fin q => Fin (p + q)%Qc
  end.

Definition sub (x y : number) : number := add x (neg y).

Definition div (x y : number) : number :=
  match x, y with
  | NaN, _ | _, NaN => NaN
  | Inf _, Inf _ => NaN
  | Inf a, Fin q => Inf (xorb a (isNegQc q))
  | Fin _, Inf _ => zero
  | Fin p, Fin q =>
      if isZeroQc q then (if isZeroQc p then NaN else Inf (isNegQc p))
      else Fin (p / q)%Qc
  end.

(** The longest prefix of decimal digits, and the rest. *)
Fixpoint spanDigits (s : string) : string * string :=
  match s with
  | EmptyString => (EmptyString, EmptyString)
  | String c r =>
      if isDigit c then
        let '(d, t) := spanDigits r in (String c d, t)
      else (EmptyString, s)
  end.

(** The exponent part [e[+-]digits], 0 when the text has none. *)
Definition exponentOf (s : string) : Z :=
  match s with
  | String c r =>
      if (Ascii.eqb c "e" || Ascii.eqb c "E")%bool then
        let '(neg, t) := signOf r in
        if startsWithDigit t then
          let v := Z.of_N (scanDigits 0 t) in
          if neg then - v else v
        else 0
      else 0
  | EmptyString => 0
  end.

(** [m * 10 ^ k] *)
Definition scale10 (m k : Z) : Qc :=
  if (0 <=? k)%Z then Q2Qc (inject_Z (m * 10 ^ k))
  else Q2Qc (Qmake m (Z.to_pos (10 ^ (- k)))).

(** [parseFloat]: leading white space, an optional sign, then [Infinity]
    or the longest decimal literal [digits [. digits] [exponent]]; NaN
    when the text starts with neither. *)
Definition parseFloat (s : string) : number :=
  let '(neg, s1) := signOf (trimStart s) in
  if startsWith s1 "Infinity" then Inf neg
  else
    let '(ip, s2) := spanDigits s1 in
    let '(fp, s3) :=
      match s2 with
      | String "." r => spanDigits r
      | _ => (EmptyString, s2)
      end in
    match ip +:+ fp with
    | EmptyString => NaN
    | ds =>
        let m := Z.of_N (scanDigits 0 ds) in
        let k := exponentOf s3 - Z.of_nat (String.length fp) in
        Fin (scale10 (if neg then - m else m) k)
    end.

End JS.

(** ** Data model ([lib/storage.ts]) *)

Inductive ShootType : Type :=
| Bridal | Wedding | Birthday | PreShoot | Events | Casual | Commercial.

Definition SHOOT_TYPES : list ShootType :=
[Bridal; Wedding; Birthday; PreShoot; Events; Casual; Commercial].

(** The string a [ShootType] is at run time. *)
Definition shootTypeName (t : ShootType) : string :=
match t with
| Bridal => "Bridal"
| Wedding => "Wedding"
| Birthday => "Birthday"
| PreShoot => "Pre-shoot"
| Events => "Events"
| Casual => "Casual"
| Commercial => "Commercial"
end.

Module InvoiceItem.
Record t : Type := mk {
  id : string;
  description : string;
  quantity : string;
}.
End InvoiceItem.

Module Invoice.
Record t : Type := mk {
  id : string;
  invoiceNumber : string;
  invoiceDate : string;
  customerNames : string;
  eventDate : string;
  eventLocation : string;
  phoneNumber : string;
  items : list InvoiceItem.t;
  fullPrice : string;
  advancePayment : string;
  createdAt : string;
  updatedAt : string;
}.
End Invoice.

Module ShootEntry.
Record t : Type := mk {
  id : string;
  clientName : string;
  shootDate : string;
  shootTime : string;
  shootLocation : string;
  salonName : string;
  modelName : string;
  shootType : ShootType;
  price : string;
  advancePaid : string;
  phoneNumber : string;
  notes : string;
  createdAt : string;
  updatedAt : string;
}.
End ShootEntry.

(** [Omit<ShootEntry, 'id' | 'createdAt' | 'updatedAt'>] *)
Module ShootFields.
Record t : Type := mk {
  clientName : string;
  shootDate : string;
  shootTime : string;
  shootLocation : string;
  salonName : string;
  modelName : string;
  shootType : ShootType;
  price : string;
  advancePaid : string;
  phoneNumber : string;
  notes : string;
}.
End ShootFields.

(** A shoot object as [JSON.parse] finds it under [ns_shoots]: the
  properties that [getAllShoots] backfills may be absent ([None]). *)
Module StoredShoot.
Record t : Type := mk {
  id : string;
  clientName : option string;
  shootDate : string;
  shootTime : option string;
  shootLocation : string;
  salonName : option string;
  modelName : option string;
  shootType : ShootType;
  price : string;
  advancePaid : option string;
  phoneNumber : string;
  notes : string;
  createdAt : string;
  updatedAt : string;
}.
End StoredShoot.

Module UpcomingShoot.
Record t : Type := mk {
  id : string;
  clientName : string;
  shootDate : string;
  shootTime : string;
  shootLocation : string;
  salonName : string;
  modelName : string;
  shootType : ShootType;
  contactNumber : string;
  packagePrice : string;
  advancePaid : string;
  notes : string;
  completed : bool;
  createdAt : string;
  updatedAt : string;
}.
End UpcomingShoot.

(** An upcoming-shoot object as [JSON.parse] finds it under
  [ns_upcoming_shoots]; [getAllUpcomingShoots] backfills two properties. *)
Module StoredUpcoming.
Record t : Type := mk {
  id : string;
  clientName : string;
  shootDate : string;
  shootTime : string;
  shootLocation : string;
  salonName : option string;
  modelName : option string;
  shootType : ShootType;
  contactNumber : string;
  packagePrice : string;
  advancePaid : string;
  notes : string;
  completed : bool;
  createdAt : string;
  updatedAt : string;
}.
End StoredUpcoming.

(** [Omit<UpcomingShoot, 'id' | 'createdAt' | 'updatedAt'>] *)
Module UpcomingFields.
Record t : Type := mk {
  clientName : string;
  shootDate : string;
  shootTime : string;
  shootLocation : string;
  salonName : string;
  modelName : string;
  shootType : ShootType;
  contactNumber : string;
  packagePrice : string;
  advancePaid : string;
  notes : string;
  completed : bool;
}.
End UpcomingFields.

(** [Omit<Invoice, 'id' | 'createdAt' | 'updatedAt'>] *)
Module InvoiceFields.
Record t : Type := mk {
  invoiceNumber : string;
  invoiceDate : string;
  customerNames : string;
  eventDate : string;
  eventLocation : string;
  phoneNumber : string;
  items : list InvoiceItem.t;
  fullPrice : string;
  advancePayment : string;
}.
End InvoiceFields.

(** One property of a [Partial<UpcomingShoot>] object; any property of the
  interface can be given, [id], [createdAt] and [updatedAt] included. *)
Inductive UpcomingUpdate : Type :=
| SetId (v : string)
| SetClientName (v : string)
| SetShootDate (v : string)
| SetShootTime (v : string)
| SetShootLocation (v : string)
| SetSalonName (v : string)
| SetModelName (v : string)
| SetShootType (v : ShootType)
| SetContactNumber (v : string)
| SetPackagePrice (v : string)
| SetAdvancePaid (v : string)
| SetNotes (v : string)
| SetCompleted (v : bool)
| SetCreatedAt (v : string)
| SetUpdatedAt (v : string).

(** ** Reminder settings and notifications ([lib/notifications.ts]) *)

Record ReminderSettings : Type := mkReminderSettings {
shootReminders : bool;
invoiceReminders : bool;
reminderTiming : string;
}.

(** The request handed to [Notifications.scheduleNotificationAsync]. *)
Record Notification : Type := mkNotification {
title : string;
body : string;
dataType : string;
dataId : string;
channelId : option string;
triggerDate : Z;
}.

(** ** The device *)

Inductive OS : Type := Web | Android | Ios.

(** The calls to the platform that can be rejected. *)
Inductive Op : Type :=
| OpGetItem (key : string)
| OpSetItem (key : string)
| OpRemoveItem (key : string)
| OpSchedule
| OpCancel (identifier : string).

(** What the program reads from its host and cannot change. *)
Record Host : Type := mkHost {
(** [Platform.OS] *)
host_os : OS;
(** [Date.now()] *)
host_now : Z;
(** [new Date().toISOString()] *)
host_isoNow : string;
(** [new Date(str).getTime()], [None] for an invalid date *)
host_dateParse : string -> option Z;
(** [new Date(year, monthIndex, day, hours, minutes, seconds).getTime()] *)
host_localDate : Z -> Z -> Z -> Z -> Z -> Z -> Z;
(** the time stamp of a date after [setHours(hours, minutes, 0, 0)] *)
host_setHours : Z -> Z -> Z -> Z;
(** the [n]-th value of [Date.now().toString() + Math.random()...] *)
host_randomId : nat -> string;
(** the [n]-th identifier returned by [scheduleNotificationAsync] *)
host_notificationId : nat -> string;
(** the platform calls that are rejected *)
host_fails : Op -> bool;
}.

(** The local calendar fields of a time stamp, as the getters of a valid
  [Date] give them. *)
Record Calendar : Type := mkCalendar {
  (** [getFullYear()] *)
  cal_getFullYear : Z -> Z;
  (** [getMonth()], from 0 *)
  cal_getMonth : Z -> Z;
  (** [getDate()], the day of the month *)
  cal_getDate : Z -> Z;
}.

(** The content of [AsyncStorage].  Entries that hold a plain string (the
  invoice counter, the notification handles) are in [items] under their
  key; an entry that holds a JSON document is kept as the value that
  [JSON.parse] gives, [None] when the key is absent. *)
Record Store : Type := mkStore {
items : gmap string string;
ns_invoices : option (list Invoice.t);
ns_shoots : option (list StoredShoot.t);
ns_upcoming_shoots : option (list StoredUpcoming.t);
ns_reminder_settings : option ReminderSettings;
}.

Record World : Type := mkWorld {
store : Store;
(** notifications registered with the platform, by identifier *)
scheduled : gmap string Notification;
(** the identifiers whose cancellation was requested, latest first *)
cancelRequests : list string;
(** how many identifiers the host has produced *)
drawn : nat;
}.

Inductive Result (A : Type) : Type :=
| Ok (a : A)
| Throw.
Arguments Ok {A} a.
Arguments Throw {A}.

(** An [async] computation. *)
Definition M (A : Type) : Type := World -> Result A * World.

Definition ret {A : Type} (a : A) : M A := fun w => (Ok a, w).

Definition throw {A : Type} : M A := fun w => (Throw, w).

Definition bind {A B : Type} (m : M A) (k : A -> M B) : M B :=
fun w =>
  match m w with
  | (Ok a, w') => k a w'
  | (Throw, w') => (Throw, w')
  end.

(** [try { m } catch { h }] *)
Definition tryCatch {A : Type} (m : M A) (h : M A) : M A :=
fun w =>
  match m w with
  | (Ok a, w') => (Ok a, w')
  | (Throw, w') => h w'
  end.

(** [m.catch(() => {})] on a promise that nothing awaits: [m] runs, its
  outcome is dropped.  The steps of [m] are taken at the call; the
  handlers below never await anything that touches the same keys. *)
Definition detached {A : Type} (m : M A) : M unit :=
fun w => (Ok tt, snd (m w)).

Notation "'let*' x := m 'in' k" := (bind m (fun x => k))
(at level 10, x name, m at level 200, k at level 200, only parsing).

(** ** [AsyncStorage] and [Notifications] *)

Section Platform.

Variable H : Host.

Definition call {A : Type} (op : Op) (f : World -> A * World) : M A :=
  fun w =>
    if host_fails H op then (Throw, w)
    else let '(a, w') := f w in (Ok a, w').

Definition withStore (w : World) (s : Store) : World :=
  mkWorld s (scheduled w) (cancelRequests w) (drawn w).

Definition withItems (s : Store) (m : gmap string string) : Store :=
  mkStore m (ns_invoices s) (ns_shoots s) (ns_upcoming_shoots s)
          (ns_reminder_settings s).

Definition withShoots (s : Store) (l : list StoredShoot.t) : Store :=
  mkStore (items s) (ns_invoices s) (Some l) (ns_upcoming_shoots s)
          (ns_reminder_settings s).

Definition withUpcoming (s : Store) (l : list StoredUpcoming.t) : Store :=
  mkStore (items s) (ns_invoices s) (ns_shoots s) (Some l)
          (ns_reminder_settings s).

Definition withInvoices (s : Store) (l : list Invoice.t) : Store :=
  mkStore (items s) (Some l) (ns_shoots s) (ns_upcoming_shoots s)
          (ns_reminder_settings s).

(** [AsyncStorage.getItem(key)] of a string entry *)
Definition getItem (key : string) : M (option string) :=
  call (OpGetItem key) (fun w => (items (store w) !! key, w)).

(** [AsyncStorage.setItem(key, value)] of a string entry *)
Definition setItem (key value : string) : M unit :=
  call (OpSetItem key)
       (fun w => (tt, withStore w (withItems (store w) (<[key := value]> (items (store w)))))).

(** [AsyncStorage.removeItem(key)] *)
Definition removeItem (key : string) : M unit :=
  call (OpRemoveItem key)
       (fun w => (tt, withStore w (withItems (store w) (delete key (items (store w)))))).

(** [Notifications.scheduleNotificationAsync(request)] *)
Definition scheduleNotificationAsync (n : Notification) : M string :=
  call OpSchedule
       (fun w =>
          let ident := host_notificationId H (drawn w) in
          (ident, mkWorld (store w) (<[ident := n]> (scheduled w))
                          (cancelRequests w) (S (drawn w)))).

(** [Notifications.cancelScheduledNotificationAsync(identifier)] *)
Definition cancelScheduledNotificationAsync (ident : string) : M unit :=
  call (OpCancel ident)
       (fun w =>
          (tt, mkWorld (store w) (delete ident (scheduled w))
                       (ident :: cancelRequests w) (drawn w))).

(** [generateId()] *)
Definition generateId : M string :=
  fun w => (Ok (host_randomId H (drawn w)),
            mkWorld (store w) (scheduled w) (cancelRequests w) (S (drawn w))).

(** [new Date(a).getTime() - new Date(b).getTime()] *)
Definition dateDiff (a b : string) : option Z :=
  match host_dateParse H a, host_dateParse H b with
  | Some x, Some y => Some (x - y)
  | _, _ => None
  end.

(** [Array.prototype.sort(compare)]: a stable sort; [b] goes before [a]
    only when [compare(a, b)] is positive, and NaN counts as 0.  When a
    date is invalid the comparison is not an order and engines may
    arrange the array differently; the properties below use only that
    the result is a rearrangement of the input. *)
Definition comesAfter (v : option Z) : bool :=
  match v with
  | Some z => 0 <? z
  | None => false
  end.

Fixpoint insertBy {A : Type} (compare : A -> A -> option Z) (x : A) (l : list A) : list A :=
  match l with
  | [] => [x]
  | y :: r => if comesAfter (compare x y) then y :: insertBy compare x r else x :: l
  end.

Definition sortBy {A : Type} (compare : A -> A -> option Z) (l : list A) : list A :=
  fold_right (insertBy compare) [] l.

Definition withSettings (s : Store) (r : ReminderSettings) : Store :=
mkStore (items s) (ns_invoices s) (ns_shoots s) (ns_upcoming_shoots s) (Some r).

End Platform.

(** ** Record store ([lib/storage.ts]) *)

Module Storage.
Section WithHost.

Variable H : Host.

Definition INVOICES_KEY : string := "ns_invoices".
Definition COUNTER_KEY : string := "ns_invoice_counter".
Definition SHOOTS_KEY : string := "ns_shoots".
Definition UPCOMING_KEY : string := "ns_upcoming_shoots".

Definition getNextInvoiceNumber : M string :=
  let* counter := getItem H COUNTER_KEY in
  let next : option Z :=
    match counter with
    | Some c =>
        if JS.truthyString c then
          match JS.parseInt c with
          | Some n => Some (n + 1)
          | None => None
          end
        else Some 1
    | None => Some 1
    end in
  let* _ := setItem H COUNTER_KEY (JS.toString next) in
  ret (JS.padStart 4 "0" (JS.toString next)).

Definition getAllInvoices : M (list Invoice.t) :=
  let* data := call H (OpGetItem INVOICES_KEY) (fun w => (ns_invoices (store w), w)) in
  match data with
  | None => ret []
  | Some invoices =>
      ret (sortBy (fun a b => dateDiff H (Invoice.createdAt b) (Invoice.createdAt a)) invoices)
  end.

(** The object that [getAllShoots] builds from a stored one. *)
Definition backfillShoot (s : StoredShoot.t) : ShootEntry.t :=
  ShootEntry.mk
    (StoredShoot.id s)
    (JS.orMissing (StoredShoot.clientName s) (JS.orMissing (StoredShoot.modelName s) ""))
    (StoredShoot.shootDate s)
    (JS.orMissing (StoredShoot.shootTime s) "")
    (StoredShoot.shootLocation s)
    (JS.orMissing (StoredShoot.salonName s) "")
    (JS.orMissing (StoredShoot.modelName s) "")
    (StoredShoot.shootType s)
    (StoredShoot.price s)
    (JS.orMissing (StoredShoot.advancePaid s) "")
    (StoredShoot.phoneNumber s)
    (StoredShoot.notes s)
    (StoredShoot.createdAt s)
    (StoredShoot.updatedAt s).

(** [JSON.stringify] of a [ShootEntry]: every property is present. *)
Definition storeShoot (s : ShootEntry.t) : StoredShoot.t :=
  StoredShoot.mk
    (ShootEntry.id s) (Some (ShootEntry.clientName s)) (ShootEntry.shootDate s)
    (Some (ShootEntry.shootTime s)) (ShootEntry.shootLocation s)
    (Some (ShootEntry.salonName s)) (Some (ShootEntry.modelName s))
    (ShootEntry.shootType s) (ShootEntry.price s)
    (Some (ShootEntry.advancePaid s)) (ShootEntry.phoneNumber s)
    (ShootEntry.notes s) (ShootEntry.createdAt s) (ShootEntry.updatedAt s).

Definition getAllShoots : M (list ShootEntry.t) :=
  let* data := call H (OpGetItem SHOOTS_KEY) (fun w => (ns_shoots (store w), w)) in
  match data with
  | None => ret []
  | Some stored =>
      let shoots := map backfillShoot stored in
      ret (sortBy (fun a b => dateDiff H (ShootEntry.shootDate b) (ShootEntry.shootDate a)) shoots)
  end.

Definition saveShoot (shoot : ShootFields.t) : M ShootEntry.t :=
  let* shoots := getAllShoots in
  let* newId := generateId H in
  let newShoot :=
    ShootEntry.mk newId
      (ShootFields.clientName shoot) (ShootFields.shootDate shoot)
      (ShootFields.shootTime shoot) (ShootFields.shootLocation shoot)
      (ShootFields.salonName shoot) (ShootFields.modelName shoot)
      (ShootFields.shootType shoot) (ShootFields.price shoot)
      (ShootFields.advancePaid shoot) (ShootFields.phoneNumber shoot)
      (ShootFields.notes shoot) (host_isoNow H) (host_isoNow H) in
  let* _ := call H (OpSetItem SHOOTS_KEY)
              (fun w => (tt, withStore w (withShoots (store w)
                               (map storeShoot (shoots ++ [newShoot]))))) in
  ret newShoot.

Record MonthlyStats : Type := mkMonthlyStats {
  totalShoots : nat;
  totalIncome : JS.number;
  avgPerShoot : JS.number;
}.

Definition getMonthlyStats (shoots : list ShootEntry.t) : MonthlyStats :=
  let totalShoots := List.length shoots in
  let totalIncome :=
    fold_left (fun sum s => JS.add sum (JS.orZero (JS.parseFloat (ShootEntry.price s))))
              shoots JS.zero in
  let avgPerShoot :=
    if (0 <? totalShoots)%nat then JS.div totalIncome (JS.ofNat totalShoots)
    else JS.zero in
  mkMonthlyStats totalShoots totalIncome avgPerShoot.

Definition searchShoots (shoots : list ShootEntry.t) (query : string) : list ShootEntry.t :=
  let q := JS.trim (JS.toLowerCase query) in
  if negb (JS.truthyString q) then shoots
  else
    List.filter (fun s =>
      JS.includes (JS.toLowerCase (ShootEntry.clientName s)) q ||
      JS.includes (JS.toLowerCase (ShootEntry.shootLocation s)) q ||
      JS.includes (JS.toLowerCase (ShootEntry.salonName s)) q ||
      JS.includes (JS.toLowerCase (ShootEntry.modelName s)) q ||
      JS.includes (JS.toLowerCase (shootTypeName (ShootEntry.shootType s))) q ||
      JS.includes (JS.toLowerCase (ShootEntry.notes s)) q) shoots.

Definition searchInvoices (invoices : list Invoice.t) (query : string) : list Invoice.t :=
  let q := JS.trim (JS.toLowerCase query) in
  if negb (JS.truthyString q) then invoices
  else
    List.filter (fun inv =>
      JS.includes (JS.toLowerCase (Invoice.customerNames inv)) q ||
      JS.includes (JS.toLowerCase (Invoice.invoiceNumber inv)) q ||
      JS.includes (JS.toLowerCase (Invoice.eventLocation inv)) q ||
      JS.includes (JS.toLowerCase (Invoice.phoneNumber inv)) q) invoices.

Definition getTotal (invoice : Invoice.t) : JS.number :=
  JS.orZero (JS.parseFloat (Invoice.fullPrice invoice)).

Definition calculateBalance (total : JS.number) (advance : string) : JS.number :=
  let adv := JS.orZero (JS.parseFloat advance) in
  JS.sub total adv.


(** The object that [getAllUpcomingShoots] builds from a stored one. *)
Definition backfillUpcoming (s : StoredUpcoming.t) : UpcomingShoot.t :=
  UpcomingShoot.mk
    (StoredUpcoming.id s) (StoredUpcoming.clientName s) (StoredUpcoming.shootDate s)
    (StoredUpcoming.shootTime s) (StoredUpcoming.shootLocation s)
    (JS.orMissing (StoredUpcoming.salonName s) "")
    (JS.orMissing (StoredUpcoming.modelName s) "")
    (StoredUpcoming.shootType s) (StoredUpcoming.contactNumber s)
    (StoredUpcoming.packagePrice s) (StoredUpcoming.advancePaid s)
    (StoredUpcoming.notes s) (StoredUpcoming.completed s)
    (StoredUpcoming.createdAt s) (StoredUpcoming.updatedAt s).

(** [JSON.stringify] of an [UpcomingShoot]. *)
Definition storeUpcoming (s : UpcomingShoot.t) : StoredUpcoming.t :=
  StoredUpcoming.mk
    (UpcomingShoot.id s) (UpcomingShoot.clientName s) (UpcomingShoot.shootDate s)
    (UpcomingShoot.shootTime s) (UpcomingShoot.shootLocation s)
    (Some (UpcomingShoot.salonName s)) (Some (UpcomingShoot.modelName s))
    (UpcomingShoot.shootType s) (UpcomingShoot.contactNumber s)
    (UpcomingShoot.packagePrice s) (UpcomingShoot.advancePaid s)
    (UpcomingShoot.notes s) (UpcomingShoot.completed s)
    (UpcomingShoot.createdAt s) (UpcomingShoot.updatedAt s).

Definition getAllUpcomingShoots : M (list UpcomingShoot.t) :=
  let* data := call H (OpGetItem UPCOMING_KEY) (fun w => (ns_upcoming_shoots (store w), w)) in
  match data with
  | None => ret []
  | Some stored =>
      let shoots := map backfillUpcoming stored in
      ret (sortBy (fun a b => dateDiff H (UpcomingShoot.shootDate a) (UpcomingShoot.shootDate b)) shoots)
  end.

(** [{ ...s, [property]: value }] for one property of the update. *)
Definition applyUpdate (s : UpcomingShoot.t) (u : UpcomingUpdate) : UpcomingShoot.t :=
  let 'UpcomingShoot.mk i cn sd st sl sn mn ty ct pp ap nt cp ca ua := s in
  match u with
  | SetId v => UpcomingShoot.mk v cn sd st sl sn mn ty ct pp ap nt cp ca ua
  | SetClientName v => UpcomingShoot.mk i v sd st sl sn mn ty ct pp ap nt cp ca ua
  | SetShootDate v => UpcomingShoot.mk i cn v st sl sn mn ty ct pp ap nt cp ca ua
  | SetShootTime v => UpcomingShoot.mk i cn sd v sl sn mn ty ct pp ap nt cp ca ua
  | SetShootLocation v => UpcomingShoot.mk i cn sd st v sn mn ty ct pp ap nt cp ca ua
  | SetSalonName v => UpcomingShoot.mk i cn sd st sl v mn ty ct pp ap nt cp ca ua
  | SetModelName v => UpcomingShoot.mk i cn sd st sl sn v ty ct pp ap nt cp ca ua
  | SetShootType v => UpcomingShoot.mk i cn sd st sl sn mn v ct pp ap nt cp ca ua
  | SetContactNumber v => UpcomingShoot.mk i cn sd st sl sn mn ty v pp ap nt cp ca ua
  | SetPackagePrice v => UpcomingShoot.mk i cn sd st sl sn mn ty ct v ap nt cp ca ua
  | SetAdvancePaid v => UpcomingShoot.mk i cn sd st sl sn mn ty ct pp v nt cp ca ua
  | SetNotes v => UpcomingShoot.mk i cn sd st sl sn mn ty ct pp ap v cp ca ua
  | SetCompleted v => UpcomingShoot.mk i cn sd st sl sn mn ty ct pp ap nt v ca ua
  | SetCreatedAt v => UpcomingShoot.mk i cn sd st sl sn mn ty ct pp ap nt cp v ua
  | SetUpdatedAt v => UpcomingShoot.mk i cn sd st sl sn mn ty ct pp ap nt cp ca v
  end.

Definition setUpdatedAt (s : UpcomingShoot.t) (v : string) : UpcomingShoot.t :=
  let 'UpcomingShoot.mk i cn sd st sl sn mn ty ct pp ap nt cp ca _ := s in
  UpcomingShoot.mk i cn sd st sl sn mn ty ct pp ap nt cp ca v.

(** [shoots.findIndex(s => s.id === id)] *)
Fixpoint findIndex (id : string) (shoots : list UpcomingShoot.t) : option nat :=
  match shoots with
  | [] => None
  | s :: r =>
      if String.eqb (UpcomingShoot.id s) id then Some O
      else option_map S (findIndex id r)
  end.

Definition updateUpcomingShoot (id : string) (updates : list UpcomingUpdate)
  : M (option UpcomingShoot.t) :=
  let* shoots := getAllUpcomingShoots in
  match findIndex id shoots with
  | None => ret None
  | Some index =>
      match shoots !! index with
      | None => ret None
      | Some old =>
          let updated := setUpdatedAt (fold_left applyUpdate updates old) (host_isoNow H) in
          let shoots' := <[index := updated]> shoots in
          let* _ := call H (OpSetItem UPCOMING_KEY)
                      (fun w => (tt, withStore w (withUpcoming (store w)
                                       (map storeUpcoming shoots')))) in
          ret (Some updated)
      end
  end.

(** [today.setHours(0, 0, 0, 0)] on [new Date()] *)
Definition todayMidnight : Z := host_setHours H (host_now H) 0 0.

(** The time stamp of [new Date(dateStr)] after [setHours(0, 0, 0, 0)]. *)
Definition midnightOf (dateStr : string) : option Z :=
  match host_dateParse H dateStr with
  | Some t => Some (host_setHours H t 0 0)
  | None => None
  end.

Definition getUpcomingShootsFromToday (shoots : list UpcomingShoot.t) : list UpcomingShoot.t :=
  let today := todayMidnight in
  List.filter (fun s =>
    let d := midnightOf (UpcomingShoot.shootDate s) in
    match d with
    | Some t => (today <=? t) && negb (UpcomingShoot.completed s)
    | None => false
    end) shoots.

Definition getDaysUntil (dateStr : string) : option Z :=
  let today := todayMidnight in
  match midnightOf dateStr with
  | Some target => Some (JS.ceilDiv (target - today) (1000 * 60 * 60 * 24))
  | None => None
  end.

(** The label of a day count; every comparison with NaN is false. *)
Definition daysLabel (days : option Z) : string :=
  match days with
  | Some d =>
      if d <? 0 then "Overdue"
      else if d =? 0 then "Today"
      else if d =? 1 then "Tomorrow"
      else if d <=? 7 then JS.showZ d +:+ " days"
      else if d <=? 30 then JS.showZ (JS.ceilDiv d 7) +:+ " weeks"
      else JS.showZ (JS.ceilDiv d 30) +:+ " months"
  | None => JS.toString None +:+ " months"
  end.

Definition getDaysUntilLabel (dateStr : string) : string :=
  let days := getDaysUntil dateStr in
  daysLabel days.

(** *** Invoices *)

Definition getInvoice (id : string) : M (option Invoice.t) :=
  let* invoices := getAllInvoices in
  ret (List.find (fun inv => String.eqb (Invoice.id inv) id) invoices).

Definition saveInvoice (invoice : InvoiceFields.t) : M Invoice.t :=
  let* invoices := getAllInvoices in
  let* newId := generateId H in
  let newInvoice :=
    Invoice.mk newId
      (InvoiceFields.invoiceNumber invoice) (InvoiceFields.invoiceDate invoice)
      (InvoiceFields.customerNames invoice) (InvoiceFields.eventDate invoice)
      (InvoiceFields.eventLocation invoice) (InvoiceFields.phoneNumber invoice)
      (InvoiceFields.items invoice) (InvoiceFields.fullPrice invoice)
      (InvoiceFields.advancePayment invoice) (host_isoNow H) (host_isoNow H) in
  let* _ := call H (OpSetItem INVOICES_KEY)
              (fun w => (tt, withStore w (withInvoices (store w)
                               (invoices ++ [newInvoice])))) in
  ret newInvoice.

Definition deleteInvoice (id : string) : M bool :=
  let* invoices := getAllInvoices in
  let filtered := List.filter (fun inv => negb (String.eqb (Invoice.id inv) id)) invoices in
  if (List.length filtered =? List.length invoices)%nat then ret false
  else
    let* _ := call H (OpSetItem INVOICES_KEY)
                (fun w => (tt, withStore w (withInvoices (store w) filtered))) in
    ret true.

(** *** Shoots *)

Definition getShoot (id : string) : M (option ShootEntry.t) :=
  let* shoots := getAllShoots in
  ret (List.find (fun s => String.eqb (ShootEntry.id s) id) shoots).

Definition deleteShoot (id : string) : M bool :=
  let* shoots := getAllShoots in
  let filtered := List.filter (fun s => negb (String.eqb (ShootEntry.id s) id)) shoots in
  if (List.length filtered =? List.length shoots)%nat then ret false
  else
    let* _ := call H (OpSetItem SHOOTS_KEY)
                (fun w => (tt, withStore w (withShoots (store w)
                                 (map storeShoot filtered)))) in
    ret true.

(** *** Upcoming shoots *)

Definition saveUpcomingShoot (shoot : UpcomingFields.t) : M UpcomingShoot.t :=
  let* shoots := getAllUpcomingShoots in
  let* newId := generateId H in
  let newShoot :=
    UpcomingShoot.mk newId
      (UpcomingFields.clientName shoot) (UpcomingFields.shootDate shoot)
      (UpcomingFields.shootTime shoot) (UpcomingFields.shootLocation shoot)
      (UpcomingFields.salonName shoot) (UpcomingFields.modelName shoot)
      (UpcomingFields.shootType shoot) (UpcomingFields.contactNumber shoot)
      (UpcomingFields.packagePrice shoot) (UpcomingFields.advancePaid shoot)
      (UpcomingFields.notes shoot) (UpcomingFields.completed shoot)
      (host_isoNow H) (host_isoNow H) in
  let* _ := call H (OpSetItem UPCOMING_KEY)
              (fun w => (tt, withStore w (withUpcoming (store w)
                               (map storeUpcoming (shoots ++ [newShoot]))))) in
  ret newShoot.

Definition deleteUpcomingShoot (id : string) : M bool :=
  let* shoots := getAllUpcomingShoots in
  let filtered := List.filter (fun s => negb (String.eqb (UpcomingShoot.id s) id)) shoots in
  if (List.length filtered =? List.length shoots)%nat then ret false
  else
    let* _ := call H (OpSetItem UPCOMING_KEY)
                (fun w => (tt, withStore w (withUpcoming (store w)
                                 (map storeUpcoming filtered)))) in
    ret true.

(** *** Calendar months and dates *)

Variable C : Calendar.

(** [d.getFullYear() === year && d.getMonth() === month] on
  [new Date(dateStr)]; both getters are NaN for an invalid date. *)
Definition inMonth (dateStr : string) (year month : Z) : bool :=
  match host_dateParse H dateStr with
  | Some t => (cal_getFullYear C t =? year) && (cal_getMonth C t =? month)
  | None => false
  end.

Definition getShootsByMonth (shoots : list ShootEntry.t) (year month : Z)
  : list ShootEntry.t :=
  List.filter (fun s => inMonth (ShootEntry.shootDate s) year month) shoots.

(** [array[index]] in a template: the text [undefined] out of range. *)
Definition textAt (names : list string) (index : Z) : string :=
  if index <? 0 then "undefined"
  else nth (Z.to_nat index) names "undefined"%string.

Definition formatDate (dateStr : string) : string :=
  if negb (JS.truthyString dateStr) then ""
  else
    match host_dateParse H dateStr with
    | None => dateStr
    | Some date =>
        let months := ["Jan"; "Feb"; "Mar"; "Apr"; "May"; "Jun";
                       "Jul"; "Aug"; "Sep"; "Oct"; "Nov"; "Dec"]%string in
        JS.padStart 2 "0" (JS.showZ (cal_getDate C date)) +:+ "."
        +:+ textAt months (cal_getMonth C date) +:+ "."
        +:+ JS.showZ (cal_getFullYear C date)
    end.

End WithHost.
End Storage.

(** ** Reminder scheduler ([lib/notifications.ts]) *)

Module Notifications.
Section WithHost.

Variable H : Host.

Definition REMINDER_SETTINGS_KEY : string := "ns_reminder_settings".

Definition DEFAULT_REMINDER_SETTINGS : ReminderSettings :=
  mkReminderSettings true true "1d".

(** value, label, description *)
Definition TIMING_OPTIONS : list (string * string * string) :=
  [ ("1h", "1 Hour", "1 hour before");
    ("3h", "3 Hours", "3 hours before");
    ("1d", "1 Day", "1 day before");
    ("2d", "2 Days", "2 days before") ].

Definition getReminderSettings : M ReminderSettings :=
  tryCatch
    (let* saved := call H (OpGetItem REMINDER_SETTINGS_KEY)
                     (fun w => (ns_reminder_settings (store w), w)) in
     match saved with
     | Some settings => ret settings
     | None => ret DEFAULT_REMINDER_SETTINGS
     end)
    (ret DEFAULT_REMINDER_SETTINGS).

Definition getTimingOffset (timing : string) : Z :=
  if String.eqb timing "1h" then 1 * 60 * 60 * 1000
  else if String.eqb timing "3h" then 3 * 60 * 60 * 1000
  else if String.eqb timing "1d" then 24 * 60 * 60 * 1000
  else if String.eqb timing "2d" then 2 * 24 * 60 * 60 * 1000
  else 24 * 60 * 60 * 1000.

(** *** The two regular expressions *)

(** Exactly [n] digits at the start of [s]: the digits and the rest. *)
Fixpoint takeDigits (n : nat) (s : string) : option (string * string) :=
  match n with
  | O => Some (EmptyString, s)
  | S m =>
      match s with
      | String c r =>
          if JS.isDigit c then
            match takeDigits m r with
            | Some (d, t) => Some (String c d, t)
            | None => None
            end
          else None
      | EmptyString => None
      end
  end.

Definition orElse {A : Type} (a b : option A) : option A :=
  match a with
  | Some _ => a
  | None => b
  end.

(** [\d{1,2}] followed by [k]: two digits are tried before one. *)
Definition oneOrTwoDigits {A : Type} (s : string) (k : string -> string -> option A)
  : option A :=
  let try n :=
    match takeDigits n s with
    | Some (d, t) => k d t
    | None => None
    end in
  orElse (try 2%nat) (try 1%nat).

(** [[\/\-]] *)
Definition afterSeparator (s : string) : option string :=
  match s with
  | String c r => if (Ascii.eqb c "/" || Ascii.eqb c "-")%bool then Some r else None
  | EmptyString => None
  end.

(** [(\d{1,2})[\/\-](\d{1,2})[\/\-](\d{4})] anchored at the start of [s] *)
Definition dateMatchAt (s : string) : option (string * string * string) :=
  oneOrTwoDigits s (fun g1 t1 =>
    match afterSeparator t1 with
    | None => None
    | Some t2 =>
        oneOrTwoDigits t2 (fun g2 t3 =>
          match afterSeparator t3 with
          | None => None
          | Some t4 =>
              match takeDigits 4 t4 with
              | Some (g3, _) => Some (g1, g2, g3)
              | None => None
              end
          end)
    end).

(** [dateStr.match(...)]: the leftmost match. *)
Fixpoint dateMatch (s : string) : option (string * string * string) :=
  match dateMatchAt s with
  | Some m => Some m
  | None =>
      match s with
      | String _ r => dateMatch r
      | EmptyString => None
      end
  end.

(** [parseInt] of a captured run of digits. *)
Definition digitsValue (g : string) : Z := Z.of_N (JS.scanDigits 0 g).

(** The time stamp of the date, [None] for [null]. *)
Definition parseDate (dateStr : string) : option Z :=
  if negb (JS.truthyString dateStr) then None
  else
    match dateMatch dateStr with
    | Some (g1, g2, g3) =>
        Some (host_localDate H (digitsValue g3) (digitsValue g2 - 1) (digitsValue g1) 9 0 0)
    | None =>
        match host_dateParse H dateStr with
        | Some t => Some t
        | None => None
        end
    end.

(** [(AM|PM)] under the [i] flag; [true] for PM once upper-cased. *)
Definition period (s : string) : option bool :=
  let l := JS.toLowerCase s in
  if JS.startsWith l "am" then Some false
  else if JS.startsWith l "pm" then Some true
  else None.

(** [(\d{1,2}):(\d{2})\s*(AM|PM)] anchored at the start of [s] *)
Definition timeMatchAt (s : string) : option (string * string * bool) :=
  oneOrTwoDigits s (fun g1 t1 =>
    match t1 with
    | String ":" t2 =>
        match takeDigits 2 t2 with
        | Some (g2, t3) =>
            match period (JS.trimStart t3) with
            | Some pm => Some (g1, g2, pm)
            | None => None
            end
        | None => None
        end
    | _ => None
    end).

Fixpoint timeMatch (s : string) : option (string * string * bool) :=
  match timeMatchAt s with
  | Some m => Some m
  | None =>
      match s with
      | String _ r => timeMatch r
      | EmptyString => None
      end
  end.

(** hours and minutes *)
Definition parseTime (timeStr : string) : option (Z * Z) :=
  if negb (JS.truthyString timeStr) then None
  else
    match timeMatch timeStr with
    | None => None
    | Some (g1, g2, pm) =>
        let hours := digitsValue g1 in
        let minutes := digitsValue g2 in
        let hours := if pm && negb (hours =? 12) then hours + 12 else hours in
        let hours := if negb pm && (hours =? 12) then 0 else hours in
        Some (hours, minutes)
    end.

(** *** Scheduling and cancelling *)

Definition notifKey (key : string) : string := "ns_notif_" +:+ key.

Definition cancelReminder (key : string) : M unit :=
  tryCatch
    (let* existingId := getItem H (notifKey key) in
     match existingId with
     | Some ident =>
         if JS.truthyString ident then
           let* _ := cancelScheduledNotificationAsync H ident in
           removeItem H (notifKey key)
         else ret tt
     | None => ret tt
     end)
    (ret tt).

Definition saveScheduledId (key notifId : string) : M unit :=
  setItem H (notifKey key) notifId.

(** [TIMING_OPTIONS.find(t => t.value === timing)?.description || 'soon'] *)
Definition timingLabel (timing : string) : string :=
  match List.find (fun t => String.eqb (fst (fst t)) timing) TIMING_OPTIONS with
  | Some t => JS.orString (snd t) "soon"
  | None => "soon"
  end.

Definition channel : option string :=
  match host_os H with
  | Android => Some "reminders"%string
  | _ => None
  end.

Definition isWeb : bool :=
  match host_os H with
  | Web => true
  | _ => false
  end.

Definition place (location : string) : string :=
  if JS.truthyString location then " at " +:+ location else "".

Definition scheduleShootReminder
  (shootId clientName shootDate shootTime shootType location : string)
  : M (option string) :=
  if isWeb then ret None
  else
    let* settings := getReminderSettings in
    if negb (shootReminders settings) then ret None
    else
      match parseDate shootDate with
      | None => ret None
      | Some parsed =>
          let date :=
            match parseTime shootTime with
            | Some (hours, minutes) => host_setHours H parsed hours minutes
            | None => parsed
            end in
          let offset := getTimingOffset (reminderTiming settings) in
          let trigger := date - offset in
          if trigger <=? host_now H then ret None
          else
            let* _ := cancelReminder ("shoot_" +:+ shootId) in
            let label := timingLabel (reminderTiming settings) in
            let* ident := scheduleNotificationAsync H
              (mkNotification (shootType +:+ " Shoot - " +:+ label)
                              (clientName +:+ place location)
                              "shoot" shootId channel trigger) in
            let* _ := saveScheduledId ("shoot_" +:+ shootId) ident in
            ret (Some ident)
      end.

Definition scheduleInvoiceReminder
  (invoiceId invoiceNumber customerNames eventDate eventLocation : string)
  : M (option string) :=
  if isWeb then ret None
  else
    let* settings := getReminderSettings in
    if negb (invoiceReminders settings) then ret None
    else
      match parseDate eventDate with
      | None => ret None
      | Some parsed =>
          let date := host_setHours H parsed 8 0 in
          let offset := getTimingOffset (reminderTiming settings) in
          let trigger := date - offset in
          if trigger <=? host_now H then ret None
          else
            let* _ := cancelReminder ("invoice_" +:+ invoiceId) in
            let label := timingLabel (reminderTiming settings) in
            let* ident := scheduleNotificationAsync H
              (mkNotification ("Invoice #" +:+ invoiceNumber +:+ " Event - " +:+ label)
                              (customerNames +:+ place eventLocation)
                              "invoice" invoiceId channel trigger) in
            let* _ := saveScheduledId ("invoice_" +:+ invoiceId) ident in
            ret (Some ident)
      end.

Definition saveReminderSettings (settings : ReminderSettings) : M unit :=
  call H (OpSetItem REMINDER_SETTINGS_KEY)
       (fun w => (tt, withStore w (withSettings (store w) settings))).

(** Whether the platform rejects [cancelAllScheduledNotificationsAsync]. *)
Variable cancelAllRejected : bool.

(** [Notifications.cancelAllScheduledNotificationsAsync()] *)
Definition cancelAllScheduledNotificationsAsync : M unit :=
  fun w =>
    if cancelAllRejected then (Throw, w)
    else (Ok tt, mkWorld (store w) ∅ (cancelRequests w) (drawn w)).

(** [for (const x of l) { await body(x) }] *)
Fixpoint forEach {A : Type} (l : list A) (body : A -> M unit) : M unit :=
  match l with
  | [] => ret tt
  | x :: r => let* _ := body x in forEach r body
  end.

Definition rescheduleAllReminders
  (shoots : list UpcomingShoot.t) (invoices : list Invoice.t) : M unit :=
  if isWeb then ret tt
  else
    let* _ := cancelAllScheduledNotificationsAsync in
    let* settings := getReminderSettings in
    let* _ :=
      if shootReminders settings then
        forEach shoots (fun shoot =>
          if negb (UpcomingShoot.completed shoot) then
            let* _ := scheduleShootReminder
                        (UpcomingShoot.id shoot) (UpcomingShoot.clientName shoot)
                        (UpcomingShoot.shootDate shoot) (UpcomingShoot.shootTime shoot)
                        (shootTypeName (UpcomingShoot.shootType shoot))
                        (UpcomingShoot.shootLocation shoot) in
            ret tt
          else ret tt)
      else ret tt in
    if invoiceReminders settings then
      forEach invoices (fun invoice =>
        let* _ := scheduleInvoiceReminder
                    (Invoice.id invoice) (Invoice.invoiceNumber invoice)
                    (Invoice.customerNames invoice) (Invoice.eventDate invoice)
                    (Invoice.eventLocation invoice) in
        ret tt)
    else ret tt.

End WithHost.
End Notifications.

(** ** The upcoming-shoots screen ([app/(tabs)/upcoming.tsx]) *)

Module UpcomingTab.
Section WithHost.

Variable H : Host.

(** The [ShootEntry] fields copied from a completed booking. *)
Definition completedFields (shoot : UpcomingShoot.t) : ShootFields.t :=
  ShootFields.mk
    (UpcomingShoot.clientName shoot)
    (UpcomingShoot.shootDate shoot)
    (JS.orString (UpcomingShoot.shootTime shoot) "")
    (UpcomingShoot.shootLocation shoot)
    (JS.orString (UpcomingShoot.salonName shoot) "")
    (JS.orString (UpcomingShoot.modelName shoot) "")
    (UpcomingShoot.shootType shoot)
    (JS.orString (UpcomingShoot.packagePrice shoot) "0")
    (JS.orString (UpcomingShoot.advancePaid shoot) "")
    (JS.orString (UpcomingShoot.contactNumber shoot) "")
    (JS.orString (UpcomingShoot.notes shoot) "").

(** The handler of the check circle.  Its last two statements, the haptic
  feedback and the reload of the screen's list, leave the store and the
  platform as they are; [upcomingView] below is what the reload shows. *)
Definition handleToggleComplete (shoot : UpcomingShoot.t) : M unit :=
  let markingComplete := negb (UpcomingShoot.completed shoot) in
  let* _ := Storage.updateUpcomingShoot H (UpcomingShoot.id shoot)
              [SetCompleted markingComplete] in
  if markingComplete then
    let* _ := detached (Notifications.cancelReminder H ("shoot_" +:+ UpcomingShoot.id shoot)) in
    tryCatch
      (let* _ := Storage.saveShoot H (completedFields shoot) in ret tt)
      (ret tt)
  else
    detached (Notifications.scheduleShootReminder H
                (UpcomingShoot.id shoot) (UpcomingShoot.clientName shoot)
                (UpcomingShoot.shootDate shoot) (UpcomingShoot.shootTime shoot)
                (shootTypeName (UpcomingShoot.shootType shoot))
                (UpcomingShoot.shootLocation shoot)).

(** What the screen lists after [loadShoots()]. *)
Definition upcomingView : M (list UpcomingShoot.t) :=
  let* allShoots := Storage.getAllUpcomingShoots H in
  ret (Storage.getUpcomingShootsFromToday H allShoots).

(** [allShoots.filter(s => s.completed)] *)
Definition completedShoots (allShoots : list UpcomingShoot.t) : list UpcomingShoot.t :=
  List.filter (fun s => UpcomingShoot.completed s) allShoots.

(** [allShoots.filter(s => !s.completed && getDaysUntil(s.shootDate) < 0)] *)
Definition overdueShoots (allShoots : list UpcomingShoot.t) : list UpcomingShoot.t :=
  List.filter (fun s =>
    negb (UpcomingShoot.completed s) &&
    match Storage.getDaysUntil H (UpcomingShoot.shootDate s) with
    | Some days => days <? 0
    | None => false
    end) allShoots.

Definition displayList (showCompleted : bool) (allShoots : list UpcomingShoot.t)
  : list UpcomingShoot.t :=
  if showCompleted then completedShoots allShoots
  else overdueShoots allShoots ++ Storage.getUpcomingShootsFromToday H allShoots.

(** The confirmed deletion of [handleDelete]. *)
Definition handleDelete (id : string) : M unit :=
  let* _ := Storage.deleteUpcomingShoot H id in
  detached (Notifications.cancelReminder H ("shoot_" +:+ id)).

(** [parts.join(separator)] *)
Fixpoint join (separator : string) (parts : list string) : string :=
  match parts with
  | [] => EmptyString
  | [p] => p
  | p :: r => p +:+ separator +:+ join separator r
  end.

(** The state of the booking form. *)
Record Form : Type := mkForm {
  editingId : option string;
  clientName : string;
  shootDate : string;
  shootTime : string;
  shootLocation : string;
  salonName : string;
  modelName : string;
  shootType : ShootType;
  phoneNumbers : list string;
  packagePrice : string;
  advancePaid : string;
  notes : string;
}.

(** [phoneNumbers.map(n => n.trim()).filter(n => n).join(', ')] *)
Definition contactOf (f : Form) : string :=
  join ", " (List.filter JS.truthyString (map JS.trim (phoneNumbers f))).

Definition remind (id : string) (f : Form) : M unit :=
  detached (Notifications.scheduleShootReminder H id
              (JS.trim (clientName f)) (shootDate f) (JS.trim (shootTime f))
              (shootTypeName (shootType f)) (JS.trim (shootLocation f))).

Definition handleSave (f : Form) : M unit :=
  tryCatch
    (match editingId f with
     | Some (String c r) =>
         let id := String c r in
         let* _ := Storage.updateUpcomingShoot H id
                     [ SetClientName (JS.trim (clientName f));
                       SetShootDate (shootDate f);
                       SetShootTime (JS.trim (shootTime f));
                       SetShootLocation (JS.trim (shootLocation f));
                       SetSalonName (JS.trim (salonName f));
                       SetModelName (JS.trim (modelName f));
                       SetShootType (shootType f);
                       SetContactNumber (contactOf f);
                       SetPackagePrice (packagePrice f);
                       SetAdvancePaid (advancePaid f);
                       SetNotes (JS.trim (notes f)) ] in
         remind id f
     | _ =>
         let* newShoot := Storage.saveUpcomingShoot H
                            (UpcomingFields.mk
                               (JS.trim (clientName f)) (shootDate f)
                               (JS.trim (shootTime f)) (JS.trim (shootLocation f))
                               (JS.trim (salonName f)) (JS.trim (modelName f))
                               (shootType f) (contactOf f) (packagePrice f)
                               (advancePaid f) (JS.trim (notes f)) false) in
         remind (UpcomingShoot.id newShoot) f
     end)
    (ret tt).

End WithHost.
End UpcomingTab.

(** ** The time picker ([components/TimePicker.tsx]) *)

Module TimePicker.

Definition HOURS_12 : list Z := [12; 1; 2; 3; 4; 5; 6; 7; 8; 9; 10; 11].

Definition MINUTES : list string := ["00"; "15"; "30"; "45"]%string.

Inductive Period : Type := AM | PM.

Definition periodName (p : Period) : string :=
  match p with
  | AM => "AM"
  | PM => "PM"
  end.

(** The text handed to [onChange] by [selectMinute]; an hour that was not
  chosen is [null]. *)
Definition selectMinute (selectedHour : option Z) (selectedPeriod : Period) (m : string)
  : string :=
  match selectedHour with
  | Some h => JS.showZ h
  | None => "null"
  end +:+ ":" +:+ m +:+ " " +:+ periodName selectedPeriod.

(** The hour, the minute text and the period that the picker reads from
  its value. *)
Definition parsed (value : string) : option (Z * string * Period) :=
  if negb (JS.truthyString value) then None
  else
    match Notifications.timeMatch value with
    | Some (g1, g2, pm) =>
        Some (Notifications.digitsValue g1, g2, if pm then PM else AM)
    | None => None
    end.

End TimePicker.

(** ** The date picker ([components/DatePicker.tsx]) *)

Module DatePicker.
Section WithHost.

Variable H : Host.
Variable C : Calendar.

(** [s.split(separator)] for a separator of one character *)
Fixpoint split (separator : ascii) (s : string) : list string :=
  match s with
  | EmptyString => [EmptyString]
  | String c r =>
      if Ascii.eqb c separator then EmptyString :: split separator r
      else
        match split separator r with
        | p :: t => String c p :: t
        | [] => [String c EmptyString]
        end
  end.

Record Parsed : Type := mkParsed {
  year : option Z;
  month : option Z;
  day : option Z;
}.

Definition parsed (value : string) : option Parsed :=
  if negb (JS.truthyString value) then None
  else
    match split "-" value with
    | [p0; p1; p2] =>
        Some (mkParsed (JS.parseInt p0)
                       (match JS.parseInt p1 with
                        | Some m => Some (m - 1)
                        | None => None
                        end)
                       (JS.parseInt p2))
    | _ => None
    end.

(** [new Date(year, monthIndex + 1, 0).getDate()] *)
Definition lastDay (year monthIndex : Z) : Z :=
  cal_getDate C (host_localDate H year (monthIndex + 1) 0 0 0 0).

(** The text handed to [onChange] by [selectDay]. *)
Definition selectDay (pickerYear : Z) (pickerMonth : option Z) (d : Z) : string :=
  let month := match pickerMonth with Some m => m | None => 0 end in
  let maxDay := lastDay pickerYear month in
  let safeDay := Z.min d maxDay in
  JS.showZ pickerYear +:+ "-" +:+ JS.padStart 2 "0" (JS.showZ (month + 1)) +:+ "-"
  +:+ JS.padStart 2 "0" (JS.showZ safeDay).

End WithHost.
End DatePicker.

(** ** A concrete device

  A reliable Android device whose clock runs on UTC, used to evaluate the
  program on concrete inputs. *)

Module Device.

(** Days from 1970-01-01 to the given civil date (proleptic Gregorian). *)
Definition daysFromCivil (y m d : Z) : Z :=
  let y' := if m <=? 2 then y - 1 else y in
  let era := y' / 400 in
  let yoe := y' - era * 400 in
  let mp := if 2 <? m then m - 3 else m + 9 in
  let doy := (153 * mp + 2) / 5 + d - 1 in
  let doe := yoe * 365 + yoe / 4 - yoe / 100 + doy in
  era * 146097 + doe - 719468.

Definition msPerDay : Z := 1000 * 60 * 60 * 24.

Definition localDate (year monthIndex day hours minutes seconds : Z) : Z :=
  let year := if (0 <=? year) && (year <=? 99) then 1900 + year else year in
  (daysFromCivil year (monthIndex + 1) day * 86400
   + hours * 3600 + minutes * 60 + seconds) * 1000.

Definition setHours (t hours minutes : Z) : Z :=
  (t / msPerDay) * msPerDay + (hours * 60 + minutes) * 60000.

(** Dates written [YYYY-MM-DD]; anything else is an invalid date. *)
Definition dateParse (s : string) : option Z :=
  match Notifications.takeDigits 4 s with
  | Some (y, String "-" r1) =>
      match Notifications.takeDigits 2 r1 with
      | Some (m, String "-" r2) =>
          match Notifications.takeDigits 2 r2 with
          | Some (d, EmptyString) =>
              Some (daysFromCivil (Notifications.digitsValue y)
                                  (Notifications.digitsValue m)
                                  (Notifications.digitsValue d) * msPerDay)
          | _ => None
          end
      | _ => None
      end
  | _ => None
  end.

(** 2024-03-05 10:00 UTC *)
Definition clock : Z := localDate 2024 2 5 10 0 0.

Definition host : Host :=
  mkHost Android clock "2024-03-05T10:00:00.000Z" dateParse localDate setHours
         (fun n => "1709632800000r" +:+ JS.showN (N.of_nat n))
         (fun n => "notification-" +:+ JS.showN (N.of_nat n))
         (fun _ => false).

Definition emptyStore : Store := mkStore ∅ None None None None.

Definition emptyWorld : World := mkWorld emptyStore ∅ [] 0.

Definition booking (id date : string) (done : bool) : StoredUpcoming.t :=
  StoredUpcoming.mk id "Nimal" date "4:30 PM" "Kandy" None None Wedding
                    "0771234567" "45000" "10000" "" done
                    "2024-03-01T08:00:00.000Z" "2024-03-01T08:00:00.000Z".

Definition bookedWorld : World :=
  mkWorld (mkStore {[ "ns_notif_shoot_b1" := "notification-7" ]} None None
                   (Some [booking "b1" "2024-03-06" false;
                          booking "b2" "2024-03-09" false])
                   None)
          {[ "notification-7" :=
               mkNotification "Wedding Shoot - 1 day before" "Nimal at Kandy"
                              "shoot" "b1" (Some "reminders") 0 ]} [] 8.

Definition legacyShoot : StoredShoot.t :=
  StoredShoot.mk "s1" None "2024-02-10" None "Galle" None (Some "Ama") Bridal
                 "25000" None "0719876543" "outdoor"
                 "2024-02-01T08:00:00.000Z" "2024-02-01T08:00:00.000Z".

Definition shoot (name phone price : string) : ShootEntry.t :=
  ShootEntry.mk "s" name "2024-02-10" "" "Galle" "" "" Bridal price ""
                phone "" "2024-02-01T08:00:00.000Z" "2024-02-01T08:00:00.000Z".

Definition invoice (full advance : string) : Invoice.t :=
  Invoice.mk "i1" "0001" "2024-03-01" "Kamal & Sita" "2024-04-01" "Colombo"
             "0771234567" [] full advance
             "2024-03-01T08:00:00.000Z" "2024-03-01T08:00:00.000Z".

(** The civil date of a count of days from 1970-01-01: year, month from 1,
  day of the month. *)
Definition civilFromDays (days : Z) : Z * Z * Z :=
  let z := days + 719468 in
  let era := z / 146097 in
  let doe := z - era * 146097 in
  let yoe := (doe - doe / 1460 + doe / 36524 - doe / 146096) / 365 in
  let doy := doe - (365 * yoe + yoe / 4 - yoe / 100) in
  let mp := (5 * doy + 2) / 153 in
  let d := doy - (153 * mp + 2) / 5 + 1 in
  let m := if mp <? 10 then mp + 3 else mp - 9 in
  (yoe + era * 400 + (if m <=? 2 then 1 else 0), m, d).

Definition calendar : Calendar :=
  mkCalendar (fun t => fst (fst (civilFromDays (t / msPerDay))))
             (fun t => snd (fst (civilFromDays (t / msPerDay))) - 1)
             (fun t => snd (civilFromDays (t / msPerDay))).

Definition form (name date time : string) : UpcomingTab.Form :=
  UpcomingTab.mkForm None name date time " Kandy " "" "" Wedding
                     [" 0771234567 "; ""; "0112345678"] "45000" "10000" "".

End Device.

(** ** Definitions that follow the specification's words *)

Module Spec.

(** A query that is empty or made of white space only. *)
Fixpoint isBlank (s : string) : bool :=
  match s with
  | EmptyString => true
  | String c r => JS.isSpace c && isBlank r
  end.

(** [q] occurs in [s] as a substring. *)
Definition occursIn (q s : string) : Prop :=
  exists a b : string, s = a +:+ q +:+ b.

Definition zeroIfNaN (v : JS.number) : JS.number :=
  match v with
  | JS.NaN => JS.zero
  | _ => v
  end.

(** Parsing in which a parse failure gives 0. *)
Definition parseMoney (s : string) : JS.number := zeroIfNaN (JS.parseFloat s).

(** The sum of the numbers, added to 0 one after the other in the order of
  the list. *)
Definition sumNumbers (l : list JS.number) : JS.number :=
  fold_left JS.add l JS.zero.

(** The text fields of a shoot that [searchShoots] looks at. *)
Definition searchedShootFields (s : ShootEntry.t) : list string :=
  [ ShootEntry.clientName s; ShootEntry.shootLocation s; ShootEntry.salonName s;
    ShootEntry.modelName s; shootTypeName (ShootEntry.shootType s);
    ShootEntry.notes s ].

Definition anyFieldIncludes (q : string) (fields : list string) : bool :=
  existsb (fun f => JS.includes (JS.toLowerCase f) q) fields.

Fixpoint allDigits (s : string) : bool :=
  match s with
  | EmptyString => true
  | String c r => JS.isDigit c && allDigits r
  end.

(** [k] zeros *)
Fixpoint zeros (k : nat) : string :=
  match k with
  | O => EmptyString
  | S m => String "0" (zeros m)
  end.

(** The invoice counter holds [n]: the entry is absent and [n] is 0, or
    the entry is the decimal numeral of [n]. *)
Definition counterIs (w : World) (n : Z) : Prop :=
  match items (store w) !! Storage.COUNTER_KEY with
  | None => n = 0
  | Some c => c = JS.showZ n /\ 0 <= n
  end.

(** The reminder settings in force: the stored ones, else the defaults. *)
Definition settingsOf (H : Host) (w : World) : ReminderSettings :=
  match fst (Notifications.getReminderSettings H w) with
  | Ok settings => settings
  | Throw => Notifications.DEFAULT_REMINDER_SETTINGS
  end.

(** The configured lead time, in milliseconds. *)
Definition leadTime (H : Host) (w : World) : Z :=
  Notifications.getTimingOffset (reminderTiming (settingsOf H w)).

(** The date and time a shoot reminder is about. *)
Definition shootTarget (H : Host) (shootDate shootTime : string) : option Z :=
  match Notifications.parseDate H shootDate with
  | Some parsed =>
      Some (match Notifications.parseTime shootTime with
            | Some (hours, minutes) => host_setHours H parsed hours minutes
            | None => parsed
            end)
  | None => None
  end.

(** The date and time an invoice reminder is about: 08:00 of the event. *)
Definition invoiceTarget (H : Host) (eventDate : string) : option Z :=
  match Notifications.parseDate H eventDate with
  | Some parsed => Some (host_setHours H parsed 8 0)
  | None => None
  end.

(** The order of [getAllUpcomingShoots]: by shoot date, ascending. *)
Definition byShootDate (H : Host) (a b : UpcomingShoot.t) : option Z :=
  dateDiff H (UpcomingShoot.shootDate a) (UpcomingShoot.shootDate b).

(** The order of [getAllShoots]: by shoot date, descending. *)
Definition byShootDateDesc (H : Host) (a b : ShootEntry.t) : option Z :=
  dateDiff H (ShootEntry.shootDate b) (ShootEntry.shootDate a).

(** The booking once marked completed at the host's current time. *)
Definition markCompleted (H : Host) (s : UpcomingShoot.t) : UpcomingShoot.t :=
  Storage.setUpdatedAt (Storage.applyUpdate s (SetCompleted true)) (host_isoNow H).

(** No call to the platform is rejected. *)
Definition reliable (H : Host) : Prop := forall op, host_fails H op = false.

(** Steps 4 and 5 of scheduling: replace the reminder stored under [key]
  by a new notification. *)
Definition register (H : Host) (key : string) (n : Notification) : M (option string) :=
  let* _ := Notifications.cancelReminder H key in
  let* ident := scheduleNotificationAsync H n in
  let* _ := Notifications.saveScheduledId H key ident in
  ret (Some ident).

(** The notification of a shoot reminder due at [trigger]. *)
Definition shootNotification (H : Host) (timing shootId clientName shootType location : string)
           (trigger : Z) : Notification :=
  mkNotification (shootType +:+ " Shoot - " +:+ Notifications.timingLabel timing)
                 (clientName +:+ Notifications.place location)
                 "shoot" shootId (Notifications.channel H) trigger.

(** The notification of an invoice reminder due at [trigger]. *)
Definition invoiceNotification (H : Host)
           (timing invoiceId invoiceNumber customerNames eventLocation : string)
           (trigger : Z) : Notification :=
  mkNotification ("Invoice #" +:+ invoiceNumber +:+ " Event - "
                  +:+ Notifications.timingLabel timing)
                 (customerNames +:+ Notifications.place eventLocation)
                 "invoice" invoiceId (Notifications.channel H) trigger.

(** The results of [k] calls of [getNextInvoiceNumber] in a row, and the
  device after them; a rejected call ends the run. *)
Fixpoint invoiceNumbers (H : Host) (k : nat) (w : World) : list string * World :=
  match k with
  | O => ([], w)
  | S k' =>
      match Storage.getNextInvoiceNumber H w with
      | (Ok r, w') => let '(rs, w'') := invoiceNumbers H k' w' in (r :: rs, w'')
      | (Throw, w') => ([], w')
      end
  end.

(** One or two decimal digits. *)
Definition oneOrTwo (s : string) : bool :=
  match s with
  | String a EmptyString => JS.isDigit a
  | String a (String b EmptyString) => JS.isDigit a && JS.isDigit b
  | _ => false
  end.

(** Exactly [n] decimal digits. *)
Definition digitsOfLength (n : nat) (s : string) : bool :=
  allDigits s && (String.length s =? n)%nat.

(** A separator of the date pattern: a slash or a hyphen. *)
Definition isSeparator (c : ascii) : bool := (Ascii.eqb c "/" || Ascii.eqb c "-")%bool.

(** The text fields of an invoice that [searchInvoices] looks at. *)
Definition searchedInvoiceFields (inv : Invoice.t) : list string :=
  [ Invoice.customerNames inv; Invoice.invoiceNumber inv; Invoice.eventLocation inv;
    Invoice.phoneNumber inv ].

(** The order of [getAllInvoices]: by creation time, descending. *)
Definition byCreatedDesc (H : Host) (a b : Invoice.t) : option Z :=
  dateDiff H (Invoice.createdAt b) (Invoice.createdAt a).

(** What [getAllShoots] reads for a shoot entry that was written as it is:
  an empty client name is read as the model name. *)
Definition readBack (e : ShootEntry.t) : ShootEntry.t :=
  Storage.backfillShoot (Storage.storeShoot e).

(** The value that a [Partial<UpcomingShoot>] gives to a property, if it
  gives one: of several values, the last. *)
Definition given {A : Type} (pick : UpcomingUpdate -> option A)
           (updates : list UpcomingUpdate) : option A :=
  last (omap pick updates).

Definition idGiven (u : UpcomingUpdate) : option string :=
  match u with SetId v => Some v | _ => None end.

Definition clientNameGiven (u : UpcomingUpdate) : option string :=
  match u with SetClientName v => Some v | _ => None end.

Definition shootDateGiven (u : UpcomingUpdate) : option string :=
  match u with SetShootDate v => Some v | _ => None end.

Definition shootTimeGiven (u : UpcomingUpdate) : option string :=
  match u with SetShootTime v => Some v | _ => None end.

Definition shootLocationGiven (u : UpcomingUpdate) : option string :=
  match u with SetShootLocation v => Some v | _ => None end.

Definition salonNameGiven (u : UpcomingUpdate) : option string :=
  match u with SetSalonName v => Some v | _ => None end.

Definition modelNameGiven (u : UpcomingUpdate) : option string :=
  match u with SetModelName v => Some v | _ => None end.

Definition shootTypeGiven (u : UpcomingUpdate) : option ShootType :=
  match u with SetShootType v => Some v | _ => None end.

Definition contactNumberGiven (u : UpcomingUpdate) : option string :=
  match u with SetContactNumber v => Some v | _ => None end.

Definition packagePriceGiven (u : UpcomingUpdate) : option string :=
  match u with SetPackagePrice v => Some v | _ => None end.

Definition advancePaidGiven (u : UpcomingUpdate) : option string :=
  match u with SetAdvancePaid v => Some v | _ => None end.

Definition notesGiven (u : UpcomingUpdate) : option string :=
  match u with SetNotes v => Some v | _ => None end.

Definition completedGiven (u : UpcomingUpdate) : option bool :=
  match u with SetCompleted v => Some v | _ => None end.

Definition createdAtGiven (u : UpcomingUpdate) : option string :=
  match u with SetCreatedAt v => Some v | _ => None end.

(** [{ ...s, ...updates, updatedAt: now }] property by property: each
  property has the value that the updates give to it, else the one of [s];
  [updatedAt] is [now] whatever the updates give. *)
Definition spread (s : UpcomingShoot.t) (updates : list UpcomingUpdate) (now : string)
  : UpcomingShoot.t :=
  UpcomingShoot.mk
    (default (UpcomingShoot.id s) (given idGiven updates))
    (default (UpcomingShoot.clientName s) (given clientNameGiven updates))
    (default (UpcomingShoot.shootDate s) (given shootDateGiven updates))
    (default (UpcomingShoot.shootTime s) (given shootTimeGiven updates))
    (default (UpcomingShoot.shootLocation s) (given shootLocationGiven updates))
    (default (UpcomingShoot.salonName s) (given salonNameGiven updates))
    (default (UpcomingShoot.modelName s) (given modelNameGiven updates))
    (default (UpcomingShoot.shootType s) (given shootTypeGiven updates))
    (default (UpcomingShoot.contactNumber s) (given contactNumberGiven updates))
    (default (UpcomingShoot.packagePrice s) (given packagePriceGiven updates))
    (default (UpcomingShoot.advancePaid s) (given advancePaidGiven updates))
    (default (UpcomingShoot.notes s) (given notesGiven updates))
    (default (UpcomingShoot.completed s) (given completedGiven updates))
    (default (UpcomingShoot.createdAt s) (given createdAtGiven updates))
    now.

End Spec.


(** ** Evaluating the program *)

Example parseInt_7 : JS.parseInt " 0042abc" = Some 42.
Proof. reflexivity. Qed.

Example showZ_120 : JS.showZ 120 = "120"%string.
Proof. reflexivity. Qed.

Example padStart_7 : JS.padStart 4 "0" (JS.showZ 7) = "0007"%string.
Proof. reflexivity. Qed.

Example parseFloat_abc : JS.parseFloat "abc" = JS.NaN.
Proof. reflexivity. Qed.

Example parseFloat_num : JS.parseFloat " 12.50x" = JS.Fin (Q2Qc (25 # 2)).
Proof. unfold JS.parseFloat; simpl. f_equal. apply Qc_is_canon. reflexivity. Qed.

Example parseDate_slashes :
  Notifications.parseDate Device.host "on 6/3/2024" = Some (Device.localDate 2024 2 6 9 0 0).
Proof. reflexivity. Qed.

Example parseTime_pm : Notifications.parseTime "4:30 pm" = Some (16, 30).
Proof. reflexivity. Qed.

Example upcoming_view_booked :
  fst (UpcomingTab.upcomingView Device.host Device.bookedWorld)
  = Ok (map (Storage.backfillUpcoming)
            [Device.booking "b1" "2024-03-06" false; Device.booking "b2" "2024-03-09" false]).
Proof. vm_compute. reflexivity. Qed.
(** ** Facts about the host primitives *)

Lemma startsWith_occurs (s p : string) :
  JS.startsWith s p = true <-> exists b, s = p +:+ b.
Proof.
  revert s; induction p as [|a p IH]; intros s.
  - split; [intros _; exists s; reflexivity | destruct s; reflexivity].
  - destruct s as [|b s]; cbn [JS.startsWith].
    + split; [discriminate | intros [x Hx]; discriminate].
    + destruct (Ascii.eqb_spec a b) as [->|Hne].
      * rewrite IH. split; intros [x Hx]; exists x; [now rewrite Hx | now inversion Hx].
      * split; [discriminate | intros [x Hx]; inversion Hx; congruence].
Qed.

Lemma includes_unfold (s q : string) :
  JS.includes s q
  = JS.startsWith s q
    || match s with EmptyString => false | String _ r => JS.includes r q end.
Proof. destruct s; cbn [JS.includes]; destruct (JS.startsWith _ q); reflexivity. Qed.

Lemma includes_occurs (s q : string) :
  JS.includes s q = true <-> Spec.occursIn q s.
Proof.
  unfold Spec.occursIn. induction s as [|c s IH];
    rewrite includes_unfold, orb_true_iff, startsWith_occurs.
  - split.
    + intros [[b Hb]|Hf]; [|discriminate]. exists EmptyString, b. exact Hb.
    + intros (a & b & Hab). left. destruct a; [|discriminate]. eauto.
  - rewrite IH. split.
    + intros [[b Hb]|(a & b & ->)].
      * exists EmptyString, b. exact Hb.
      * exists (String c a), b. reflexivity.
    + intros (a & b & Hab). destruct a as [|c' a].
      * left. eauto.
      * right. inversion Hab; subst. eauto.
Qed.

Lemma lowerChar_space (c : ascii) : JS.isSpace c = true -> JS.lowerChar c = c.
Proof.
  destruct c as [[] [] [] [] [] [] [] []]; vm_compute; congruence.
Qed.

Lemma trimStart_blank (s : string) : Spec.isBlank s = true -> JS.trimStart s = EmptyString.
Proof.
  induction s as [|c s IH]; simpl; [reflexivity|].
  intros [Hc Hs]%andb_prop. rewrite Hc. auto.
Qed.

Lemma toLowerCase_blank (s : string) :
  Spec.isBlank s = true -> JS.toLowerCase s = s.
Proof.
  induction s as [|c s IH]; simpl; [reflexivity|].
  intros [Hc Hs]%andb_prop. rewrite lowerChar_space, IH; auto.
Qed.

Lemma trim_blank (s : string) :
  Spec.isBlank s = true -> JS.trim (JS.toLowerCase s) = EmptyString.
Proof.
  intros Hs. rewrite toLowerCase_blank by assumption.
  unfold JS.trim. rewrite trimStart_blank by assumption. reflexivity.
Qed.

(** *** Money numbers *)

(** Closes an equation between two evaluated numbers. *)
Ltac number_eq :=
  first [ reflexivity
        | f_equal; first [ reflexivity | apply Qc_is_canon; reflexivity ] ].

Lemma isZeroQc_zero (q : Qc) : JS.isZeroQc q = true -> q = Q2Qc 0.
Proof.
  unfold JS.isZeroQc. intros Hq%Z.eqb_eq. apply Qc_is_canon.
  unfold Qeq. simpl. rewrite Hq. reflexivity.
Qed.

Lemma orZero_parse (v : JS.number) : JS.orZero v = Spec.zeroIfNaN v.
Proof.
  unfold JS.orZero, Spec.zeroIfNaN. destruct v as [| b | q]; simpl; try reflexivity.
  destruct (JS.isZeroQc q) eqn:E; simpl; [|reflexivity].
  apply isZeroQc_zero in E. subst. reflexivity.
Qed.

Lemma add_zero_r (x : JS.number) : JS.add x JS.zero = x.
Proof.
  destruct x as [|b|q]; simpl; try reflexivity. f_equal.
  change (Q2Qc 0) with 0%Qc. ring.
Qed.

Lemma totalIncome_sum (l : list ShootEntry.t) (a : JS.number) :
  fold_left (fun sum s => JS.add sum (JS.orZero (JS.parseFloat (ShootEntry.price s)))) l a
  = fold_left JS.add (map (fun s => Spec.parseMoney (ShootEntry.price s)) l) a.
Proof.
  revert a; induction l as [|x l IH]; intros a; [reflexivity|].
  cbn [fold_left map]. rewrite IH. unfold Spec.parseMoney at 2.
  now rewrite orZero_parse.
Qed.

(** ** Derived query functions *)

(** C1.  For every invoice the balance that the program computes,
    [calculateBalance(getTotal(inv), inv.advancePayment)], is the parsed full
    price minus the parsed advance payment, where a string that does not
    parse as a number counts as 0 instead of raising an error. *)
Theorem balance_is_price_minus_advance (inv : Invoice.t) :
  Storage.calculateBalance (Storage.getTotal inv) (Invoice.advancePayment inv)
  = JS.sub (Spec.parseMoney (Invoice.fullPrice inv))
           (Spec.parseMoney (Invoice.advancePayment inv)).
Proof.
  unfold Storage.calculateBalance, Storage.getTotal, Spec.parseMoney.
  rewrite !orZero_parse. reflexivity.
Qed.

Example balance_example :
  Storage.calculateBalance (Storage.getTotal (Device.invoice "45000" "n/a")) "n/a"
  = JS.Fin (Q2Qc 45000).
Proof.
  unfold Storage.calculateBalance, Storage.getTotal, JS.parseFloat; simpl.
  number_eq.
Qed.

Lemma searchShoots_filter (shoots : list ShootEntry.t) (query : string) :
  JS.trim (JS.toLowerCase query) <> EmptyString ->
  Storage.searchShoots shoots query
  = List.filter (fun s => Spec.anyFieldIncludes (JS.trim (JS.toLowerCase query))
                                              (Spec.searchedShootFields s)) shoots.
Proof.
  intros Hq. unfold Storage.searchShoots.
  destruct (JS.trim (JS.toLowerCase query)) as [|c q] eqn:E; [congruence|].
  cbn [JS.truthyString negb]. apply filter_ext. intros s.
  unfold Spec.anyFieldIncludes, Spec.searchedShootFields. cbn [existsb].
  rewrite orb_false_r, !orb_assoc. reflexivity.
Qed.

Lemma anyFieldIncludes_occurs (q : string) (fields : list string) :
  Spec.anyFieldIncludes q fields = true
  <-> exists f, In f fields /\ Spec.occursIn q (JS.toLowerCase f).
Proof.
  unfold Spec.anyFieldIncludes. rewrite existsb_exists.
  split; intros (f & Hf & Hq); exists f; split; auto; now apply includes_occurs.
Qed.

(** C5 (as the code has it).  For a query that is not blank once trimmed,
    [searchShoots] keeps, in their order, exactly the shoots of which the
    client name, the location, the salon name, the model name, the shoot
    type or the notes contains the trimmed query, letter case ignored.  The
    phone number is not looked at. *)
Theorem searchShoots_exact (shoots : list ShootEntry.t) (query : string) :
  JS.trim (JS.toLowerCase query) <> EmptyString ->
  let q := JS.trim (JS.toLowerCase query) in
  Storage.searchShoots shoots query
  = List.filter (fun s => Spec.anyFieldIncludes q (Spec.searchedShootFields s)) shoots
  /\ forall s, In s (Storage.searchShoots shoots query)
       <-> In s shoots
           /\ exists f, In f (Spec.searchedShootFields s)
                        /\ Spec.occursIn q (JS.toLowerCase f).
Proof.
  intros Hq q. split; [now apply searchShoots_filter|].
  intros s. rewrite searchShoots_filter by assumption.
  rewrite filter_In, anyFieldIncludes_occurs. reflexivity.
Qed.

Lemma searchShoots_exact_witness :
  JS.trim (JS.toLowerCase " NIM ") <> EmptyString
  /\ Storage.searchShoots [Device.shoot "Nimal" "0771234567" "100";
                           Device.shoot "Kamal" "0112345678" "200"] " NIM "
     = [Device.shoot "Nimal" "0771234567" "100"].
Proof.
  assert (Hq : JS.trim (JS.toLowerCase " NIM ") <> EmptyString) by (vm_compute; discriminate).
  split; [exact Hq|].
  destruct (searchShoots_exact
              [Device.shoot "Nimal" "0771234567" "100";
               Device.shoot "Kamal" "0112345678" "200"] " NIM " Hq) as [Heq _].
  rewrite Heq. vm_compute. reflexivity.
Defined.

(** C5 as stated fails: the phone number of this shoot contains the query,
    no searched field does, and the shoot is not returned. *)
Lemma searchShoots_ignores_phone :
  let s := Device.shoot "Nimal" "0771234567" "100" in
  JS.includes (JS.toLowerCase (ShootEntry.phoneNumber s)) "077" = true
  /\ In s [s]
  /\ ~ In s (Storage.searchShoots [s] "077").
Proof.
  vm_compute. split; [reflexivity|]. split; [now left|]. intros [].
Qed.

(** C7.  [getMonthlyStats] returns the number of shoots, the sum of their
    prices in which a price that is not a number counts as 0, and the sum
    divided by the count as average, the average being 0 for the empty list.
    The sum is the one that the code computes: the prices added to 0 one
    after the other in the order of the list.  Taking a shoot whose price
    is not a number out of the list leaves the sum unchanged. *)
Theorem monthly_stats (shoots : list ShootEntry.t) :
  let stats := Storage.getMonthlyStats shoots in
  let sum := Spec.sumNumbers (map (fun s => Spec.parseMoney (ShootEntry.price s)) shoots) in
  Storage.totalShoots stats = List.length shoots
  /\ Storage.totalIncome stats = sum
  /\ Storage.avgPerShoot stats
     = match shoots with
       | [] => JS.zero
       | _ :: _ => JS.div sum (JS.ofNat (List.length shoots))
       end
  /\ forall before s after,
       shoots = before ++ s :: after ->
       JS.parseFloat (ShootEntry.price s) = JS.NaN ->
       Storage.totalIncome stats
       = Storage.totalIncome (Storage.getMonthlyStats (before ++ after)).
Proof.
  assert (Hinc : forall l, Storage.totalIncome (Storage.getMonthlyStats l)
                           = Spec.sumNumbers (map (fun s => Spec.parseMoney (ShootEntry.price s)) l)).
  { intros l. unfold Storage.getMonthlyStats. cbn [Storage.totalIncome].
    apply totalIncome_sum. }
  cbv zeta. split; [reflexivity|]. split; [apply Hinc|]. split.
  - unfold Storage.getMonthlyStats. cbn [Storage.avgPerShoot].
    rewrite totalIncome_sum. destruct shoots; reflexivity.
  - intros before s after -> Hnan.
    assert (Hs : Spec.parseMoney (ShootEntry.price s) = JS.zero)
      by (unfold Spec.parseMoney; now rewrite Hnan).
    rewrite !Hinc. unfold Spec.sumNumbers.
    rewrite !map_app, !fold_left_app. cbn [map fold_left].
    now rewrite Hs, add_zero_r.
Qed.

Lemma monthly_stats_witness :
  JS.parseFloat (ShootEntry.price (Device.shoot "B" "" "tbd")) = JS.NaN
  /\ Storage.totalIncome
       (Storage.getMonthlyStats [Device.shoot "A" "" "100"; Device.shoot "B" "" "tbd"])
     = Storage.totalIncome (Storage.getMonthlyStats [Device.shoot "A" "" "100"]).
Proof.
  split; [reflexivity|].
  apply (proj2 (proj2 (proj2 (monthly_stats
           [Device.shoot "A" "" "100"; Device.shoot "B" "" "tbd"])))
           [Device.shoot "A" "" "100"] (Device.shoot "B" "" "tbd") []);
    reflexivity.
Defined.

(** C8.  For a query that is empty or made of white space only,
    [searchInvoices] and [searchShoots] return their input list itself: the
    same elements in the same order. *)
Theorem search_blank_query (invoices : list Invoice.t) (shoots : list ShootEntry.t)
        (query : string) :
  Spec.isBlank query = true ->
  Storage.searchInvoices invoices query = invoices
  /\ Storage.searchShoots shoots query = shoots.
Proof.
  intros Hq. unfold Storage.searchInvoices, Storage.searchShoots.
  rewrite (trim_blank _ Hq). split; reflexivity.
Qed.

Lemma search_blank_query_witness :
  Spec.isBlank "  " = true
  /\ Storage.searchInvoices [Device.invoice "1" "0"] "  " = [Device.invoice "1" "0"]
  /\ Storage.searchShoots [Device.shoot "A" "" "1"] "  " = [Device.shoot "A" "" "1"].
Proof.
  split; [reflexivity|].
  apply (search_blank_query [Device.invoice "1" "0"] [Device.shoot "A" "" "1"] "  ").
  reflexivity.
Defined.

(** *** Decimal numerals *)

Lemma digitChar_digit (d : N) :
  (d < 10)%N -> JS.isDigit (JS.digitChar d) = true /\ JS.digitVal (JS.digitChar d) = d.
Proof.
  intros Hd.
  assert (Hcases : (d = 0 \/ d = 1 \/ d = 2 \/ d = 3 \/ d = 4 \/ d = 5 \/ d = 6
                    \/ d = 7 \/ d = 8 \/ d = 9)%N) by lia.
  repeat (destruct Hcases as [->|Hcases]; [split; reflexivity|]).
  subst. split; reflexivity.
Qed.

Lemma digit_not_space (c : ascii) : JS.isDigit c = true -> JS.isSpace c = false.
Proof. destruct c as [[] [] [] [] [] [] [] []]; vm_compute; congruence. Qed.

Lemma digit_no_sign (c : ascii) (r : string) :
  JS.isDigit c = true -> JS.signOf (String c r) = (false, String c r).
Proof. destruct c as [[] [] [] [] [] [] [] []]; vm_compute; congruence. Qed.

Lemma log2_tenth (n : N) : (10 <= n)%N -> (N.log2 (n / 10) < N.log2 n)%N.
Proof.
  intros Hn.
  assert (Hhalf : (n / 10 <= n / 2)%N).
  { apply N.div_le_compat_l. lia. }
  apply N.log2_le_mono in Hhalf.
  assert (Hshift : N.log2 (n / 2) = (N.log2 n - 1)%N).
  { change 2%N with (2 ^ 1)%N. rewrite <- N.shiftr_div_pow2. apply N.log2_shiftr. }
  assert (0 < N.log2 n)%N by (apply N.log2_pos; lia).
  lia.
Qed.

Lemma scan_digitsFrom (fuel : nat) :
  forall (n : N) (acc : string),
    (N.log2 n <= N.of_nat fuel)%N ->
    JS.scanDigits 0 (JS.digitsFrom fuel n acc) = JS.scanDigits n acc.
Proof.
  induction fuel as [|f IH]; intros n acc Hf; cbn [JS.digitsFrom].
  - assert (Hn : (n < 10)%N).
    { destruct (N.lt_ge_cases n 10) as [|Hge]; [assumption|].
      assert (0 < N.log2 n)%N by (apply N.log2_pos; lia). lia. }
    cbn [JS.scanDigits]. rewrite N.mod_small by assumption.
    destruct (digitChar_digit n Hn) as [-> ->]. f_equal.
  - destruct (N.ltb_spec n 10) as [Hn|Hn].
    + cbn [JS.scanDigits]. rewrite N.mod_small by assumption.
      destruct (digitChar_digit n Hn) as [-> ->]. f_equal.
    + rewrite IH.
      * cbn [JS.scanDigits].
        assert (Hm : (n mod 10 < 10)%N) by (apply N.mod_lt; lia).
        destruct (digitChar_digit _ Hm) as [-> ->]. f_equal.
        rewrite (N.div_mod n 10) at 3 by lia. reflexivity.
      * pose proof (log2_tenth n Hn). lia.
Qed.

Lemma showN_value (n : N) : JS.scanDigits 0 (JS.showN n) = n.
Proof.
  unfold JS.showN. rewrite scan_digitsFrom by lia. reflexivity.
Qed.

Lemma digitsFrom_head (fuel : nat) :
  forall (n : N) (acc : string), JS.startsWithDigit (JS.digitsFrom fuel n acc) = true.
Proof.
  assert (Hd : forall n, JS.isDigit (JS.digitChar (n mod 10)) = true).
  { intros n. apply digitChar_digit. apply N.mod_lt. lia. }
  induction fuel as [|f IH]; intros n acc; cbn [JS.digitsFrom].
  - apply Hd.
  - destruct (n <? 10)%N; [apply Hd | apply IH].
Qed.

Lemma digitsFrom_allDigits (fuel : nat) :
  forall (n : N) (acc : string),
    Spec.allDigits (JS.digitsFrom fuel n acc) = Spec.allDigits acc.
Proof.
  assert (Hd : forall n, JS.isDigit (JS.digitChar (n mod 10)) = true).
  { intros n. apply digitChar_digit. apply N.mod_lt. lia. }
  induction fuel as [|f IH]; intros n acc; cbn [JS.digitsFrom].
  - cbn [Spec.allDigits]. now rewrite Hd.
  - destruct (n <? 10)%N.
    + cbn [Spec.allDigits]. now rewrite Hd.
    + rewrite IH. cbn [Spec.allDigits]. now rewrite Hd.
Qed.

Lemma digitsFrom_length (fuel : nat) :
  forall (n : N) (acc : string) (k : nat),
    (n < 10 ^ N.of_nat (S k))%N ->
    (String.length (JS.digitsFrom fuel n acc) <= S k + String.length acc)%nat.
Proof.
  induction fuel as [|f IH]; intros n acc k Hn; cbn [JS.digitsFrom].
  - simpl. lia.
  - destruct (N.ltb_spec n 10) as [Hlt|Hge].
    + simpl. lia.
    + destruct k as [|k].
      * change (10 ^ N.of_nat 1)%N with 10%N in Hn. lia.
      * assert (Hdiv : (n / 10 < 10 ^ N.of_nat (S k))%N).
        { apply N.Div0.div_lt_upper_bound.
          replace (N.of_nat (S (S k))) with (N.succ (N.of_nat (S k))) in Hn by lia.
          rewrite N.pow_succ_r' in Hn. exact Hn. }
        specialize (IH _ (String (JS.digitChar (n mod 10)) acc) _ Hdiv).
        simpl in IH |- *. lia.
Qed.

Lemma showN_length (n : N) (k : nat) :
  (n < 10 ^ N.of_nat (S k))%N -> (String.length (JS.showN n) <= S k)%nat.
Proof.
  intros Hn. unfold JS.showN.
  pose proof (digitsFrom_length (N.to_nat (N.log2 n)) n EmptyString k Hn) as Hl.
  simpl in Hl. lia.
Qed.


Lemma cycle_zeros (n : nat) :
  JS.cycle n "0" "0" = Spec.zeros n /\ JS.cycle n "0" "" = Spec.zeros n.
Proof.
  induction n as [|n [IH1 IH2]]; [split; reflexivity|].
  split; cbn [JS.cycle Spec.zeros]; now rewrite IH2.
Qed.

Lemma padStart_zeros (s : string) :
  JS.padStart 4 "0" s = Spec.zeros (4 - String.length s) +:+ s.
Proof.
  unfold JS.padStart. destruct (Nat.leb_spec 4 (String.length s)) as [Hle|Hlt].
  - replace (4 - String.length s)%nat with 0%nat by lia. reflexivity.
  - now rewrite (proj1 (cycle_zeros _)).
Qed.

Lemma zeros_scan (k : nat) (s : string) :
  JS.scanDigits 0 (Spec.zeros k +:+ s) = JS.scanDigits 0 s.
Proof. induction k as [|k IH]; [reflexivity|]. simpl. exact IH. Qed.

Lemma zeros_allDigits (k : nat) (s : string) :
  Spec.allDigits (Spec.zeros k +:+ s) = Spec.allDigits s.
Proof. induction k as [|k IH]; [reflexivity|]. simpl. exact IH. Qed.

Lemma zeros_length (k : nat) (s : string) :
  String.length (Spec.zeros k +:+ s) = (k + String.length s)%nat.
Proof. induction k as [|k IH]; [reflexivity|]. simpl. now rewrite IH. Qed.

Lemma zeros_head (k : nat) (s : string) :
  JS.startsWithDigit s = true -> JS.startsWithDigit (Spec.zeros k +:+ s) = true.
Proof. destruct k; [trivial | reflexivity]. Qed.

Lemma parseInt_digits (s : string) :
  JS.startsWithDigit s = true -> JS.parseInt s = Some (Z.of_N (JS.scanDigits 0 s)).
Proof.
  destruct s as [|c r]; [discriminate|]. cbn [JS.startsWithDigit]. intros Hc.
  unfold JS.parseInt. cbn [JS.trimStart]. rewrite (digit_not_space c Hc).
  rewrite (digit_no_sign c r Hc). cbn [JS.startsWithDigit]. rewrite Hc. reflexivity.
Qed.

Lemma showN_head (n : N) : JS.startsWithDigit (JS.showN n) = true.
Proof. apply digitsFrom_head. Qed.

Lemma showZ_nonneg (n : Z) : 0 <= n -> JS.showZ n = JS.showN (Z.to_N n).
Proof. destruct n; [reflexivity | reflexivity | lia]. Qed.

Lemma parseInt_showZ (n : Z) : 0 <= n -> JS.parseInt (JS.showZ n) = Some n.
Proof.
  intros Hn. rewrite showZ_nonneg by assumption.
  rewrite parseInt_digits by apply showN_head.
  rewrite showN_value. f_equal. lia.
Qed.

Lemma parseInt_padded (n : Z) :
  0 <= n -> JS.parseInt (JS.padStart 4 "0" (JS.showZ n)) = Some n.
Proof.
  intros Hn. rewrite showZ_nonneg by assumption. rewrite padStart_zeros.
  rewrite parseInt_digits by (apply zeros_head, showN_head).
  rewrite zeros_scan, showN_value. f_equal. lia.
Qed.

Lemma padded_allDigits (n : Z) :
  0 <= n -> Spec.allDigits (JS.padStart 4 "0" (JS.showZ n)) = true.
Proof.
  intros Hn. rewrite showZ_nonneg by assumption. rewrite padStart_zeros.
  rewrite zeros_allDigits. unfold JS.showN. now rewrite digitsFrom_allDigits.
Qed.

Lemma padded_length (n : Z) :
  (4 <= String.length (JS.padStart 4 "0" (JS.showZ n)))%nat
  /\ (0 <= n <= 9999 -> String.length (JS.padStart 4 "0" (JS.showZ n)) = 4%nat).
Proof.
  rewrite padStart_zeros, zeros_length. split; [lia|].
  intros Hn. rewrite showZ_nonneg by lia.
  assert (String.length (JS.showN (Z.to_N n)) <= 4)%nat.
  { apply (showN_length _ 3). change (10 ^ N.of_nat 4)%N with 10000%N. lia. }
  lia.
Qed.

Lemma truthy_showZ (n : Z) : 0 <= n -> JS.truthyString (JS.showZ n) = true.
Proof.
  intros Hn. rewrite showZ_nonneg by assumption.
  pose proof (showN_head (Z.to_N n)) as Hh.
  destruct (JS.showN (Z.to_N n)); [discriminate | reflexivity].
Qed.

Lemma ceilDiv_bounds (a b : Z) :
  0 < b -> b * (JS.ceilDiv a b - 1) < a <= b * JS.ceilDiv a b.
Proof.
  intros Hb. unfold JS.ceilDiv.
  pose proof (Z.div_mod (- a) b ltac:(lia)) as Hdm.
  pose proof (Z.mod_pos_bound (- a) b Hb) as Hm. nia.
Qed.

(** C6.  [getDaysUntilLabel] maps the day difference [d] of [getDaysUntil]:
    [d < 0] to "Overdue", 0 to "Today", 1 to "Tomorrow", 2..7 to "<d> days",
    8..30 to "<ceil(d/7)> weeks" and 31 and more to "<ceil(d/30)> months";
    so 7 gives "7 days", 8 gives "2 weeks" and 30 gives "5 weeks". *)
Theorem days_until_label (H : Host) (dateStr : string) (d : Z) :
  Storage.getDaysUntil H dateStr = Some d ->
  let label := Storage.getDaysUntilLabel H dateStr in
  (d < 0 -> label = "Overdue")
  /\ (d = 0 -> label = "Today")
  /\ (d = 1 -> label = "Tomorrow")
  /\ (2 <= d <= 7 -> label = JS.showZ d +:+ " days")
  /\ (8 <= d <= 30 ->
      exists k, 7 * (k - 1) < d <= 7 * k /\ label = JS.showZ k +:+ " weeks")
  /\ (31 <= d ->
      exists k, 30 * (k - 1) < d <= 30 * k /\ label = JS.showZ k +:+ " months")
  /\ (d = 7 -> label = "7 days")
  /\ (d = 8 -> label = "2 weeks")
  /\ (d = 30 -> label = "5 weeks").
Proof.
  intros Hd. unfold Storage.getDaysUntilLabel. rewrite Hd. cbv zeta.
  unfold Storage.daysLabel.
  repeat split.
  - intros Hlt. destruct (Z.ltb_spec d 0); [reflexivity | lia].
  - intros ->. reflexivity.
  - intros ->. reflexivity.
  - intros Hr. destruct (Z.ltb_spec d 0); [lia|].
    destruct (Z.eqb_spec d 0); [lia|]. destruct (Z.eqb_spec d 1); [lia|].
    destruct (Z.leb_spec d 7); [reflexivity | lia].
  - intros Hr. exists (JS.ceilDiv d 7). split; [apply ceilDiv_bounds; lia|].
    destruct (Z.ltb_spec d 0); [lia|].
    destruct (Z.eqb_spec d 0); [lia|]. destruct (Z.eqb_spec d 1); [lia|].
    destruct (Z.leb_spec d 7); [lia|].
    destruct (Z.leb_spec d 30); [reflexivity | lia].
  - intros Hr. exists (JS.ceilDiv d 30). split; [apply ceilDiv_bounds; lia|].
    destruct (Z.ltb_spec d 0); [lia|].
    destruct (Z.eqb_spec d 0); [lia|]. destruct (Z.eqb_spec d 1); [lia|].
    destruct (Z.leb_spec d 7); [lia|].
    destruct (Z.leb_spec d 30); [lia | reflexivity].
  - intros ->. reflexivity.
  - intros ->. reflexivity.
  - intros ->. reflexivity.
Qed.

Lemma days_until_label_witness :
  Storage.getDaysUntil Device.host "2024-03-13" = Some 8
  /\ Storage.getDaysUntilLabel Device.host "2024-03-13" = "2 weeks"%string.
Proof.
  split; [reflexivity|].
  apply (days_until_label Device.host "2024-03-13" 8); reflexivity.
Defined.

Example days_label_nan :
  Storage.getDaysUntilLabel Device.host "soon" = "NaN months"%string.
Proof. reflexivity. Qed.

(** ** Record store *)

Lemma call_reliable {A : Type} (H : Host) (op : Op) (f : World -> A * World) (w : World) :
  Spec.reliable H -> call H op f w = (Ok (fst (f w)), snd (f w)).
Proof. intros Hr. unfold call. rewrite Hr. destruct (f w); reflexivity. Qed.

Lemma getNextInvoiceNumber_step (H : Host) (w : World) (n : Z) :
  Spec.reliable H -> Spec.counterIs w n ->
  let w' := withStore w (withItems (store w)
                           (<[Storage.COUNTER_KEY := JS.showZ (n + 1)]> (items (store w)))) in
  Storage.getNextInvoiceNumber H w = (Ok (JS.padStart 4 "0" (JS.showZ (n + 1))), w')
  /\ Spec.counterIs w' (n + 1)
  /\ 0 <= n.
Proof.
  intros Hr Hc. cbv zeta. unfold Spec.counterIs in *.
  unfold Storage.getNextInvoiceNumber, bind, getItem, setItem.
  rewrite (call_reliable H _ _ w Hr). cbn [fst snd].
  destruct (items (store w) !! Storage.COUNTER_KEY) as [c|] eqn:Ec.
  - destruct Hc as [-> Hn].
    rewrite truthy_showZ, parseInt_showZ by assumption.
    rewrite (call_reliable H _ _ w Hr). cbn [fst snd ret].
    split; [reflexivity|]. split; [|assumption].
    cbn [withStore store withItems items]. rewrite lookup_insert_eq. split; [reflexivity|lia].
  - subst n. rewrite (call_reliable H _ _ w Hr). cbn [fst snd ret].
    split; [reflexivity|]. split; [|lia].
    cbn [withStore store withItems items]. rewrite lookup_insert_eq. split; [reflexivity|lia].
Qed.

(** C3.  Two calls of [getNextInvoiceNumber] in a row return decimal
    numerals padded with zeros to four digits whose values increase
    strictly; each call stores the incremented counter; and when the counter
    key is absent the first call sets the counter to 1 and returns "0001",
    the next one returns "0002".  ([n] is the value of the counter before
    the calls; integers are exact up to [2 ^ 53].) *)
Theorem invoice_numbers_increase (H : Host) (w : World) (n : Z) :
  Spec.reliable H ->
  Spec.counterIs w n ->
  n + 2 <= 2 ^ 53 ->
  exists (r1 r2 : string) (w1 w2 : World),
    Storage.getNextInvoiceNumber H w = (Ok r1, w1)
    /\ Storage.getNextInvoiceNumber H w1 = (Ok r2, w2)
    /\ r1 = JS.padStart 4 "0" (JS.showZ (n + 1))
    /\ r2 = JS.padStart 4 "0" (JS.showZ (n + 2))
    /\ items (store w1) !! Storage.COUNTER_KEY = Some (JS.showZ (n + 1))
    /\ items (store w2) !! Storage.COUNTER_KEY = Some (JS.showZ (n + 2))
    /\ (exists v1 v2, JS.parseInt r1 = Some v1 /\ JS.parseInt r2 = Some v2 /\ v1 < v2)
    /\ Spec.allDigits r1 = true /\ Spec.allDigits r2 = true
    /\ (4 <= String.length r1)%nat /\ (4 <= String.length r2)%nat
    /\ (n + 2 <= 9999 -> String.length r1 = 4%nat /\ String.length r2 = 4%nat)
    /\ (items (store w) !! Storage.COUNTER_KEY = None ->
        r1 = "0001"%string /\ r2 = "0002"%string).
Proof.
  intros Hr Hc _.
  destruct (getNextInvoiceNumber_step H w n Hr Hc) as (Hrun1 & Hc1 & Hn).
  destruct (getNextInvoiceNumber_step H _ (n + 1) Hr Hc1) as (Hrun2 & Hc2 & _).
  replace (n + 1 + 1) with (n + 2) in * by lia.
  eexists _, _, _, _. split; [exact Hrun1|]. split; [exact Hrun2|].
  split; [reflexivity|]. split; [reflexivity|].
  split. { cbn [withStore store withItems items]. apply lookup_insert_eq. }
  split. { cbn [withStore store withItems items]. apply lookup_insert_eq. }
  split. { exists (n + 1), (n + 2). rewrite !parseInt_padded by lia. repeat split; lia. }
  split; [apply padded_allDigits; lia|]. split; [apply padded_allDigits; lia|].
  split; [apply padded_length|]. split; [apply padded_length|].
  split.
  - intros Hsmall. split; apply padded_length; lia.
  - intros Hnone. unfold Spec.counterIs in Hc. rewrite Hnone in Hc. subst n.
    split; reflexivity.
Qed.

Lemma invoice_numbers_increase_witness :
  Spec.reliable Device.host
  /\ Spec.counterIs Device.emptyWorld 0
  /\ 0 + 2 <= 2 ^ 53
  /\ exists w1 w2,
       Storage.getNextInvoiceNumber Device.host Device.emptyWorld = (Ok "0001"%string, w1)
       /\ Storage.getNextInvoiceNumber Device.host w1 = (Ok "0002"%string, w2).
Proof.
  assert (Hr : Spec.reliable Device.host) by (intros op; reflexivity).
  assert (Hc : Spec.counterIs Device.emptyWorld 0) by reflexivity.
  assert (Hb : 0 + 2 <= 2 ^ 53) by (vm_compute; discriminate).
  split; [exact Hr|]. split; [exact Hc|]. split; [exact Hb|].
  destruct (invoice_numbers_increase Device.host Device.emptyWorld 0 Hr Hc Hb)
    as (r1 & r2 & w1 & w2 & H1 & H2 & -> & -> & _).
  exists w1, w2. split; [exact H1 | exact H2].
Defined.

(** ** Reminder scheduler *)

Lemma getReminderSettings_run (H : Host) (w : World) :
  Notifications.getReminderSettings H w = (Ok (Spec.settingsOf H w), w).
Proof.
  unfold Spec.settingsOf, Notifications.getReminderSettings, tryCatch, bind, call, ret.
  destruct (host_fails H _); [reflexivity|].
  destruct (ns_reminder_settings (store w)); reflexivity.
Qed.

Lemma cancelReminder_ok (H : Host) (key : string) (w : World) :
  fst (Notifications.cancelReminder H key w) = Ok tt.
Proof.
  unfold Notifications.cancelReminder, tryCatch, bind, getItem,
    cancelScheduledNotificationAsync, removeItem, call, ret.
  destruct (host_fails H (OpGetItem _)); [reflexivity|].
  destruct (items (store w) !! _) as [h|]; [|reflexivity].
  destruct (JS.truthyString h); [|reflexivity].
  destruct (host_fails H (OpCancel h)); [reflexivity|].
  destruct (host_fails H (OpRemoveItem _)); reflexivity.
Qed.

Lemma cancelReminder_absent (H : Host) (key : string) (w : World) :
  items (store w) !! Notifications.notifKey key = None ->
  Notifications.cancelReminder H key w = (Ok tt, w).
Proof.
  intros Hnone.
  unfold Notifications.cancelReminder, tryCatch, bind, getItem, call, ret.
  destruct (host_fails H (OpGetItem _)); [reflexivity|].
  rewrite Hnone. reflexivity.
Qed.

Lemma cancelReminder_present (H : Host) (key h : string) (w : World) :
  Spec.reliable H ->
  items (store w) !! Notifications.notifKey key = Some h ->
  h <> EmptyString ->
  Notifications.cancelReminder H key w
  = (Ok tt,
     mkWorld (withItems (store w) (delete (Notifications.notifKey key) (items (store w))))
             (delete h (scheduled w)) (h :: cancelRequests w) (drawn w)).
Proof.
  intros Hr Hsome Hne.
  unfold Notifications.cancelReminder, tryCatch, bind, getItem,
    cancelScheduledNotificationAsync, removeItem, call, ret.
  rewrite !Hr, Hsome. destruct h as [|c h]; [congruence|].
  cbn [JS.truthyString]. rewrite !Hr. reflexivity.
Qed.

(** C9.  [cancelReminder] never fails, whatever the platform does, so the
    second of two calls in a row produces no error; with no handle stored
    under the key the call changes nothing; with a handle stored (and a
    platform that accepts the calls) it asks the platform to cancel that
    notification and removes the handle, after which a second call changes
    nothing. *)
Theorem cancelReminder_idempotent (H : Host) (key : string) (w : World) :
  let k := Notifications.notifKey key in
  let w1 := snd (Notifications.cancelReminder H key w) in
  fst (Notifications.cancelReminder H key w) = Ok tt
  /\ fst (Notifications.cancelReminder H key w1) = Ok tt
  /\ (items (store w) !! k = None -> w1 = w)
  /\ (forall h,
        items (store w) !! k = Some h -> h <> EmptyString -> Spec.reliable H ->
        w1 = mkWorld (withItems (store w) (delete k (items (store w))))
                     (delete h (scheduled w)) (h :: cancelRequests w) (drawn w)
        /\ items (store w1) !! k = None
        /\ scheduled w1 !! h = None
        /\ Notifications.cancelReminder H key w1 = (Ok tt, w1)).
Proof.
  cbv zeta. split; [apply cancelReminder_ok|]. split; [apply cancelReminder_ok|].
  split.
  - intros Hnone. now rewrite cancelReminder_absent.
  - intros h Hsome Hne Hr. rewrite (cancelReminder_present H key h w Hr Hsome Hne).
    cbn [snd]. split; [reflexivity|].
    assert (Hgone : items (store
              (mkWorld (withItems (store w) (delete (Notifications.notifKey key) (items (store w))))
                       (delete h (scheduled w)) (h :: cancelRequests w) (drawn w)))
              !! Notifications.notifKey key = None).
    { cbn [store withItems items]. apply lookup_delete_eq. }
    split; [exact Hgone|]. split; [cbn [scheduled]; apply lookup_delete_eq|].
    now apply cancelReminder_absent.
Qed.

Lemma cancelReminder_idempotent_witness :
  items (store Device.bookedWorld) !! Notifications.notifKey "shoot_b1"
  = Some "notification-7"%string
  /\ Spec.reliable Device.host
  /\ items (store (snd (Notifications.cancelReminder Device.host "shoot_b1" Device.bookedWorld)))
     !! Notifications.notifKey "shoot_b1" = None.
Proof.
  assert (Hr : Spec.reliable Device.host) by (intros op; reflexivity).
  assert (Hh : items (store Device.bookedWorld) !! Notifications.notifKey "shoot_b1"
               = Some "notification-7"%string) by (vm_compute; reflexivity).
  split; [exact Hh|]. split; [exact Hr|].
  destruct (cancelReminder_idempotent Device.host "shoot_b1" Device.bookedWorld)
    as (_ & _ & _ & Hpresent).
  apply (Hpresent "notification-7"%string Hh); [discriminate | exact Hr].
Defined.

(** C4.  When the trigger time of a shoot or invoice reminder, that is the
    date and time it is about minus the configured lead time, is not after
    the current time, the scheduling function returns [null] and leaves the
    device as it was: no notification is registered, no handle is stored or
    removed, and nothing fails. *)
Theorem past_trigger_is_noop (H : Host) (w : World)
        (ident name number date time type place : string) :
  (forall target,
      Spec.shootTarget H date time = Some target ->
      target - Spec.leadTime H w <= host_now H ->
      Notifications.scheduleShootReminder H ident name date time type place w
      = (Ok None, w))
  /\ (forall target,
      Spec.invoiceTarget H date = Some target ->
      target - Spec.leadTime H w <= host_now H ->
      Notifications.scheduleInvoiceReminder H ident number name date place w
      = (Ok None, w)).
Proof.
  split; intros target Htarget Hpast.
  - unfold Notifications.scheduleShootReminder.
    destruct (Notifications.isWeb H); [reflexivity|].
    unfold bind at 1. rewrite getReminderSettings_run.
    destruct (shootReminders (Spec.settingsOf H w)); [|reflexivity]. cbn [negb].
    unfold Spec.shootTarget in Htarget.
    destruct (Notifications.parseDate H date) as [parsed|]; [|discriminate].
    injection Htarget as Htarget. rewrite Htarget.
    fold (Spec.leadTime H w).
    destruct (Z.leb_spec (target - Spec.leadTime H w) (host_now H)); [reflexivity | lia].
  - unfold Notifications.scheduleInvoiceReminder.
    destruct (Notifications.isWeb H); [reflexivity|].
    unfold bind at 1. rewrite getReminderSettings_run.
    destruct (invoiceReminders (Spec.settingsOf H w)); [|reflexivity]. cbn [negb].
    unfold Spec.invoiceTarget in Htarget.
    destruct (Notifications.parseDate H date) as [parsed|]; [|discriminate].
    injection Htarget as Htarget. rewrite Htarget.
    fold (Spec.leadTime H w).
    destruct (Z.leb_spec (target - Spec.leadTime H w) (host_now H)); [reflexivity | lia].
Qed.

Lemma past_trigger_is_noop_witness :
  Spec.shootTarget Device.host "2024-03-05" "4:30 PM"
  = Some (Device.localDate 2024 2 5 16 30 0)
  /\ Device.localDate 2024 2 5 16 30 0 - Spec.leadTime Device.host Device.bookedWorld
     <= host_now Device.host
  /\ Notifications.scheduleShootReminder Device.host "b1" "Nimal" "2024-03-05" "4:30 PM"
       "Wedding" "Kandy" Device.bookedWorld
     = (Ok None, Device.bookedWorld).
Proof.
  assert (Ht : Spec.shootTarget Device.host "2024-03-05" "4:30 PM"
               = Some (Device.localDate 2024 2 5 16 30 0)) by reflexivity.
  assert (Hp : Device.localDate 2024 2 5 16 30 0
               - Spec.leadTime Device.host Device.bookedWorld
               <= host_now Device.host) by (vm_compute; discriminate).
  split; [exact Ht|]. split; [exact Hp|].
  exact (proj1 (past_trigger_is_noop Device.host Device.bookedWorld
                  "b1" "Nimal" "" "2024-03-05" "4:30 PM" "Wedding" "Kandy") _ Ht Hp).
Defined.

Example future_trigger_is_scheduled :
  fst (Notifications.scheduleShootReminder Device.host "b2" "Nimal" "2024-03-09" "4:30 PM"
         "Wedding" "Kandy" Device.bookedWorld)
  = Ok (Some "notification-8"%string).
Proof. vm_compute. reflexivity. Qed.

(** ** Collections *)

Lemma insertBy_perm {A : Type} (compare : A -> A -> option Z) (x : A) (l : list A) :
  Permutation (insertBy compare x l) (x :: l).
Proof.
  induction l as [|y r IH]; cbn [insertBy]; [reflexivity|].
  destruct (comesAfter (compare x y)); [|reflexivity].
  rewrite IH. apply perm_swap.
Qed.

Lemma sortBy_perm {A : Type} (compare : A -> A -> option Z) (l : list A) :
  Permutation (sortBy compare l) l.
Proof.
  unfold sortBy. induction l as [|x l IH]; cbn [fold_right]; [reflexivity|].
  rewrite insertBy_perm. now constructor.
Qed.

Lemma orMissing_present (a : string) : JS.orMissing (Some a) "" = a.
Proof. destruct a; reflexivity. Qed.

Lemma getAllShoots_run (H : Host) (w : World) :
  host_fails H (OpGetItem Storage.SHOOTS_KEY) = false ->
  Storage.getAllShoots H w
  = (Ok (sortBy (fun a b => dateDiff H (ShootEntry.shootDate b) (ShootEntry.shootDate a))
                (map Storage.backfillShoot (default [] (ns_shoots (store w))))), w).
Proof.
  intros Hr. unfold Storage.getAllShoots, bind, call. rewrite Hr.
  destruct (ns_shoots (store w)); reflexivity.
Qed.

(** C10.  Every [ShootEntry] that [getAllShoots] returns comes from a stored
    record and has a string in [clientName], [shootTime], [salonName],
    [modelName] and [advancePaid] even where the stored record lacks the
    property: a missing [clientName] is the record's [modelName], or the
    empty string when that is missing too, and a missing [shootTime],
    [salonName], [modelName] or [advancePaid] is the empty string; values
    that are present and not empty are kept.  No stored record is lost. *)
Theorem getAllShoots_backfills (H : Host) (w : World) :
  host_fails H (OpGetItem Storage.SHOOTS_KEY) = false ->
  let stored := default [] (ns_shoots (store w)) in
  exists shoots,
    Storage.getAllShoots H w = (Ok shoots, w)
    /\ Permutation shoots (map Storage.backfillShoot stored)
    /\ forall e, In e shoots ->
         exists r, In r stored
           /\ ShootEntry.id e = StoredShoot.id r
           /\ (forall c, StoredShoot.clientName r = Some c -> c <> EmptyString ->
                         ShootEntry.clientName e = c)
           /\ (StoredShoot.clientName r = None ->
               ShootEntry.clientName e = default EmptyString (StoredShoot.modelName r))
           /\ ShootEntry.shootTime e = default EmptyString (StoredShoot.shootTime r)
           /\ ShootEntry.salonName e = default EmptyString (StoredShoot.salonName r)
           /\ ShootEntry.modelName e = default EmptyString (StoredShoot.modelName r)
           /\ ShootEntry.advancePaid e = default EmptyString (StoredShoot.advancePaid r).
Proof.
  intros Hr stored. eexists. split; [apply getAllShoots_run; exact Hr|].
  split; [apply sortBy_perm|].
  intros e He.
  apply (Permutation_in _ (sortBy_perm _ _)) in He.
  apply in_map_iff in He as (r & <- & Hin).
  exists r. split; [exact Hin|]. split; [reflexivity|].
  assert (Hdef : forall o, JS.orMissing o "" = default EmptyString o).
  { intros [a|]; [apply orMissing_present | reflexivity]. }
  cbn [Storage.backfillShoot ShootEntry.clientName ShootEntry.shootTime
       ShootEntry.salonName ShootEntry.modelName ShootEntry.advancePaid].
  rewrite !Hdef. repeat split.
  - intros c -> Hc. destruct c; [congruence | reflexivity].
  - intros ->. reflexivity.
Qed.

Lemma getAllShoots_backfills_witness :
  host_fails Device.host (OpGetItem Storage.SHOOTS_KEY) = false
  /\ exists shoots,
       Storage.getAllShoots Device.host
         (mkWorld (mkStore ∅ None (Some [Device.legacyShoot]) None None) ∅ [] 0)
       = (Ok shoots,
          mkWorld (mkStore ∅ None (Some [Device.legacyShoot]) None None) ∅ [] 0)
       /\ Permutation shoots (map Storage.backfillShoot [Device.legacyShoot]).
Proof.
  split; [reflexivity|].
  destruct (getAllShoots_backfills Device.host
              (mkWorld (mkStore ∅ None (Some [Device.legacyShoot]) None None) ∅ [] 0))
    as (shoots & Hrun & Hperm & _); [reflexivity|].
  exists shoots. split; [exact Hrun | exact Hperm].
Defined.

Example legacy_shoot_backfilled :
  fst (Storage.getAllShoots Device.host
         (mkWorld (mkStore ∅ None (Some [Device.legacyShoot]) None None) ∅ [] 0))
  = Ok [ShootEntry.mk "s1" "Ama" "2024-02-10" "" "Galle" "" "Ama" Bridal "25000" ""
          "0719876543" "outdoor" "2024-02-01T08:00:00.000Z" "2024-02-01T08:00:00.000Z"].
Proof. reflexivity. Qed.

(** ** Completing an upcoming shoot *)

Lemma getAllUpcomingShoots_run (H : Host) (w : World) :
  host_fails H (OpGetItem Storage.UPCOMING_KEY) = false ->
  Storage.getAllUpcomingShoots H w
  = (Ok (sortBy (Spec.byShootDate H)
                (map Storage.backfillUpcoming (default [] (ns_upcoming_shoots (store w))))), w).
Proof.
  intros Hr. unfold Storage.getAllUpcomingShoots, bind, call. rewrite Hr.
  destruct (ns_upcoming_shoots (store w)); reflexivity.
Qed.

Lemma backfill_store_upcoming (x : UpcomingShoot.t) :
  Storage.backfillUpcoming (Storage.storeUpcoming x) = x.
Proof.
  destruct x as [i cn sd st sl sn mn ty ct pp ap nt cp ca ua].
  destruct sn, mn; reflexivity.
Qed.

Lemma backfillUpcoming_id (r : StoredUpcoming.t) :
  UpcomingShoot.id (Storage.backfillUpcoming r) = StoredUpcoming.id r.
Proof. reflexivity. Qed.

Lemma findIndex_Some (id : string) (l : list UpcomingShoot.t) (i : nat) :
  Storage.findIndex id l = Some i ->
  exists x, l !! i = Some x /\ UpcomingShoot.id x = id.
Proof.
  revert i; induction l as [|y r IH]; intros i; cbn [Storage.findIndex]; [discriminate|].
  destruct (String.eqb_spec (UpcomingShoot.id y) id) as [Heq|Hne].
  - intros [= <-]. exists y. split; [reflexivity | exact Heq].
  - destruct (Storage.findIndex id r) as [j|] eqn:Ej; [|discriminate].
    intros [= <-]. destruct (IH j eq_refl) as (x & Hx & Hid). exists x. split; assumption.
Qed.

Lemma findIndex_In (id : string) (l : list UpcomingShoot.t) (x : UpcomingShoot.t) :
  In x l -> UpcomingShoot.id x = id -> exists i, Storage.findIndex id l = Some i.
Proof.
  induction l as [|y r IH]; [intros []|]. intros Hin Hid. cbn [Storage.findIndex].
  destruct (String.eqb_spec (UpcomingShoot.id y) id) as [Heq|Hne]; [eauto|].
  destruct Hin as [->|Hin]; [congruence|].
  destruct (IH Hin Hid) as [i ->]. eauto.
Qed.

Lemma markCompleted_fields (H : Host) (s : UpcomingShoot.t) :
  UpcomingShoot.id (Spec.markCompleted H s) = UpcomingShoot.id s
  /\ UpcomingShoot.completed (Spec.markCompleted H s) = true.
Proof. destruct s; split; reflexivity. Qed.

Lemma updateUpcomingShoot_run (H : Host) (w : World) (id : string) (i : nat)
      (old : UpcomingShoot.t) :
  Spec.reliable H ->
  let shoots := sortBy (Spec.byShootDate H)
                  (map Storage.backfillUpcoming (default [] (ns_upcoming_shoots (store w)))) in
  Storage.findIndex id shoots = Some i ->
  shoots !! i = Some old ->
  Storage.updateUpcomingShoot H id [SetCompleted true] w
  = (Ok (Some (Spec.markCompleted H old)),
     withStore w (withUpcoming (store w)
                    (map Storage.storeUpcoming (<[i := Spec.markCompleted H old]> shoots)))).
Proof.
  intros Hr shoots Hfind Hold. unfold Storage.updateUpcomingShoot.
  unfold bind at 1. rewrite getAllUpcomingShoots_run by apply Hr.
  fold shoots. rewrite Hfind, Hold.
  unfold bind. rewrite (call_reliable H _ _ w Hr). reflexivity.
Qed.

Lemma saveShoot_run (H : Host) (w : World) (fields : ShootFields.t) :
  Spec.reliable H ->
  let old := sortBy (Spec.byShootDateDesc H)
               (map Storage.backfillShoot (default [] (ns_shoots (store w)))) in
  let e := ShootEntry.mk (host_randomId H (drawn w))
             (ShootFields.clientName fields) (ShootFields.shootDate fields)
             (ShootFields.shootTime fields) (ShootFields.shootLocation fields)
             (ShootFields.salonName fields) (ShootFields.modelName fields)
             (ShootFields.shootType fields) (ShootFields.price fields)
             (ShootFields.advancePaid fields) (ShootFields.phoneNumber fields)
             (ShootFields.notes fields) (host_isoNow H) (host_isoNow H) in
  Storage.saveShoot H fields w
  = (Ok e, mkWorld (withShoots (store w) (map Storage.storeShoot (old ++ [e])))
                   (scheduled w) (cancelRequests w) (S (drawn w))).
Proof.
  intros Hr old e. unfold Storage.saveShoot.
  unfold bind at 1. rewrite getAllShoots_run by apply Hr.
  unfold bind, generateId. cbn [store scheduled cancelRequests drawn].
  rewrite (call_reliable H _ _ _ Hr). reflexivity.
Qed.

Lemma cancelReminder_frame (H : Host) (key : string) (w : World) :
  let w1 := snd (Notifications.cancelReminder H key w) in
  ns_shoots (store w1) = ns_shoots (store w)
  /\ ns_upcoming_shoots (store w1) = ns_upcoming_shoots (store w)
  /\ drawn w1 = drawn w.
Proof.
  cbv zeta.
  unfold Notifications.cancelReminder, tryCatch, bind, getItem,
    cancelScheduledNotificationAsync, removeItem, call, ret.
  destruct (host_fails H (OpGetItem _)); [repeat split|].
  destruct (items (store w) !! _) as [h|]; [|repeat split].
  destruct (JS.truthyString h); [|repeat split].
  destruct (host_fails H (OpCancel h)); [repeat split|].
  destruct (host_fails H (OpRemoveItem _)); repeat split.
Qed.

Lemma lookup_map {A B : Type} (f : A -> B) (l : list A) (i : nat) :
  map f l !! i = option_map f (l !! i).
Proof.
  revert i; induction l as [|x l IH]; intros [|i]; try reflexivity. apply IH.
Qed.

Lemma map_insert_same {A B : Type} (f : A -> B) (l : list A) (i : nat) (x y : A) :
  l !! i = Some x -> f y = f x -> map f (<[i := y]> l) = map f l.
Proof.
  revert i; induction l as [|z l IH]; intros [|i] Hx Hf; try discriminate.
  - injection Hx as ->. simpl. now rewrite Hf.
  - simpl. f_equal. now apply IH.
Qed.

Lemma In_insert {A : Type} (l : list A) (i : nat) (y x : A) :
  In x (<[i := y]> l) -> x = y \/ exists j, j <> i /\ l !! j = Some x.
Proof.
  intros Hin. apply list_elem_of_In, list_elem_of_lookup in Hin as [j Hj].
  apply list_lookup_insert_Some in Hj as [(-> & -> & _)|(Hne & Hj)]; [now left|].
  right. exists j. split; [congruence | exact Hj].
Qed.

Lemma insert_In {A : Type} (l : list A) (i : nat) (x y : A) :
  l !! i = Some x -> In y (<[i := y]> l).
Proof.
  intros Hx. apply list_elem_of_In, list_elem_of_lookup. exists i.
  apply list_lookup_insert_Some. left. repeat split.
  now apply lookup_lt_Some in Hx.
Qed.

Lemma sorted_upcoming_ids (H : Host) (stored : list StoredUpcoming.t) :
  Permutation
    (map UpcomingShoot.id (sortBy (Spec.byShootDate H) (map Storage.backfillUpcoming stored)))
    (map StoredUpcoming.id stored).
Proof.
  rewrite (Permutation_map _ (sortBy_perm _ _)). rewrite map_map. reflexivity.
Qed.

Lemma parseMoney_price (p : string) :
  Spec.parseMoney (JS.orString p "0") = Spec.parseMoney p.
Proof. destruct p; [|reflexivity]. unfold Spec.parseMoney. number_eq. Qed.

Lemma handleToggleComplete_run (H : Host) (w w1 w2 : World)
      (stored : list StoredUpcoming.t) (shoots : list UpcomingShoot.t)
      (s old : UpcomingShoot.t) (i : nat) :
  Spec.reliable H ->
  UpcomingShoot.completed s = false ->
  ns_upcoming_shoots (store w) = Some stored ->
  shoots = sortBy (Spec.byShootDate H) (map Storage.backfillUpcoming stored) ->
  Storage.findIndex (UpcomingShoot.id s) shoots = Some i ->
  shoots !! i = Some old ->
  w1 = withStore w (withUpcoming (store w)
         (map Storage.storeUpcoming (<[i := Spec.markCompleted H old]> shoots))) ->
  w2 = snd (Notifications.cancelReminder H ("shoot_" +:+ UpcomingShoot.id s) w1) ->
  UpcomingTab.handleToggleComplete H s w
  = (Ok tt, snd (Storage.saveShoot H (UpcomingTab.completedFields s) w2)).
Proof.
  intros Hr Hc Hstored -> Hfind Hold -> ->. unfold UpcomingTab.handleToggleComplete.
  rewrite Hc. cbn [negb]. unfold bind at 1.
  pose proof (updateUpcomingShoot_run H w (UpcomingShoot.id s) i old Hr) as Hupd.
  rewrite Hstored in Hupd. change (default [] (Some stored)) with stored in Hupd.
  rewrite (Hupd Hfind Hold).
  unfold bind at 1, detached. unfold tryCatch, bind.
  repeat match goal with
         | |- context [Storage.saveShoot H ?f ?W] => rewrite (saveShoot_run H W f Hr)
         end.
  reflexivity.
Qed.

(** C2.  Marking an upcoming shoot completed: the handler succeeds; the
    shoot is no longer in the [getUpcomingShootsFromToday] view; the
    reminder stored under ["shoot_<id>"] is cancelled; a new [ShootEntry]
    with the same client name and shoot date and with the package price as
    price (the text "0" for an empty package price, the same amount of
    money) is added to the shoots collection; and the upcoming shoot stays
    in the upcoming-shoots collection, now marked completed, nothing being
    deleted from it. *)
Theorem completing_a_shoot (H : Host) (w : World) (stored : list StoredUpcoming.t)
        (s : UpcomingShoot.t) :
  Spec.reliable H ->
  ns_upcoming_shoots (store w) = Some stored ->
  NoDup (map StoredUpcoming.id stored) ->
  In s (map Storage.backfillUpcoming stored) ->
  UpcomingShoot.completed s = false ->
  let w' := snd (UpcomingTab.handleToggleComplete H s w) in
  let k := Notifications.notifKey ("shoot_" +:+ UpcomingShoot.id s) in
  fst (UpcomingTab.handleToggleComplete H s w) = Ok tt
  /\ (exists view,
        UpcomingTab.upcomingView H w' = (Ok view, w')
        /\ forall x, In x view -> UpcomingShoot.id x <> UpcomingShoot.id s)
  /\ (forall h,
        items (store w) !! k = Some h -> h <> EmptyString ->
        items (store w') !! k = None
        /\ scheduled w' !! h = None
        /\ In h (cancelRequests w'))
  /\ (exists e old,
        Storage.getAllShoots H w = (Ok old, w)
        /\ ns_shoots (store w') = Some (map Storage.storeShoot (old ++ [e]))
        /\ ShootEntry.clientName e = UpcomingShoot.clientName s
        /\ ShootEntry.shootDate e = UpcomingShoot.shootDate s
        /\ ShootEntry.price e = JS.orString (UpcomingShoot.packagePrice s) "0"
        /\ (UpcomingShoot.packagePrice s <> EmptyString ->
            ShootEntry.price e = UpcomingShoot.packagePrice s)
        /\ Spec.parseMoney (ShootEntry.price e)
           = Spec.parseMoney (UpcomingShoot.packagePrice s)
        /\ (UpcomingShoot.clientName s <> EmptyString ->
            exists shoots e',
              Storage.getAllShoots H w' = (Ok shoots, w')
              /\ In e' shoots
              /\ ShootEntry.clientName e' = UpcomingShoot.clientName s
              /\ ShootEntry.shootDate e' = UpcomingShoot.shootDate s
              /\ ShootEntry.price e' = ShootEntry.price e))
  /\ (exists stored',
        ns_upcoming_shoots (store w') = Some stored'
        /\ Permutation (map StoredUpcoming.id stored') (map StoredUpcoming.id stored)
        /\ exists r, In r stored'
                     /\ StoredUpcoming.id r = UpcomingShoot.id s
                     /\ StoredUpcoming.completed r = true).
Proof.
  intros Hr Hstored Hnodup Hin Hc.
  set (shoots := sortBy (Spec.byShootDate H) (map Storage.backfillUpcoming stored)).
  assert (Hin' : In s shoots).
  { apply (Permutation_in _ (Permutation_sym (sortBy_perm _ _))). exact Hin. }
  destruct (findIndex_In _ shoots s Hin' eq_refl) as [i Hfind].
  destruct (findIndex_Some _ _ _ Hfind) as (old & Hold & Hid).
  assert (Hids : NoDup (map UpcomingShoot.id shoots)).
  { eapply NoDup_Permutation_proper; [apply sorted_upcoming_ids | exact Hnodup]. }
  destruct (markCompleted_fields H old) as [Hmid Hmc].
  set (shoots' := <[i := Spec.markCompleted H old]> shoots).
  set (w1 := withStore w (withUpcoming (store w) (map Storage.storeUpcoming shoots'))).
  set (w2 := snd (Notifications.cancelReminder H ("shoot_" +:+ UpcomingShoot.id s) w1)).
  pose proof (handleToggleComplete_run H w w1 w2 stored shoots s old i Hr Hc Hstored
                eq_refl Hfind Hold eq_refl eq_refl) as Hrun.
  destruct (cancelReminder_frame H ("shoot_" +:+ UpcomingShoot.id s) w1)
    as (Hf1 & Hf2 & Hf3). fold w2 in Hf1, Hf2, Hf3.
  pose proof (saveShoot_run H w2 (UpcomingTab.completedFields s) Hr) as Hsave.
  cbv zeta in Hsave.
  rewrite Hsave in Hrun. cbn [snd] in Hrun.
  cbv zeta. rewrite Hrun. cbn [fst snd].
  set (e := ShootEntry.mk (host_randomId H (drawn w2)) _ _ _ _ _ _ _ _ _ _ _ _ _) in *.
  set (old_shoots := sortBy (Spec.byShootDateDesc H)
                       (map Storage.backfillShoot (default [] (ns_shoots (store w2))))) in *.
  set (w3 := mkWorld _ _ _ _).
  assert (Hup3 : ns_upcoming_shoots (store w3) = Some (map Storage.storeUpcoming shoots')).
  { subst w3. cbn [store withShoots ns_upcoming_shoots]. rewrite Hf2. reflexivity. }
  assert (Hback : map Storage.backfillUpcoming (map Storage.storeUpcoming shoots') = shoots').
  { rewrite map_map. rewrite <- (map_id shoots') at 2. apply map_ext.
    intros x. apply backfill_store_upcoming. }
  split; [reflexivity|]. split; [|split; [|split]].
  - (* the view *)
    eexists. split.
    + unfold UpcomingTab.upcomingView, bind.
      rewrite getAllUpcomingShoots_run by apply Hr. rewrite Hup3.
      change (default [] (Some ?l)) with l. rewrite Hback. reflexivity.
    + intros x Hx. unfold Storage.getUpcomingShootsFromToday in Hx.
      apply filter_In in Hx as [Hx Hkeep].
      apply (Permutation_in _ (sortBy_perm _ _)) in Hx.
      apply In_insert in Hx as [->|(j & Hne & Hj)].
      * rewrite Hmc in Hkeep.
        destruct (Storage.midnightOf H _); [|discriminate].
        rewrite andb_false_r in Hkeep. discriminate.
      * intros Heq. apply Hne.
        apply (NoDup_lookup (map UpcomingShoot.id shoots) j i (UpcomingShoot.id s) Hids).
        -- rewrite lookup_map, Hj. cbn [option_map]. now rewrite Heq.
        -- rewrite lookup_map, Hold. cbn [option_map]. now rewrite Hid.
  - (* the reminder *)
    intros h Hh Hne.
    assert (Hh1 : items (store w1) !! Notifications.notifKey ("shoot_" +:+ UpcomingShoot.id s)
                  = Some h) by exact Hh.
    pose proof (cancelReminder_present H _ h w1 Hr Hh1 Hne) as Hw2.
    apply (f_equal snd) in Hw2. cbn [snd] in Hw2. fold w2 in Hw2.
    subst w3. cbn [store withShoots items scheduled cancelRequests].
    rewrite Hw2. cbn [store withItems items scheduled cancelRequests].
    split; [apply lookup_delete_eq|]. split; [apply lookup_delete_eq | now left].
  - (* the new shoot entry *)
    assert (Hold_eq : default [] (ns_shoots (store w2)) = default [] (ns_shoots (store w))).
    { rewrite Hf1. reflexivity. }
    exists e, old_shoots. split.
    { rewrite getAllShoots_run by apply Hr. subst old_shoots. rewrite Hold_eq. reflexivity. }
    split; [reflexivity|]. split; [reflexivity|]. split; [reflexivity|].
    split; [reflexivity|].
    split. { intros Hp. subst e. cbn. destruct (UpcomingShoot.packagePrice s); [congruence | reflexivity]. }
    split; [apply parseMoney_price|].
    intros Hname. eexists _, (Storage.backfillShoot (Storage.storeShoot e)). split.
    { rewrite getAllShoots_run by apply Hr. reflexivity. }
    split.
    { apply (Permutation_in _ (Permutation_sym (sortBy_perm _ _))).
      subst w3. cbn [store withShoots ns_shoots default].
      apply in_map, in_map, in_or_app. right. now left. }
    split; [|split; reflexivity].
    subst e. cbn. destruct (UpcomingShoot.clientName s); [congruence | reflexivity].
  - (* the upcoming collection *)
    exists (map Storage.storeUpcoming shoots'). split; [exact Hup3|]. split.
    + rewrite map_map.
      assert (Hext : map (fun x => StoredUpcoming.id (Storage.storeUpcoming x)) shoots'
                     = map UpcomingShoot.id shoots').
      { apply map_ext. reflexivity. }
      rewrite Hext. subst shoots'.
      rewrite (map_insert_same UpcomingShoot.id shoots i old _ Hold Hmid).
      apply sorted_upcoming_ids.
    + exists (Storage.storeUpcoming (Spec.markCompleted H old)). split.
      * apply in_map. subst shoots'. eapply insert_In. exact Hold.
      * split; [cbn; rewrite Hmid; exact Hid | cbn; exact Hmc].
Qed.

Lemma completing_a_shoot_witness :
  Spec.reliable Device.host
  /\ ns_upcoming_shoots (store Device.bookedWorld)
     = Some [Device.booking "b1" "2024-03-06" false; Device.booking "b2" "2024-03-09" false]
  /\ NoDup (map StoredUpcoming.id [Device.booking "b1" "2024-03-06" false;
                                   Device.booking "b2" "2024-03-09" false])
  /\ UpcomingShoot.completed
       (Storage.backfillUpcoming (Device.booking "b1" "2024-03-06" false)) = false
  /\ fst (UpcomingTab.handleToggleComplete Device.host
            (Storage.backfillUpcoming (Device.booking "b1" "2024-03-06" false))
            Device.bookedWorld) = Ok tt.
Proof.
  assert (Hr : Spec.reliable Device.host) by (intros op; reflexivity).
  assert (Hn : NoDup (map StoredUpcoming.id [Device.booking "b1" "2024-03-06" false;
                                             Device.booking "b2" "2024-03-09" false])).
  { cbn. apply NoDup_cons. split; [|apply NoDup_singleton].
    intros Hin%list_elem_of_In. destruct Hin as [Hin|[]]. discriminate. }
  split; [exact Hr|]. split; [reflexivity|]. split; [exact Hn|]. split; [reflexivity|].
  assert (Hin : In (Storage.backfillUpcoming (Device.booking "b1" "2024-03-06" false))
                  (map Storage.backfillUpcoming
                       [Device.booking "b1" "2024-03-06" false;
                        Device.booking "b2" "2024-03-09" false])) by (left; reflexivity).
  exact (proj1 (completing_a_shoot Device.host Device.bookedWorld
                  [Device.booking "b1" "2024-03-06" false;
                   Device.booking "b2" "2024-03-09" false]
                  (Storage.backfillUpcoming (Device.booking "b1" "2024-03-06" false))
                  Hr eq_refl Hn Hin eq_refl)).
Defined.

Example completing_example :
  fst (UpcomingTab.upcomingView Device.host
         (snd (UpcomingTab.handleToggleComplete Device.host
                 (Storage.backfillUpcoming (Device.booking "b1" "2024-03-06" false))
                 Device.bookedWorld)))
  = Ok [Storage.backfillUpcoming (Device.booking "b2" "2024-03-09" false)].
Proof. vm_compute. reflexivity. Qed.

(** ** More of the record store *)

Lemma backfilled_upcoming (l : list UpcomingShoot.t) :
  map Storage.backfillUpcoming (map Storage.storeUpcoming l) = l.
Proof.
  rewrite map_map. rewrite <- (map_id l) at 2. apply map_ext.
  intros x. apply backfill_store_upcoming.
Qed.

Lemma upcoming_after_write (H : Host) (w : World) (l : list UpcomingShoot.t) :
  Spec.reliable H ->
  ns_upcoming_shoots (store w) = Some (map Storage.storeUpcoming l) ->
  Storage.getAllUpcomingShoots H w = (Ok (sortBy (Spec.byShootDate H) l), w).
Proof.
  intros Hr Hs. rewrite getAllUpcomingShoots_run by apply Hr. rewrite Hs.
  change (default [] (Some ?x)) with x. now rewrite backfilled_upcoming.
Qed.

Lemma saveUpcomingShoot_run (H : Host) (w : World) (fields : UpcomingFields.t) :
  Spec.reliable H ->
  let old := sortBy (Spec.byShootDate H)
               (map Storage.backfillUpcoming (default [] (ns_upcoming_shoots (store w)))) in
  let new := UpcomingShoot.mk (host_randomId H (drawn w))
               (UpcomingFields.clientName fields) (UpcomingFields.shootDate fields)
               (UpcomingFields.shootTime fields) (UpcomingFields.shootLocation fields)
               (UpcomingFields.salonName fields) (UpcomingFields.modelName fields)
               (UpcomingFields.shootType fields) (UpcomingFields.contactNumber fields)
               (UpcomingFields.packagePrice fields) (UpcomingFields.advancePaid fields)
               (UpcomingFields.notes fields) (UpcomingFields.completed fields)
               (host_isoNow H) (host_isoNow H) in
  Storage.saveUpcomingShoot H fields w
  = (Ok new, mkWorld (withUpcoming (store w) (map Storage.storeUpcoming (old ++ [new])))
                     (scheduled w) (cancelRequests w) (S (drawn w))).
Proof.
  intros Hr old new. unfold Storage.saveUpcomingShoot.
  unfold bind at 1. rewrite getAllUpcomingShoots_run by apply Hr.
  unfold bind, generateId. cbn [store scheduled cancelRequests drawn].
  rewrite (call_reliable H _ _ _ Hr). reflexivity.
Qed.

(** X1.  Saving a new upcoming shoot returns the record made of the
  generated id, every given field as it is, and the current time as both
  time stamps, and adds it to the collection: the list read afterwards is
  the former list plus the new record.  When the record is not completed
  and its date is today or later, it is in the
  [getUpcomingShootsFromToday] view. *)
Theorem saved_booking_is_listed (H : Host) (w : World) (fields : UpcomingFields.t) :
  Spec.reliable H ->
  exists (new : UpcomingShoot.t) (old all : list UpcomingShoot.t) (w' : World),
    Storage.getAllUpcomingShoots H w = (Ok old, w)
    /\ Storage.saveUpcomingShoot H fields w = (Ok new, w')
    /\ new = UpcomingShoot.mk (host_randomId H (drawn w))
               (UpcomingFields.clientName fields) (UpcomingFields.shootDate fields)
               (UpcomingFields.shootTime fields) (UpcomingFields.shootLocation fields)
               (UpcomingFields.salonName fields) (UpcomingFields.modelName fields)
               (UpcomingFields.shootType fields) (UpcomingFields.contactNumber fields)
               (UpcomingFields.packagePrice fields) (UpcomingFields.advancePaid fields)
               (UpcomingFields.notes fields) (UpcomingFields.completed fields)
               (host_isoNow H) (host_isoNow H)
    /\ Storage.getAllUpcomingShoots H w' = (Ok all, w')
    /\ Permutation all (new :: old)
    /\ (forall t,
          UpcomingFields.completed fields = false ->
          Storage.midnightOf H (UpcomingFields.shootDate fields) = Some t ->
          Storage.todayMidnight H <= t ->
          In new (Storage.getUpcomingShootsFromToday H all)).
Proof.
  intros Hr. eexists _, _, _, _.
  split; [apply getAllUpcomingShoots_run, Hr|].
  split; [apply saveUpcomingShoot_run, Hr|].
  split; [reflexivity|].
  split; [apply upcoming_after_write; [exact Hr | reflexivity]|].
  split.
  { rewrite sortBy_perm. rewrite Permutation_app_comm. reflexivity. }
  intros t Hc Ht Hle. unfold Storage.getUpcomingShootsFromToday.
  apply filter_In. split.
  - apply (Permutation_in _ (Permutation_sym (sortBy_perm _ _))).
    apply in_or_app. right. now left.
  - cbn [UpcomingShoot.shootDate UpcomingShoot.completed]. rewrite Ht, Hc.
    apply andb_true_intro. split; [now apply Z.leb_le | reflexivity].
Qed.

Lemma saved_booking_is_listed_witness :
  Spec.reliable Device.host
  /\ exists w',
       Storage.saveUpcomingShoot Device.host
         (UpcomingFields.mk "Nimal" "2024-03-09" "4:30 PM" "Kandy" "Salon A" "Ama" Wedding
                            "0771234567" "45000" "10000" "outdoor" false)
         Device.emptyWorld
       = (Ok (UpcomingShoot.mk (host_randomId Device.host 0) "Nimal" "2024-03-09" "4:30 PM"
                "Kandy" "Salon A" "Ama" Wedding "0771234567" "45000" "10000" "outdoor"
                false (host_isoNow Device.host) (host_isoNow Device.host)), w').
Proof.
  assert (Hr : Spec.reliable Device.host) by (intros op; reflexivity).
  split; [exact Hr|].
  destruct (saved_booking_is_listed Device.host Device.emptyWorld
              (UpcomingFields.mk "Nimal" "2024-03-09" "4:30 PM" "Kandy" "Salon A" "Ama"
                                 Wedding "0771234567" "45000" "10000" "outdoor" false) Hr)
    as (new & old & all & w' & _ & Hsave & Hnew & _).
  exists w'. rewrite Hsave, Hnew. reflexivity.
Defined.

Lemma filter_length_same {A : Type} (p : A -> bool) (l : list A) :
  List.length (List.filter p l) = List.length l -> List.filter p l = l.
Proof.
  induction l as [|x l IH]; [reflexivity|]. cbn [List.filter].
  destruct (p x); cbn [List.length].
  - intros Hl. f_equal. apply IH. lia.
  - intros Hl. pose proof (filter_length_le p l). lia.
Qed.

Lemma filter_all {A : Type} (p : A -> bool) (l : list A) :
  (forall x, In x l -> p x = true) -> List.filter p l = l.
Proof.
  induction l as [|x l IH]; [reflexivity|]. intros Hall. cbn [List.filter].
  rewrite (Hall x) by now left. f_equal. apply IH. intros y Hy. apply Hall. now right.
Qed.

Lemma filter_some_out {A : Type} (p : A -> bool) (l : list A) (x : A) :
  In x l -> p x = false -> (List.length (List.filter p l) =? List.length l)%nat = false.
Proof.
  intros Hin Hp. apply Nat.eqb_neq. intros Hl.
  apply filter_length_same in Hl. rewrite <- Hl in Hin.
  apply filter_In in Hin as [_ Hpx]. congruence.
Qed.

Lemma deleteUpcomingShoot_run (H : Host) (w : World) (id : string) :
  Spec.reliable H ->
  let old := sortBy (Spec.byShootDate H)
               (map Storage.backfillUpcoming (default [] (ns_upcoming_shoots (store w)))) in
  let kept := List.filter (fun s => negb (String.eqb (UpcomingShoot.id s) id)) old in
  Storage.deleteUpcomingShoot H id w
  = if (List.length kept =? List.length old)%nat then (Ok false, w)
    else (Ok true, withStore w (withUpcoming (store w) (map Storage.storeUpcoming kept))).
Proof.
  intros Hr old kept. unfold Storage.deleteUpcomingShoot.
  unfold bind at 1. rewrite getAllUpcomingShoots_run by apply Hr.
  fold old. fold kept. destruct (List.length kept =? List.length old)%nat; [reflexivity|].
  unfold bind. rewrite (call_reliable H _ _ _ Hr). reflexivity.
Qed.

(** X2.  Deleting an upcoming shoot by an id that no record has returns
  [false] and writes nothing.  Deleting by an id that some record has
  returns [true]; afterwards no record has that id and every record with
  another id is still there. *)
Theorem deleteUpcomingShoot_removes (H : Host) (w : World) (id : string)
        (old : list UpcomingShoot.t) :
  Spec.reliable H ->
  Storage.getAllUpcomingShoots H w = (Ok old, w) ->
  ((forall x, In x old -> UpcomingShoot.id x <> id) ->
   Storage.deleteUpcomingShoot H id w = (Ok false, w))
  /\ ((exists x, In x old /\ UpcomingShoot.id x = id) ->
      exists w' all,
        Storage.deleteUpcomingShoot H id w = (Ok true, w')
        /\ Storage.getAllUpcomingShoots H w' = (Ok all, w')
        /\ (forall y, In y all <-> In y old /\ UpcomingShoot.id y <> id)
        /\ items (store w') = items (store w)
        /\ ns_shoots (store w') = ns_shoots (store w)
        /\ scheduled w' = scheduled w).
Proof.
  intros Hr Hold. rewrite getAllUpcomingShoots_run in Hold by apply Hr.
  injection Hold as Hold. pose proof (deleteUpcomingShoot_run H w id Hr) as Hrun.
  cbv zeta in Hrun. rewrite Hold in Hrun. split.
  - intros Hnone. rewrite Hrun. rewrite filter_all; [now rewrite Nat.eqb_refl|].
    intros x Hx. apply negb_true_iff. apply String.eqb_neq. now apply Hnone.
  - intros (x & Hx & Hid). rewrite Hrun.
    rewrite (filter_some_out _ old x Hx)
      by (apply negb_false_iff, String.eqb_eq; exact Hid).
    eexists _, _. split; [reflexivity|].
    split; [apply upcoming_after_write; [exact Hr | reflexivity]|].
    split; [|repeat split].
    intros y. rewrite (Permutation_in' eq_refl (sortBy_perm _ _)).
    rewrite filter_In, negb_true_iff, String.eqb_neq. reflexivity.
Qed.

Lemma deleteUpcomingShoot_removes_witness :
  Spec.reliable Device.host
  /\ exists w', Storage.deleteUpcomingShoot Device.host "b1" Device.bookedWorld = (Ok true, w').
Proof.
  assert (Hr : Spec.reliable Device.host) by (intros op; reflexivity).
  split; [exact Hr|].
  destruct (deleteUpcomingShoot_removes Device.host Device.bookedWorld "b1" _ Hr
              (getAllUpcomingShoots_run Device.host Device.bookedWorld (Hr _)))
    as [_ Hsome].
  destruct Hsome as (w' & all & Hdel & _).
  - eexists. split; [left; reflexivity | reflexivity].
  - exists w'. exact Hdel.
Defined.

Lemma findIndex_None (id : string) (l : list UpcomingShoot.t) :
  (forall x, In x l -> UpcomingShoot.id x <> id) -> Storage.findIndex id l = None.
Proof.
  induction l as [|y r IH]; [reflexivity|]. intros Hall. cbn [Storage.findIndex].
  destruct (String.eqb_spec (UpcomingShoot.id y) id) as [Heq|Hne].
  - exfalso. apply (Hall y); [now left | exact Heq].
  - rewrite IH; [reflexivity|]. intros x Hx. apply Hall. now right.
Qed.

Lemma applyUpdates_field {A : Type} (field : UpcomingShoot.t -> A)
      (pick : UpcomingUpdate -> option A) :
  (forall s u, field (Storage.applyUpdate s u) = default (field s) (pick u)) ->
  forall updates s,
    field (fold_left Storage.applyUpdate updates s)
    = default (field s) (Spec.given pick updates).
Proof.
  intros Hstep. induction updates as [|u r IH]; intros s; [reflexivity|].
  cbn [fold_left]. rewrite IH, Hstep. unfold Spec.given. cbn [omap list_omap].
  destruct (pick u) as [v|]; [|reflexivity].
  cbn [default]. rewrite last_cons. destruct (last (omap pick r)); reflexivity.
Qed.

Lemma applyUpdates_spread (updates : list UpcomingUpdate) (s : UpcomingShoot.t)
      (now : string) :
  Storage.setUpdatedAt (fold_left Storage.applyUpdate updates s) now
  = Spec.spread s updates now.
Proof.
  pose proof (applyUpdates_field UpcomingShoot.id Spec.idGiven
                ltac:(intros [] []; reflexivity) updates s) as HId.
  pose proof (applyUpdates_field UpcomingShoot.clientName Spec.clientNameGiven
                ltac:(intros [] []; reflexivity) updates s) as HClientName.
  pose proof (applyUpdates_field UpcomingShoot.shootDate Spec.shootDateGiven
                ltac:(intros [] []; reflexivity) updates s) as HShootDate.
  pose proof (applyUpdates_field UpcomingShoot.shootTime Spec.shootTimeGiven
                ltac:(intros [] []; reflexivity) updates s) as HShootTime.
  pose proof (applyUpdates_field UpcomingShoot.shootLocation Spec.shootLocationGiven
                ltac:(intros [] []; reflexivity) updates s) as HShootLocation.
  pose proof (applyUpdates_field UpcomingShoot.salonName Spec.salonNameGiven
                ltac:(intros [] []; reflexivity) updates s) as HSalonName.
  pose proof (applyUpdates_field UpcomingShoot.modelName Spec.modelNameGiven
                ltac:(intros [] []; reflexivity) updates s) as HModelName.
  pose proof (applyUpdates_field UpcomingShoot.shootType Spec.shootTypeGiven
                ltac:(intros [] []; reflexivity) updates s) as HShootType.
  pose proof (applyUpdates_field UpcomingShoot.contactNumber Spec.contactNumberGiven
                ltac:(intros [] []; reflexivity) updates s) as HContactNumber.
  pose proof (applyUpdates_field UpcomingShoot.packagePrice Spec.packagePriceGiven
                ltac:(intros [] []; reflexivity) updates s) as HPackagePrice.
  pose proof (applyUpdates_field UpcomingShoot.advancePaid Spec.advancePaidGiven
                ltac:(intros [] []; reflexivity) updates s) as HAdvancePaid.
  pose proof (applyUpdates_field UpcomingShoot.notes Spec.notesGiven
                ltac:(intros [] []; reflexivity) updates s) as HNotes.
  pose proof (applyUpdates_field UpcomingShoot.completed Spec.completedGiven
                ltac:(intros [] []; reflexivity) updates s) as HCompleted.
  pose proof (applyUpdates_field UpcomingShoot.createdAt Spec.createdAtGiven
                ltac:(intros [] []; reflexivity) updates s) as HCreatedAt.
  unfold Spec.spread.
  destruct (fold_left Storage.applyUpdate updates s).
  cbn [Storage.setUpdatedAt UpcomingShoot.id UpcomingShoot.clientName
       UpcomingShoot.shootDate UpcomingShoot.shootTime UpcomingShoot.shootLocation
       UpcomingShoot.salonName UpcomingShoot.modelName UpcomingShoot.shootType
       UpcomingShoot.contactNumber UpcomingShoot.packagePrice UpcomingShoot.advancePaid
       UpcomingShoot.notes UpcomingShoot.completed UpcomingShoot.createdAt] in *.
  subst. reflexivity.
Qed.

Lemma findIndex_split (id : string) (l : list UpcomingShoot.t)
      (before after : list UpcomingShoot.t) (prev : UpcomingShoot.t) :
  l = before ++ prev :: after ->
  (forall y, In y before -> UpcomingShoot.id y <> id) ->
  UpcomingShoot.id prev = id ->
  Storage.findIndex id l = Some (List.length before).
Proof.
  intros -> Hbefore Hprev. induction before as [|y r IH].
  - cbn [app Storage.findIndex List.length]. now rewrite Hprev, String.eqb_refl.
  - cbn [app Storage.findIndex List.length].
    destruct (String.eqb_spec (UpcomingShoot.id y) id) as [Heq|_].
    + exfalso. apply (Hbefore y); [now left | exact Heq].
    + rewrite IH; [reflexivity|]. intros z Hz. apply Hbefore. now right.
Qed.

Lemma setUpdatedAt_fields (s : UpcomingShoot.t) (v : string) :
  UpcomingShoot.id (Storage.setUpdatedAt s v) = UpcomingShoot.id s
  /\ UpcomingShoot.createdAt (Storage.setUpdatedAt s v) = UpcomingShoot.createdAt s
  /\ UpcomingShoot.completed (Storage.setUpdatedAt s v) = UpcomingShoot.completed s
  /\ UpcomingShoot.updatedAt (Storage.setUpdatedAt s v) = v.
Proof. destruct s; repeat split; reflexivity. Qed.

Lemma updateUpcomingShoot_found (H : Host) (w : World) (id : string)
      (updates : list UpcomingUpdate) (i : nat) (old : UpcomingShoot.t) :
  Spec.reliable H ->
  let shoots := sortBy (Spec.byShootDate H)
                  (map Storage.backfillUpcoming (default [] (ns_upcoming_shoots (store w)))) in
  let updated := Storage.setUpdatedAt (fold_left Storage.applyUpdate updates old)
                                      (host_isoNow H) in
  Storage.findIndex id shoots = Some i ->
  shoots !! i = Some old ->
  Storage.updateUpcomingShoot H id updates w
  = (Ok (Some updated),
     withStore w (withUpcoming (store w)
                    (map Storage.storeUpcoming (<[i := updated]> shoots)))).
Proof.
  intros Hr shoots updated Hfind Hold. unfold Storage.updateUpcomingShoot.
  unfold bind at 1. rewrite getAllUpcomingShoots_run by apply Hr.
  fold shoots. rewrite Hfind, Hold.
  unfold bind. rewrite (call_reliable H _ _ w Hr). reflexivity.
Qed.

Lemma updateUpcomingShoot_missing (H : Host) (w : World) (id : string)
      (updates : list UpcomingUpdate) :
  Spec.reliable H ->
  Storage.findIndex id
    (sortBy (Spec.byShootDate H)
       (map Storage.backfillUpcoming (default [] (ns_upcoming_shoots (store w))))) = None ->
  Storage.updateUpcomingShoot H id updates w = (Ok None, w).
Proof.
  intros Hr Hfind. unfold Storage.updateUpcomingShoot.
  unfold bind at 1. rewrite getAllUpcomingShoots_run by apply Hr.
  rewrite Hfind. reflexivity.
Qed.

(** X3.  [updateUpcomingShoot] with an id that no record has returns
  [null] and writes nothing.  Otherwise the first record with that id, and
  no other, is replaced: every property takes the value that the updates
  give to it, else it keeps its own, and the update time is the current
  time whatever the updates give.  The id and the creation time are
  therefore kept only when the updates give none; an id given in the
  updates becomes the id of the record. *)
Theorem updateUpcomingShoot_in_place (H : Host) (w : World) (id : string)
        (updates : list UpcomingUpdate) (old : list UpcomingShoot.t) :
  Spec.reliable H ->
  Storage.getAllUpcomingShoots H w = (Ok old, w) ->
  ((forall x, In x old -> UpcomingShoot.id x <> id) ->
   Storage.updateUpcomingShoot H id updates w = (Ok None, w))
  /\ (forall before prev after,
        old = before ++ prev :: after ->
        (forall y, In y before -> UpcomingShoot.id y <> id) ->
        UpcomingShoot.id prev = id ->
        let u := Spec.spread prev updates (host_isoNow H) in
        let w' := withStore w (withUpcoming (store w)
                                 (map Storage.storeUpcoming (before ++ u :: after))) in
        Storage.updateUpcomingShoot H id updates w = (Ok (Some u), w')
        /\ (exists all,
              Storage.getAllUpcomingShoots H w' = (Ok all, w')
              /\ Permutation all (before ++ u :: after))
        /\ UpcomingShoot.updatedAt u = host_isoNow H
        /\ (Spec.given Spec.idGiven updates = None -> UpcomingShoot.id u = id)
        /\ (forall v, Spec.given Spec.idGiven updates = Some v -> UpcomingShoot.id u = v)
        /\ (Spec.given Spec.createdAtGiven updates = None ->
            UpcomingShoot.createdAt u = UpcomingShoot.createdAt prev)).
Proof.
  intros Hr Hold. rewrite getAllUpcomingShoots_run in Hold by apply Hr.
  injection Hold as Hold. split.
  - intros Hnone. apply updateUpcomingShoot_missing; [exact Hr|].
    rewrite Hold. now apply findIndex_None.
  - intros before prev after Hsplit Hbefore Hprev. cbv zeta.
    pose proof (findIndex_split id old before after prev Hsplit Hbefore Hprev) as Hfind.
    assert (Hlook : old !! List.length before = Some prev)
      by (rewrite Hsplit; now apply list_lookup_middle).
    pose proof (updateUpcomingShoot_found H w id updates (List.length before) prev Hr)
      as Hrun.
    cbv zeta in Hrun. rewrite Hold in Hrun. specialize (Hrun Hfind Hlook).
    rewrite applyUpdates_spread in Hrun.
    assert (Hins : <[List.length before := Spec.spread prev updates (host_isoNow H)]> old
                   = before ++ Spec.spread prev updates (host_isoNow H) :: after).
    { rewrite Hsplit, insert_app_r_alt by reflexivity.
      now rewrite Nat.sub_diag. }
    rewrite Hins in Hrun.
    split; [exact Hrun|]. split.
    { eexists. split; [apply upcoming_after_write; [exact Hr | reflexivity]|].
      apply sortBy_perm. }
    split; [reflexivity|]. unfold Spec.spread. cbn [UpcomingShoot.id UpcomingShoot.createdAt].
    split; [intros ->; exact Hprev|]. split; [intros v ->; reflexivity|].
    intros ->. reflexivity.
Qed.

Lemma updateUpcomingShoot_in_place_witness :
  let old := map Storage.backfillUpcoming
               [Device.booking "b1" "2024-03-06" false;
                Device.booking "b2" "2024-03-09" false] in
  Spec.reliable Device.host
  /\ Storage.getAllUpcomingShoots Device.host Device.bookedWorld
     = (Ok old, Device.bookedWorld)
  /\ Storage.updateUpcomingShoot Device.host "nobody" [SetNotes "x"] Device.bookedWorld
     = (Ok None, Device.bookedWorld)
  /\ fst (Storage.updateUpcomingShoot Device.host "b2"
            [SetNotes "bring lights"; SetId "b9"] Device.bookedWorld)
     = Ok (Some (Spec.spread (Storage.backfillUpcoming (Device.booking "b2" "2024-03-09" false))
                             [SetNotes "bring lights"; SetId "b9"] (host_isoNow Device.host)))
  /\ UpcomingShoot.id
       (Spec.spread (Storage.backfillUpcoming (Device.booking "b2" "2024-03-09" false))
                    [SetNotes "bring lights"; SetId "b9"] (host_isoNow Device.host))
     = "b9"%string.
Proof.
  intros old.
  assert (Hr : Spec.reliable Device.host) by (intros op; reflexivity).
  assert (Hold : Storage.getAllUpcomingShoots Device.host Device.bookedWorld
                 = (Ok old, Device.bookedWorld)) by (vm_compute; reflexivity).
  pose proof (updateUpcomingShoot_in_place Device.host Device.bookedWorld "nobody"
                [SetNotes "x"] old Hr Hold) as [Hmissing _].
  pose proof (updateUpcomingShoot_in_place Device.host Device.bookedWorld "b2"
                [SetNotes "bring lights"; SetId "b9"] old Hr Hold) as [_ Hfound].
  split; [exact Hr|]. split; [exact Hold|]. split.
  - apply Hmissing. intros x [<-|[<-|[]]]; discriminate.
  - destruct (Hfound [Storage.backfillUpcoming (Device.booking "b1" "2024-03-06" false)]
                     (Storage.backfillUpcoming (Device.booking "b2" "2024-03-09" false)) []
                     eq_refl) as (Hrun & _ & _ & _ & Hid & _).
    + intros y [<-|[]]. discriminate.
    + reflexivity.
    + split; [now rewrite Hrun|]. apply Hid. reflexivity.
Defined.

(** ** More of the reminder scheduler *)

Lemma cancelReminder_only_deletes (H : Host) (key : string) (w : World) :
  let w1 := snd (Notifications.cancelReminder H key w) in
  (forall ident n, scheduled w1 !! ident = Some n -> scheduled w !! ident = Some n)
  /\ ns_invoices (store w1) = ns_invoices (store w)
  /\ ns_shoots (store w1) = ns_shoots (store w)
  /\ ns_upcoming_shoots (store w1) = ns_upcoming_shoots (store w)
  /\ ns_reminder_settings (store w1) = ns_reminder_settings (store w)
  /\ drawn w1 = drawn w
  /\ (forall k, k <> Notifications.notifKey key ->
                items (store w1) !! k = items (store w) !! k).
Proof.
  cbv zeta.
  unfold Notifications.cancelReminder, tryCatch, bind, getItem,
    cancelScheduledNotificationAsync, removeItem, call, ret.
  destruct (host_fails H (OpGetItem _)); [repeat split; auto|].
  destruct (items (store w) !! _) as [h|]; [|repeat split; auto].
  destruct (JS.truthyString h); [|repeat split; auto].
  destruct (host_fails H (OpCancel h)); [repeat split; auto|].
  assert (Hdel : forall ident n,
             delete h (scheduled w) !! ident = Some n -> scheduled w !! ident = Some n).
  { intros ident n Hl. apply lookup_delete_Some in Hl as [_ Hl]. exact Hl. }
  destruct (host_fails H (OpRemoveItem _)); cbn [snd store scheduled drawn withStore
    withItems items ns_invoices ns_shoots ns_upcoming_shoots ns_reminder_settings];
    repeat split; auto.
  intros k Hk. now rewrite lookup_delete_ne.
Qed.

Lemma register_effect (H : Host) (key : string) (n : Notification) (w : World) :
  let w' := snd (Spec.register H key n w) in
  (forall ident m, scheduled w' !! ident = Some m -> scheduled w !! ident = Some m \/ m = n)
  /\ ns_invoices (store w') = ns_invoices (store w)
  /\ ns_shoots (store w') = ns_shoots (store w)
  /\ ns_upcoming_shoots (store w') = ns_upcoming_shoots (store w)
  /\ ns_reminder_settings (store w') = ns_reminder_settings (store w).
Proof.
  cbv zeta.
  destruct (cancelReminder_only_deletes H key w) as (Hs & Hi & Hsh & Hu & Hr & _ & _).
  destruct (Spec.register H key n w) as [r w'] eqn:E. cbn [snd].
  unfold Spec.register, bind, scheduleNotificationAsync,
    Notifications.saveScheduledId, setItem, call, ret in E.
  destruct (Notifications.cancelReminder H key w) as [[[]|] w1]; cbn [snd] in *.
  - destruct (host_fails H OpSchedule).
    + injection E as _ <-. repeat split; auto.
    + assert (Hins : forall ident m,
                 <[host_notificationId H (drawn w1) := n]> (scheduled w1) !! ident = Some m ->
                 scheduled w !! ident = Some m \/ m = n).
      { intros ident m Hl. apply lookup_insert_Some in Hl as [[_ <-]|[_ Hl]]; auto. }
      destruct (host_fails H (OpSetItem (Notifications.notifKey key)));
        injection E as _ <-; repeat split; auto.
  - injection E as _ <-. repeat split; auto.
Qed.

Lemma register_reliable (H : Host) (key : string) (n : Notification) (w : World) :
  Spec.reliable H ->
  let w1 := snd (Notifications.cancelReminder H key w) in
  let ident := host_notificationId H (drawn w) in
  Spec.register H key n w
  = (Ok (Some ident),
     mkWorld (withItems (store w1) (<[Notifications.notifKey key := ident]> (items (store w1))))
             (<[ident := n]> (scheduled w1)) (cancelRequests w1) (S (drawn w))).
Proof.
  intros Hr w1 ident.
  destruct (cancelReminder_only_deletes H key w) as (_ & _ & _ & _ & _ & Hd & _).
  fold w1 in Hd. unfold Spec.register. unfold bind at 1.
  pose proof (cancelReminder_ok H key w) as Hok.
  destruct (Notifications.cancelReminder H key w) as [r w1'] eqn:E.
  cbn [fst snd] in *. subst r. subst w1.
  unfold bind, scheduleNotificationAsync, Notifications.saveScheduledId, setItem, call, ret.
  rewrite !Hr. cbn [store scheduled cancelRequests drawn withStore]. subst ident.
  rewrite Hd. reflexivity.
Qed.

Lemma scheduleShootReminder_unfold (H : Host) (w : World)
      (shootId clientName shootDate shootTime shootType location : string) :
  Notifications.scheduleShootReminder H shootId clientName shootDate shootTime shootType
    location w
  = if Notifications.isWeb H then (Ok None, w)
    else if negb (shootReminders (Spec.settingsOf H w)) then (Ok None, w)
    else match Spec.shootTarget H shootDate shootTime with
         | None => (Ok None, w)
         | Some target =>
             if target - Spec.leadTime H w <=? host_now H then (Ok None, w)
             else Spec.register H ("shoot_" +:+ shootId)
                    (Spec.shootNotification H (reminderTiming (Spec.settingsOf H w))
                       shootId clientName shootType location
                       (target - Spec.leadTime H w)) w
         end.
Proof.
  unfold Notifications.scheduleShootReminder, Spec.shootTarget.
  destruct (Notifications.isWeb H); [reflexivity|].
  unfold bind at 1. rewrite getReminderSettings_run.
  destruct (shootReminders (Spec.settingsOf H w)); [|reflexivity]. cbn [negb].
  destruct (Notifications.parseDate H shootDate) as [parsed|]; [|reflexivity].
  fold (Spec.leadTime H w).
  destruct (_ <=? host_now H); reflexivity.
Qed.

Lemma scheduleInvoiceReminder_unfold (H : Host) (w : World)
      (invoiceId invoiceNumber customerNames eventDate eventLocation : string) :
  Notifications.scheduleInvoiceReminder H invoiceId invoiceNumber customerNames eventDate
    eventLocation w
  = if Notifications.isWeb H then (Ok None, w)
    else if negb (invoiceReminders (Spec.settingsOf H w)) then (Ok None, w)
    else match Spec.invoiceTarget H eventDate with
         | None => (Ok None, w)
         | Some target =>
             if target - Spec.leadTime H w <=? host_now H then (Ok None, w)
             else Spec.register H ("invoice_" +:+ invoiceId)
                    (Spec.invoiceNotification H (reminderTiming (Spec.settingsOf H w))
                       invoiceId invoiceNumber customerNames eventLocation
                       (target - Spec.leadTime H w)) w
         end.
Proof.
  unfold Notifications.scheduleInvoiceReminder, Spec.invoiceTarget.
  destruct (Notifications.isWeb H); [reflexivity|].
  unfold bind at 1. rewrite getReminderSettings_run.
  destruct (invoiceReminders (Spec.settingsOf H w)); [|reflexivity]. cbn [negb].
  destruct (Notifications.parseDate H eventDate) as [parsed|]; [|reflexivity].
  fold (Spec.leadTime H w).
  destruct (_ <=? host_now H); reflexivity.
Qed.

Lemma scheduleShootReminder_cases (H : Host) (w : World)
      (shootId clientName shootDate shootTime shootType location : string) :
  Notifications.scheduleShootReminder H shootId clientName shootDate shootTime shootType
    location w = (Ok None, w)
  \/ exists target,
       Notifications.isWeb H = false
       /\ shootReminders (Spec.settingsOf H w) = true
       /\ Spec.shootTarget H shootDate shootTime = Some target
       /\ host_now H < target - Spec.leadTime H w
       /\ Notifications.scheduleShootReminder H shootId clientName shootDate shootTime
            shootType location w
          = Spec.register H ("shoot_" +:+ shootId)
              (Spec.shootNotification H (reminderTiming (Spec.settingsOf H w))
                 shootId clientName shootType location (target - Spec.leadTime H w)) w.
Proof.
  rewrite scheduleShootReminder_unfold.
  destruct (Notifications.isWeb H); [now left|].
  destruct (shootReminders (Spec.settingsOf H w)); [|now left]. cbn [negb].
  destruct (Spec.shootTarget H shootDate shootTime) as [target|]; [|now left].
  destruct (Z.leb_spec (target - Spec.leadTime H w) (host_now H)); [now left|].
  right. exists target. repeat split; assumption.
Qed.

Lemma scheduleInvoiceReminder_cases (H : Host) (w : World)
      (invoiceId invoiceNumber customerNames eventDate eventLocation : string) :
  Notifications.scheduleInvoiceReminder H invoiceId invoiceNumber customerNames eventDate
    eventLocation w = (Ok None, w)
  \/ exists target,
       Notifications.isWeb H = false
       /\ invoiceReminders (Spec.settingsOf H w) = true
       /\ Spec.invoiceTarget H eventDate = Some target
       /\ host_now H < target - Spec.leadTime H w
       /\ Notifications.scheduleInvoiceReminder H invoiceId invoiceNumber customerNames
            eventDate eventLocation w
          = Spec.register H ("invoice_" +:+ invoiceId)
              (Spec.invoiceNotification H (reminderTiming (Spec.settingsOf H w))
                 invoiceId invoiceNumber customerNames eventLocation
                 (target - Spec.leadTime H w)) w.
Proof.
  rewrite scheduleInvoiceReminder_unfold.
  destruct (Notifications.isWeb H); [now left|].
  destruct (invoiceReminders (Spec.settingsOf H w)); [|now left]. cbn [negb].
  destruct (Spec.invoiceTarget H eventDate) as [target|]; [|now left].
  destruct (Z.leb_spec (target - Spec.leadTime H w) (host_now H)); [now left|].
  right. exists target. repeat split; assumption.
Qed.

Lemma register_adds_one (H : Host) (key : string) (n : Notification) (w : World) :
  forall ident m,
    scheduled (snd (Spec.register H key n w)) !! ident = Some m ->
    scheduled w !! ident = Some m
    \/ (ident = host_notificationId H (drawn w) /\ m = n).
Proof.
  destruct (cancelReminder_only_deletes H key w) as (Hs & _ & _ & _ & _ & Hd & _).
  destruct (Spec.register H key n w) as [r w'] eqn:E. cbn [snd].
  unfold Spec.register, bind, scheduleNotificationAsync,
    Notifications.saveScheduledId, setItem, call, ret in E.
  destruct (Notifications.cancelReminder H key w) as [[[]|] w1]; cbn [snd] in *.
  - destruct (host_fails H OpSchedule).
    + injection E as _ <-. auto.
    + assert (Hins : forall ident m,
                 <[host_notificationId H (drawn w1) := n]> (scheduled w1) !! ident = Some m ->
                 scheduled w !! ident = Some m
                 \/ (ident = host_notificationId H (drawn w) /\ m = n)).
      { intros ident m Hl. rewrite <- Hd.
        apply lookup_insert_Some in Hl as [[<- <-]|[_ Hl]]; auto. }
      destruct (host_fails H (OpSetItem (Notifications.notifKey key)));
        injection E as _ <-; exact Hins.
  - injection E as _ <-. auto.
Qed.

Lemma size_adds_one (m m' : gmap string Notification) (k : string) :
  (forall i n, m' !! i = Some n -> m !! i = Some n \/ i = k) ->
  (size m' <= S (size m))%nat.
Proof.
  intros Hsub. destruct (m' !! k) as [x|] eqn:Ek.
  - transitivity (size (<[k := x]> m)).
    + apply map_subseteq_size, map_subseteq_spec. intros i n Hi.
      destruct (decide (i = k)) as [->|Hne].
      * rewrite lookup_insert_eq. congruence.
      * rewrite lookup_insert_ne by congruence.
        destruct (Hsub i n Hi); [assumption | contradiction].
    + rewrite map_size_insert. destruct (m !! k); unfold id; lia.
  - transitivity (size m); [|lia].
    apply map_subseteq_size, map_subseteq_spec. intros i n Hi.
    destruct (Hsub i n Hi) as [Hold| ->]; [assumption | congruence].
Qed.

(** X4.  Whatever the platform accepts or rejects, a call of
  [scheduleShootReminder] or [scheduleInvoiceReminder] adds at most one
  notification to the platform's registry: every notification held
  afterwards was held before under the same identifier, except possibly the
  one under the identifier that the platform gives next, and that one is
  due after the current time and carries the kind and the id of the
  record.  The registry grows by one notification at most. *)
Theorem schedule_adds_only_future (H : Host) (w : World)
        (ident name number date time type place : string) :
  (forall i n,
      scheduled (snd (Notifications.scheduleShootReminder H ident name date time type
                        place w)) !! i = Some n ->
      scheduled w !! i = Some n
      \/ (i = host_notificationId H (drawn w)
          /\ host_now H < triggerDate n /\ dataType n = "shoot"%string /\ dataId n = ident))
  /\ (forall i n,
      scheduled (snd (Notifications.scheduleInvoiceReminder H ident number name date
                        place w)) !! i = Some n ->
      scheduled w !! i = Some n
      \/ (i = host_notificationId H (drawn w)
          /\ host_now H < triggerDate n /\ dataType n = "invoice"%string /\ dataId n = ident))
  /\ (size (scheduled (snd (Notifications.scheduleShootReminder H ident name date time type
                              place w))) <= S (size (scheduled w)))%nat
  /\ (size (scheduled (snd (Notifications.scheduleInvoiceReminder H ident number name date
                              place w))) <= S (size (scheduled w)))%nat.
Proof.
  assert (Hshoot : forall i n,
      scheduled (snd (Notifications.scheduleShootReminder H ident name date time type
                        place w)) !! i = Some n ->
      scheduled w !! i = Some n
      \/ (i = host_notificationId H (drawn w)
          /\ host_now H < triggerDate n /\ dataType n = "shoot"%string /\ dataId n = ident)).
  { intros i n Hn.
    destruct (scheduleShootReminder_cases H w ident name date time type place)
      as [Heq|(target & _ & _ & _ & Hdue & Heq)]; rewrite Heq in Hn.
    - now left.
    - destruct (register_adds_one H _ _ w i n Hn) as [Hold|[-> ->]]; [now left|].
      right. repeat split. exact Hdue. }
  assert (Hinvoice : forall i n,
      scheduled (snd (Notifications.scheduleInvoiceReminder H ident number name date
                        place w)) !! i = Some n ->
      scheduled w !! i = Some n
      \/ (i = host_notificationId H (drawn w)
          /\ host_now H < triggerDate n /\ dataType n = "invoice"%string
          /\ dataId n = ident)).
  { intros i n Hn.
    destruct (scheduleInvoiceReminder_cases H w ident number name date place)
      as [Heq|(target & _ & _ & _ & Hdue & Heq)]; rewrite Heq in Hn.
    - now left.
    - destruct (register_adds_one H _ _ w i n Hn) as [Hold|[-> ->]]; [now left|].
      right. repeat split. exact Hdue. }
  split; [exact Hshoot|]. split; [exact Hinvoice|].
  split; apply (size_adds_one _ _ (host_notificationId H (drawn w))); intros i n Hn.
  - destruct (Hshoot i n Hn) as [Hold|[Hid _]]; auto.
  - destruct (Hinvoice i n Hn) as [Hold|[Hid _]]; auto.
Qed.

Lemma schedule_adds_only_future_witness :
  scheduled (snd (Notifications.scheduleShootReminder Device.host "b2" "Nimal" "2024-03-09"
                    "4:30 PM" "Wedding" "Kandy" Device.bookedWorld))
    !! "notification-8"%string
  = Some (mkNotification "Wedding Shoot - 1 day before" "Nimal at Kandy" "shoot" "b2"
                         (Some "reminders"%string) (Device.localDate 2024 2 8 16 30 0))
  /\ "notification-8"%string = host_notificationId Device.host (drawn Device.bookedWorld)
  /\ host_now Device.host < Device.localDate 2024 2 8 16 30 0.
Proof.
  assert (Hl : scheduled (snd (Notifications.scheduleShootReminder Device.host "b2" "Nimal"
                                 "2024-03-09" "4:30 PM" "Wedding" "Kandy" Device.bookedWorld))
               !! "notification-8"%string
               = Some (mkNotification "Wedding Shoot - 1 day before" "Nimal at Kandy" "shoot"
                                      "b2" (Some "reminders"%string)
                                      (Device.localDate 2024 2 8 16 30 0)))
    by (vm_compute; reflexivity).
  split; [exact Hl|].
  destruct (proj1 (schedule_adds_only_future Device.host Device.bookedWorld "b2" "Nimal" ""
                     "2024-03-09" "4:30 PM" "Wedding" "Kandy") _ _ Hl)
    as [Hold|(Hid & Hdue & _)].
  - vm_compute in Hold. discriminate Hold.
  - split; [exact Hid | exact Hdue].
Defined.

Lemma register_replaces (H : Host) (key : string) (n : Notification) (w : World) :
  Spec.reliable H ->
  exists w',
    Spec.register H key n w = (Ok (Some (host_notificationId H (drawn w))), w')
    /\ items (store w') !! Notifications.notifKey key = Some (host_notificationId H (drawn w))
    /\ scheduled w' !! host_notificationId H (drawn w) = Some n
    /\ (forall h,
          items (store w) !! Notifications.notifKey key = Some h ->
          h <> EmptyString -> h <> host_notificationId H (drawn w) ->
          scheduled w' !! h = None /\ In h (cancelRequests w')).
Proof.
  intros Hr. eexists. split; [apply register_reliable, Hr|].
  cbn [store withItems items scheduled cancelRequests].
  split; [apply lookup_insert_eq|]. split; [apply lookup_insert_eq|].
  intros h Hh Hne Hfresh.
  rewrite (cancelReminder_present H key h w Hr Hh Hne). cbn [snd scheduled cancelRequests].
  split; [|now left].
  rewrite lookup_insert_ne by congruence. apply lookup_delete_eq.
Qed.

Lemma schedule_replaces_reminder_parts (H : Host) (w : World)
      (shootId clientName shootDate shootTime shootType location : string)
      (target : Z) :
  Spec.reliable H ->
  Notifications.isWeb H = false ->
  shootReminders (Spec.settingsOf H w) = true ->
  Spec.shootTarget H shootDate shootTime = Some target ->
  host_now H < target - Spec.leadTime H w ->
  exists w' n,
    Notifications.scheduleShootReminder H shootId clientName shootDate shootTime shootType
      location w = (Ok (Some (host_notificationId H (drawn w))), w')
    /\ items (store w') !! Notifications.notifKey ("shoot_" +:+ shootId)
       = Some (host_notificationId H (drawn w))
    /\ scheduled w' !! host_notificationId H (drawn w) = Some n
    /\ triggerDate n = target - Spec.leadTime H w
    /\ dataId n = shootId.
Proof.
  intros Hr Hweb Hon Htarget Hdue.
  rewrite scheduleShootReminder_unfold, Hweb, Hon, Htarget. cbn [negb].
  destruct (Z.leb_spec (target - Spec.leadTime H w) (host_now H)); [lia|].
  destruct (register_replaces H ("shoot_" +:+ shootId)
              (Spec.shootNotification H (reminderTiming (Spec.settingsOf H w)) shootId
                 clientName shootType location (target - Spec.leadTime H w)) w Hr)
    as (w' & Hrun & Hitem & Hsched & _).
  exists w', (Spec.shootNotification H (reminderTiming (Spec.settingsOf H w)) shootId
                clientName shootType location (target - Spec.leadTime H w)).
  repeat split; assumption.
Qed.

(** X5.  On a platform that accepts the calls, with shoot reminders switched
  on and a trigger time (date and time of the shoot minus the lead time)
  after the current time, [scheduleShootReminder] returns the identifier
  that the platform gave, registers a notification due at the trigger time
  that carries the shoot's id, stores the identifier under
  ["ns_notif_shoot_<id>"], and removes from the registry the notification
  whose identifier was stored there before. *)
Theorem schedule_replaces_reminder (H : Host) (w : World)
        (shootId clientName shootDate shootTime shootType location : string)
        (target : Z) :
  Spec.reliable H ->
  Notifications.isWeb H = false ->
  shootReminders (Spec.settingsOf H w) = true ->
  Spec.shootTarget H shootDate shootTime = Some target ->
  host_now H < target - Spec.leadTime H w ->
  let key := Notifications.notifKey ("shoot_" +:+ shootId) in
  let ident := host_notificationId H (drawn w) in
  exists w' n,
    Notifications.scheduleShootReminder H shootId clientName shootDate shootTime shootType
      location w = (Ok (Some ident), w')
    /\ items (store w') !! key = Some ident
    /\ scheduled w' !! ident = Some n
    /\ triggerDate n = target - Spec.leadTime H w
    /\ dataType n = "shoot"%string
    /\ dataId n = shootId
    /\ body n = clientName +:+ Notifications.place location
    /\ (forall h,
          items (store w) !! key = Some h -> h <> EmptyString -> h <> ident ->
          scheduled w' !! h = None /\ In h (cancelRequests w')).
Proof.
  intros Hr Hweb Hon Htarget Hdue key ident.
  rewrite scheduleShootReminder_unfold, Hweb, Hon, Htarget. cbn [negb].
  destruct (Z.leb_spec (target - Spec.leadTime H w) (host_now H)); [lia|].
  destruct (register_replaces H ("shoot_" +:+ shootId)
              (Spec.shootNotification H (reminderTiming (Spec.settingsOf H w)) shootId
                 clientName shootType location (target - Spec.leadTime H w)) w Hr)
    as (w' & Hrun & Hitem & Hsched & Hold).
  exists w', (Spec.shootNotification H (reminderTiming (Spec.settingsOf H w)) shootId
                clientName shootType location (target - Spec.leadTime H w)).
  repeat split; try assumption; apply Hold; assumption.
Qed.

Lemma schedule_replaces_reminder_witness :
  Spec.reliable Device.host
  /\ host_now Device.host
     < Device.localDate 2024 2 6 16 30 0 - Spec.leadTime Device.host Device.bookedWorld
  /\ exists w',
       Notifications.scheduleShootReminder Device.host "b1" "Nimal" "2024-03-06" "4:30 PM"
         "Wedding" "Kandy" Device.bookedWorld = (Ok (Some "notification-8"%string), w')
       /\ scheduled w' !! "notification-7"%string = None.
Proof.
  assert (Hr : Spec.reliable Device.host) by (intros op; reflexivity).
  assert (Hd : host_now Device.host
               < Device.localDate 2024 2 6 16 30 0
                 - Spec.leadTime Device.host Device.bookedWorld) by (vm_compute; reflexivity).
  split; [exact Hr|]. split; [exact Hd|].
  destruct (schedule_replaces_reminder Device.host Device.bookedWorld "b1" "Nimal"
              "2024-03-06" "4:30 PM" "Wedding" "Kandy" _ Hr eq_refl eq_refl eq_refl Hd)
    as (w' & n & Hrun & _ & _ & _ & _ & _ & _ & Hold).
  exists w'. split; [exact Hrun|].
  apply (Hold "notification-7"%string); [reflexivity | discriminate | discriminate].
Defined.

(** X6.  On the web, or with the kind of reminder switched off, or with a
  date that does not parse, the scheduling functions return [null] and
  change nothing; in particular a reminder that is already stored is left
  in place. *)
Theorem no_reminder_when_off (H : Host) (w : World)
        (ident name number date time type place : string) :
  (Notifications.isWeb H = true
   \/ shootReminders (Spec.settingsOf H w) = false
   \/ Notifications.parseDate H date = None ->
   Notifications.scheduleShootReminder H ident name date time type place w = (Ok None, w))
  /\ (Notifications.isWeb H = true
      \/ invoiceReminders (Spec.settingsOf H w) = false
      \/ Notifications.parseDate H date = None ->
      Notifications.scheduleInvoiceReminder H ident number name date place w = (Ok None, w)).
Proof.
  split; intros Hoff.
  - rewrite scheduleShootReminder_unfold.
    destruct (Notifications.isWeb H); [reflexivity|].
    destruct (shootReminders (Spec.settingsOf H w)); [|reflexivity]. cbn [negb].
    destruct Hoff as [Hoff|[Hoff|Hoff]]; try discriminate.
    unfold Spec.shootTarget. now rewrite Hoff.
  - rewrite scheduleInvoiceReminder_unfold.
    destruct (Notifications.isWeb H); [reflexivity|].
    destruct (invoiceReminders (Spec.settingsOf H w)); [|reflexivity]. cbn [negb].
    destruct Hoff as [Hoff|[Hoff|Hoff]]; try discriminate.
    unfold Spec.invoiceTarget. now rewrite Hoff.
Qed.

Lemma no_reminder_when_off_witness :
  Notifications.parseDate Device.host "next week" = None
  /\ Notifications.scheduleShootReminder Device.host "b1" "Nimal" "next week" "4:30 PM"
       "Wedding" "Kandy" Device.bookedWorld = (Ok None, Device.bookedWorld).
Proof.
  split; [reflexivity|].
  apply (proj1 (no_reminder_when_off Device.host Device.bookedWorld "b1" "Nimal" ""
                  "next week" "4:30 PM" "Wedding" "Kandy")).
  right. right. reflexivity.
Defined.

(** X7.  When the platform rejects the cancellation of a stored
  notification, [cancelReminder] still succeeds but leaves the handle in
  the store, and nothing else changes. *)
Theorem rejected_cancel_keeps_handle (H : Host) (key h : string) (w : World) :
  host_fails H (OpGetItem (Notifications.notifKey key)) = false ->
  items (store w) !! Notifications.notifKey key = Some h ->
  h <> EmptyString ->
  host_fails H (OpCancel h) = true ->
  Notifications.cancelReminder H key w = (Ok tt, w).
Proof.
  intros Hget Hh Hne Hrej.
  unfold Notifications.cancelReminder, tryCatch, bind, getItem,
    cancelScheduledNotificationAsync, call, ret.
  rewrite Hget, Hh. destruct h; [congruence|]. cbn [JS.truthyString].
  rewrite Hrej. reflexivity.
Qed.

Lemma rejected_cancel_keeps_handle_witness :
  Notifications.cancelReminder
    (mkHost Android Device.clock "" Device.dateParse Device.localDate Device.setHours
            (fun _ => ""%string) (fun _ => ""%string)
            (fun op => match op with OpCancel _ => true | _ => false end))
    "shoot_b1" Device.bookedWorld
  = (Ok tt, Device.bookedWorld).
Proof.
  apply (rejected_cancel_keeps_handle _ "shoot_b1" "notification-7" Device.bookedWorld);
    [reflexivity | reflexivity | discriminate | reflexivity].
Defined.

(** X8.  [getReminderSettings] never fails and changes nothing: it gives
  the stored settings, and the defaults (both reminders on, one day before)
  when nothing is stored or the read is rejected.  Settings saved by
  [saveReminderSettings] are the ones read back. *)
Theorem reminder_settings_round_trip (H : Host) (w : World) (settings : ReminderSettings) :
  (exists s, Notifications.getReminderSettings H w = (Ok s, w))
  /\ (ns_reminder_settings (store w) = None
      \/ host_fails H (OpGetItem Notifications.REMINDER_SETTINGS_KEY) = true ->
      Notifications.getReminderSettings H w
      = (Ok (mkReminderSettings true true "1d"), w))
  /\ (host_fails H (OpSetItem Notifications.REMINDER_SETTINGS_KEY) = false ->
      host_fails H (OpGetItem Notifications.REMINDER_SETTINGS_KEY) = false ->
      exists w',
        Notifications.saveReminderSettings H settings w = (Ok tt, w')
        /\ Notifications.getReminderSettings H w' = (Ok settings, w')).
Proof.
  split; [eexists; apply getReminderSettings_run|]. split.
  - intros Hcase.
    unfold Notifications.getReminderSettings, tryCatch, bind, call, ret.
    destruct (host_fails H _); [reflexivity|].
    destruct Hcase as [->|Hf]; [reflexivity | discriminate].
  - intros Hset Hget. eexists. split.
    + unfold Notifications.saveReminderSettings, call. rewrite Hset. reflexivity.
    + unfold Notifications.getReminderSettings, tryCatch, bind, call, ret.
      rewrite Hget. reflexivity.
Qed.

Lemma reminder_settings_round_trip_witness :
  exists w',
    Notifications.saveReminderSettings Device.host (mkReminderSettings false true "3h")
      Device.emptyWorld = (Ok tt, w')
    /\ Notifications.getReminderSettings Device.host w'
       = (Ok (mkReminderSettings false true "3h"), w').
Proof.
  apply (proj2 (proj2 (reminder_settings_round_trip Device.host Device.emptyWorld
                         (mkReminderSettings false true "3h")))); reflexivity.
Defined.

Lemma forEach_invariant {A : Type} (Inv : World -> Prop) (l : list A) (step : A -> M unit) :
  (forall x w, In x l -> Inv w -> Inv (snd (step x w))) ->
  forall w, Inv w -> Inv (snd (Notifications.forEach l step w)).
Proof.
  induction l as [|x l IH]; intros Hstep w Hw; cbn [Notifications.forEach].
  - exact Hw.
  - unfold bind. pose proof (Hstep x w (or_introl eq_refl) Hw) as Hx.
    destruct (step x w) as [[[]|] w1]; cbn [snd] in *; [|exact Hx].
    apply IH; [|exact Hx]. intros y w2 Hy. apply Hstep. now right.
Qed.

Lemma bind_invariant {A B : Type} (Inv : World -> Prop) (m : M A) (k : A -> M B)
      (w : World) :
  Inv (snd (m w)) ->
  (forall a w1, Inv w1 -> Inv (snd (k a w1))) ->
  Inv (snd (bind m k w)).
Proof.
  intros Hm Hk. unfold bind. destruct (m w) as [[a|] w1]; cbn [snd] in *; auto.
Qed.

Lemma snd_then_ret {A : Type} (m : M A) (w : World) :
  snd (bind m (fun _ => ret tt) w) = snd (m w).
Proof. unfold bind, ret. destruct (m w) as [[a|] w1]; reflexivity. Qed.

Lemma settingsOf_store (H : Host) (w1 w2 : World) :
  ns_reminder_settings (store w1) = ns_reminder_settings (store w2) ->
  Spec.settingsOf H w1 = Spec.settingsOf H w2.
Proof.
  intros Hs. unfold Spec.settingsOf, Notifications.getReminderSettings, tryCatch, bind,
    call, ret.
  destruct (host_fails H _); [reflexivity|]. rewrite Hs.
  destruct (ns_reminder_settings (store w2)); reflexivity.
Qed.

(** X9.  [rescheduleAllReminders] does nothing on the web, and fails without
  changing anything when the platform rejects the cancellation of all
  notifications.  Otherwise, however far it gets, every notification that
  the platform holds afterwards is due after the current time and is
  either for one of the given shoots that is not completed, with shoot
  reminders switched on, or for one of the given invoices, with invoice
  reminders switched on. *)
Theorem resync_registry (H : Host) (rejected : bool) (shoots : list UpcomingShoot.t)
        (invoices : list Invoice.t) (w : World) :
  (Notifications.isWeb H = true ->
   Notifications.rescheduleAllReminders H rejected shoots invoices w = (Ok tt, w))
  /\ (Notifications.isWeb H = false -> rejected = true ->
      Notifications.rescheduleAllReminders H rejected shoots invoices w = (Throw, w))
  /\ (Notifications.isWeb H = false -> rejected = false ->
      forall i n,
        scheduled (snd (Notifications.rescheduleAllReminders H rejected shoots invoices w))
          !! i = Some n ->
        host_now H < triggerDate n
        /\ ((dataType n = "shoot"%string
             /\ shootReminders (Spec.settingsOf H w) = true
             /\ exists s, In s shoots /\ UpcomingShoot.completed s = false
                          /\ UpcomingShoot.id s = dataId n)
            \/ (dataType n = "invoice"%string
                /\ invoiceReminders (Spec.settingsOf H w) = true
                /\ exists inv, In inv invoices /\ Invoice.id inv = dataId n))).
Proof.
  unfold Notifications.rescheduleAllReminders. split; [intros ->; reflexivity|]. split.
  { intros -> ->. reflexivity. }
  intros -> ->.
  set (P := fun n : Notification =>
    host_now H < triggerDate n
    /\ ((dataType n = "shoot"%string
         /\ shootReminders (Spec.settingsOf H w) = true
         /\ exists s, In s shoots /\ UpcomingShoot.completed s = false
                      /\ UpcomingShoot.id s = dataId n)
        \/ (dataType n = "invoice"%string
            /\ invoiceReminders (Spec.settingsOf H w) = true
            /\ exists inv, In inv invoices /\ Invoice.id inv = dataId n))).
  set (Inv := fun w' : World =>
    ns_reminder_settings (store w') = ns_reminder_settings (store w)
    /\ forall i n, scheduled w' !! i = Some n -> P n).
  assert (Hshoot : forall x w1, In x shoots -> Inv w1 ->
            Inv (snd ((if negb (UpcomingShoot.completed x) then
                     bind (Notifications.scheduleShootReminder H
                             (UpcomingShoot.id x) (UpcomingShoot.clientName x)
                             (UpcomingShoot.shootDate x) (UpcomingShoot.shootTime x)
                             (shootTypeName (UpcomingShoot.shootType x))
                             (UpcomingShoot.shootLocation x)) (fun _ => ret tt)
                   else ret tt) w1))).
  { intros x w1 Hx [Hset Hreg].
    destruct (UpcomingShoot.completed x) eqn:Hc; [split; assumption|]. cbn [negb].
    rewrite snd_then_ret.
    destruct (scheduleShootReminder_cases H w1 (UpcomingShoot.id x)
                (UpcomingShoot.clientName x) (UpcomingShoot.shootDate x)
                (UpcomingShoot.shootTime x) (shootTypeName (UpcomingShoot.shootType x))
                (UpcomingShoot.shootLocation x))
      as [Heq|(target & _ & Hon & _ & Hdue & Heq)]; rewrite Heq; [split; assumption|].
    destruct (register_effect H ("shoot_" +:+ UpcomingShoot.id x)
                (Spec.shootNotification H (reminderTiming (Spec.settingsOf H w1))
                   (UpcomingShoot.id x) (UpcomingShoot.clientName x)
                   (shootTypeName (UpcomingShoot.shootType x))
                   (UpcomingShoot.shootLocation x) (target - Spec.leadTime H w1)) w1)
      as (Hr & _ & _ & _ & Hs).
    split; [congruence|]. intros i n Hn.
    destruct (Hr i n Hn) as [Hold| ->]; [eauto|].
    split; [exact Hdue|]. left. split; [reflexivity|].
    split; [now rewrite <- (settingsOf_store H w1 w Hset)|]. exists x. auto. }
  assert (Hinvoice : forall x w1, In x invoices -> Inv w1 ->
            Inv (snd (bind (Notifications.scheduleInvoiceReminder H
                           (Invoice.id x) (Invoice.invoiceNumber x)
                           (Invoice.customerNames x) (Invoice.eventDate x)
                           (Invoice.eventLocation x)) (fun _ => ret tt) w1))).
  { intros x w1 Hx [Hset Hreg]. rewrite snd_then_ret.
    destruct (scheduleInvoiceReminder_cases H w1 (Invoice.id x) (Invoice.invoiceNumber x)
                (Invoice.customerNames x) (Invoice.eventDate x) (Invoice.eventLocation x))
      as [Heq|(target & _ & Hon & _ & Hdue & Heq)]; rewrite Heq; [split; assumption|].
    destruct (register_effect H ("invoice_" +:+ Invoice.id x)
                (Spec.invoiceNotification H (reminderTiming (Spec.settingsOf H w1))
                   (Invoice.id x) (Invoice.invoiceNumber x) (Invoice.customerNames x)
                   (Invoice.eventLocation x) (target - Spec.leadTime H w1)) w1)
      as (Hr & _ & _ & _ & Hs).
    split; [congruence|]. intros i n Hn.
    destruct (Hr i n Hn) as [Hold| ->]; [eauto|].
    split; [exact Hdue|]. right. split; [reflexivity|].
    split; [now rewrite <- (settingsOf_store H w1 w Hset)|]. exists x. auto. }
  match goal with
  | |- forall i n, scheduled (snd ?t) !! i = Some n -> _ =>
      enough (Hfinal : Inv (snd t)) by (intros i n Hn; exact (proj2 Hfinal i n Hn))
  end.
  apply bind_invariant.
  { split; [reflexivity|]. intros i n Hl. cbn in Hl. now rewrite lookup_empty in Hl. }
  intros _ w1 H1. apply bind_invariant.
  { now rewrite getReminderSettings_run. }
  intros settings w2 H2. apply bind_invariant.
  - destruct (shootReminders settings); [|exact H2].
    apply forEach_invariant; [|exact H2]. intros x w3 Hx H3. now apply Hshoot.
  - intros _ w3 H3. destruct (invoiceReminders settings); [|exact H3].
    apply forEach_invariant; [|exact H3]. intros x w4 Hx H4. now apply Hinvoice.
Qed.

Lemma resync_registry_witness :
  Notifications.isWeb Device.host = false
  /\ scheduled (snd (Notifications.rescheduleAllReminders Device.host false
                       [Storage.backfillUpcoming (Device.booking "b2" "2024-03-09" false)] []
                       Device.bookedWorld)) !! "notification-8"%string
     = Some (mkNotification "Wedding Shoot - 1 day before" "Nimal at Kandy" "shoot" "b2"
                            (Some "reminders"%string) (Device.localDate 2024 2 8 16 30 0))
  /\ host_now Device.host < Device.localDate 2024 2 8 16 30 0.
Proof.
  assert (Hl : scheduled (snd (Notifications.rescheduleAllReminders Device.host false
                       [Storage.backfillUpcoming (Device.booking "b2" "2024-03-09" false)] []
                       Device.bookedWorld)) !! "notification-8"%string
     = Some (mkNotification "Wedding Shoot - 1 day before" "Nimal at Kandy" "shoot" "b2"
                            (Some "reminders"%string) (Device.localDate 2024 2 8 16 30 0)))
    by (vm_compute; reflexivity).
  split; [reflexivity|]. split; [exact Hl|].
  exact (proj1 (proj2 (proj2 (resync_registry Device.host false _ _ Device.bookedWorld))
                  eq_refl eq_refl _ _ Hl)).
Defined.

(** ** More of the invoice counter *)

Lemma invoiceNumbers_valid (H : Host) (k : nat) :
  forall (w : World) (n : Z),
    Spec.reliable H -> Spec.counterIs w n ->
    fst (Spec.invoiceNumbers H k w)
    = map (fun i : nat => JS.padStart 4 "0" (JS.showZ (n + Z.of_nat i))) (seq 1 k)
    /\ Spec.counterIs (snd (Spec.invoiceNumbers H k w)) (n + Z.of_nat k).
Proof.
  induction k as [|k IH]; intros w n Hr Hc.
  - cbn. split; [reflexivity|]. now rewrite Z.add_0_r.
  - cbn [Spec.invoiceNumbers].
    destruct (getNextInvoiceNumber_step H w n Hr Hc) as (Hrun & Hc1 & Hn).
    rewrite Hrun. destruct (IH _ (n + 1) Hr Hc1) as [Hres Hc2].
    destruct (Spec.invoiceNumbers H k _) as [rs w2]. cbn [fst snd] in *.
    split.
    + cbn [seq map]. f_equal. rewrite Hres, <- (seq_shift k 1), map_map.
      apply map_ext. intros i. do 2 f_equal. lia.
    + replace (n + Z.of_nat (S k)) with (n + 1 + Z.of_nat k) by lia. exact Hc2.
Qed.

Lemma NoDup_map_on {A B : Type} (g : A -> B) (l : list A) :
  (forall i j, In i l -> In j l -> g i = g j -> i = j) ->
  NoDup l -> NoDup (map g l).
Proof.
  induction l as [|x l IH]; intros Hinj Hl; cbn [map]; [constructor|].
  apply NoDup_cons in Hl as [Hx Hl]. apply NoDup_cons. split.
  - intros Hin%list_elem_of_In. apply in_map_iff in Hin as (y & Hy & Hin).
    apply Hx, list_elem_of_In.
    rewrite (Hinj x y); [exact Hin | now left | now right | now symmetry].
  - apply IH; [|exact Hl]. intros i j Hi Hj. apply Hinj; now right.
Qed.

(** X10.  Any number of calls of [getNextInvoiceNumber] in a row, from a
  counter that is absent or holds the numeral of [n], return the padded
  numerals of [n + 1], [n + 2], ... in this order; no invoice number is
  given twice, and the counter ends at [n + k].  (Integers are exact up to
  [2 ^ 53].) *)
Theorem invoice_numbers_distinct (H : Host) (w : World) (n : Z) (k : nat) :
  Spec.reliable H ->
  Spec.counterIs w n ->
  n + Z.of_nat k <= 2 ^ 53 ->
  fst (Spec.invoiceNumbers H k w)
  = map (fun i : nat => JS.padStart 4 "0" (JS.showZ (n + Z.of_nat i))) (seq 1 k)
  /\ NoDup (fst (Spec.invoiceNumbers H k w))
  /\ Spec.counterIs (snd (Spec.invoiceNumbers H k w)) (n + Z.of_nat k).
Proof.
  intros Hr Hc _. destruct (invoiceNumbers_valid H k w n Hr Hc) as [Hres Hend].
  split; [exact Hres|]. split; [|exact Hend].
  assert (Hn : 0 <= n).
  { unfold Spec.counterIs in Hc. destruct (items (store w) !! _); lia. }
  rewrite Hres. apply NoDup_map_on; [|apply NoDup_seq].
  intros i j _ _ Hij. apply (f_equal JS.parseInt) in Hij.
  rewrite !parseInt_padded in Hij by lia. injection Hij as Hij. lia.
Qed.

Lemma invoice_numbers_distinct_witness :
  Spec.reliable Device.host
  /\ Spec.counterIs Device.emptyWorld 0
  /\ fst (Spec.invoiceNumbers Device.host 3 Device.emptyWorld)
     = ["0001"; "0002"; "0003"]%string.
Proof.
  assert (Hr : Spec.reliable Device.host) by (intros op; reflexivity).
  assert (Hc : Spec.counterIs Device.emptyWorld 0) by reflexivity.
  split; [exact Hr|]. split; [exact Hc|].
  apply (proj1 (invoice_numbers_distinct Device.host Device.emptyWorld 0 3 Hr Hc
                  ltac:(vm_compute; discriminate))).
Defined.

(** X11.  A counter entry that is not empty and does not start with a
  number is never repaired: every call of [getNextInvoiceNumber] then
  returns the text "0NaN" and stores "NaN" as the counter. *)
Theorem corrupt_counter_sticks (H : Host) (k : nat) :
  forall (w : World) (c : string),
    Spec.reliable H ->
    items (store w) !! Storage.COUNTER_KEY = Some c ->
    c <> EmptyString ->
    JS.parseInt c = None ->
    fst (Spec.invoiceNumbers H k w) = repeat "0NaN"%string k
    /\ ((0 < k)%nat ->
        items (store (snd (Spec.invoiceNumbers H k w))) !! Storage.COUNTER_KEY
        = Some "NaN"%string).
Proof.
  induction k as [|k IH]; intros w c Hr Hc Hne Hnan.
  - split; [reflexivity | lia].
  - cbn [Spec.invoiceNumbers].
    assert (Hrun : Storage.getNextInvoiceNumber H w
                   = (Ok "0NaN"%string,
                      withStore w (withItems (store w)
                        (<[Storage.COUNTER_KEY := "NaN"%string]> (items (store w)))))).
    { unfold Storage.getNextInvoiceNumber, bind, getItem, setItem.
      rewrite (call_reliable H _ _ w Hr). cbn [fst snd]. rewrite Hc.
      destruct c; [congruence|]. cbn [JS.truthyString]. rewrite Hnan.
      rewrite (call_reliable H _ _ w Hr). reflexivity. }
    rewrite Hrun.
    set (w1 := withStore w _).
    assert (H1 : items (store w1) !! Storage.COUNTER_KEY = Some "NaN"%string).
    { subst w1. cbn [withStore store withItems items]. apply lookup_insert_eq. }
    destruct (IH w1 "NaN"%string Hr H1 ltac:(discriminate) eq_refl) as [Hres Hend].
    destruct (Spec.invoiceNumbers H k w1) as [rs w2] eqn:E. cbn [fst snd] in *.
    split; [cbn [repeat]; now rewrite Hres|].
    intros _. destruct k as [|k]; [|apply Hend; lia].
    cbn in E. injection E as _ <-. exact H1.
Qed.

Lemma corrupt_counter_sticks_witness :
  fst (Spec.invoiceNumbers Device.host 2
         (mkWorld (mkStore {[ "ns_invoice_counter" := "seven" ]} None None None None) ∅ [] 0))
  = ["0NaN"; "0NaN"]%string.
Proof.
  apply (proj1 (corrupt_counter_sticks Device.host 2
                  (mkWorld (mkStore {[ "ns_invoice_counter" := "seven" ]} None None None None)
                           ∅ [] 0) "seven"%string
                  ltac:(intros op; reflexivity) eq_refl ltac:(discriminate) eq_refl)).
Defined.

(** ** Dates and times as the pickers write them *)

Lemma takeDigits_app (s rest : string) :
  Spec.allDigits s = true ->
  Notifications.takeDigits (String.length s) (s +:+ rest) = Some (s, rest).
Proof.
  induction s as [|c s IH]; [reflexivity|]. cbn [Spec.allDigits].
  intros [Hc Hs]%andb_prop. simpl. rewrite Hc. simpl in IH. rewrite (IH Hs). reflexivity.
Qed.

Lemma timeMatchAt_one (a c1 c2 : ascii) (rest : string) (pm : bool) :
  JS.isDigit a = true -> JS.isDigit c1 = true -> JS.isDigit c2 = true ->
  Notifications.period (JS.trimStart rest) = Some pm ->
  Notifications.timeMatchAt (String a (String ":" (String c1 (String c2 rest))))
  = Some (String a EmptyString, String c1 (String c2 EmptyString), pm).
Proof.
  intros Ha H1 H2 Hp. unfold Notifications.timeMatchAt, Notifications.oneOrTwoDigits.
  cbn [Notifications.takeDigits]. rewrite Ha.
  change (JS.isDigit ":") with false. cbn [Notifications.orElse].
  rewrite H1, H2, Hp. reflexivity.
Qed.

Lemma timeMatchAt_two (a b c1 c2 : ascii) (rest : string) (pm : bool) :
  JS.isDigit a = true -> JS.isDigit b = true ->
  JS.isDigit c1 = true -> JS.isDigit c2 = true ->
  Notifications.period (JS.trimStart rest) = Some pm ->
  Notifications.timeMatchAt (String a (String b (String ":" (String c1 (String c2 rest)))))
  = Some (String a (String b EmptyString), String c1 (String c2 EmptyString), pm).
Proof.
  intros Ha Hb H1 H2 Hp. unfold Notifications.timeMatchAt, Notifications.oneOrTwoDigits.
  cbn [Notifications.takeDigits]. rewrite Ha, Hb. cbn [Notifications.orElse].
  rewrite H1, H2, Hp. reflexivity.
Qed.

Lemma timeMatch_at_start (s : string) (m : string * string * bool) :
  Notifications.timeMatchAt s = Some m -> Notifications.timeMatch s = Some m.
Proof. intros Hm. destruct s; cbn [Notifications.timeMatch]; now rewrite Hm. Qed.

Lemma picker_time_matches (h : Z) (c1 c2 : ascii) (p : TimePicker.Period) :
  1 <= h <= 12 -> JS.isDigit c1 = true -> JS.isDigit c2 = true ->
  Notifications.timeMatch
    (TimePicker.selectMinute (Some h) p (String c1 (String c2 EmptyString)))
  = Some (JS.showZ h, String c1 (String c2 EmptyString),
          match p with TimePicker.PM => true | TimePicker.AM => false end).
Proof.
  intros Hh H1 H2. apply timeMatch_at_start.
  assert (Hcases : h = 1 \/ h = 2 \/ h = 3 \/ h = 4 \/ h = 5 \/ h = 6 \/ h = 7 \/ h = 8
                   \/ h = 9 \/ h = 10 \/ h = 11 \/ h = 12) by lia.
  unfold TimePicker.selectMinute.
  repeat (destruct Hcases as [->|Hcases];
          [destruct p;
           first [ apply timeMatchAt_one; solve [assumption | reflexivity]
                 | apply timeMatchAt_two; solve [assumption | reflexivity] ]|]).
  subst h. destruct p; apply timeMatchAt_two; solve [assumption | reflexivity].
Qed.

(** X12.  The text that the time picker writes for an hour from 1 to 12, a
  minute of two digits and AM or PM is read back by the picker as the same
  hour, minute and period, and by [parseTime] as the time on the 24-hour
  clock: 12 AM is hour 0, 12 PM is hour 12, and any other PM hour is 12
  more. *)
Theorem picker_time_round_trip (h : Z) (c1 c2 : ascii) (p : TimePicker.Period) :
  1 <= h <= 12 -> JS.isDigit c1 = true -> JS.isDigit c2 = true ->
  let m := String c1 (String c2 EmptyString) in
  let text := TimePicker.selectMinute (Some h) p m in
  TimePicker.parsed text = Some (h, m, p)
  /\ Notifications.parseTime text
     = Some (match p with
             | TimePicker.AM => if h =? 12 then 0 else h
             | TimePicker.PM => if h =? 12 then 12 else h + 12
             end,
             Notifications.digitsValue m).
Proof.
  intros Hh H1 H2 m text.
  assert (Hv : Notifications.digitsValue (JS.showZ h) = h).
  { unfold Notifications.digitsValue. rewrite showZ_nonneg by lia.
    rewrite showN_value. lia. }
  assert (Ht : JS.truthyString text = true).
  { unfold text, TimePicker.selectMinute. rewrite showZ_nonneg by lia.
    pose proof (showN_head (Z.to_N h)) as Hhd.
    destruct (JS.showN (Z.to_N h)); [discriminate | reflexivity]. }
  unfold TimePicker.parsed, Notifications.parseTime. rewrite Ht. cbn [negb].
  unfold text, m. rewrite (picker_time_matches h c1 c2 p Hh H1 H2), Hv.
  split; [destruct p; reflexivity|].
  destruct p; cbn [andb negb]; destruct (h =? 12) eqn:E; cbn [andb negb];
    rewrite ?E; try reflexivity.
  apply Z.eqb_eq in E. now rewrite E.
Qed.

Lemma picker_time_round_trip_witness :
  Notifications.parseTime (TimePicker.selectMinute (Some 12) TimePicker.AM "45")
  = Some (0, 45).
Proof.
  apply (proj2 (picker_time_round_trip 12 "4" "5" TimePicker.AM
                  ltac:(lia) eq_refl eq_refl)).
Defined.

Lemma in_range (f : Z -> bool) (lo : Z) (len : nat) :
  forallb f (map (fun i : nat => lo + Z.of_nat i) (seq 0 len)) = true ->
  forall z, lo <= z < lo + Z.of_nat len -> f z = true.
Proof.
  intros Hall z Hz. rewrite forallb_forall in Hall. apply Hall.
  apply in_map_iff. exists (Z.to_nat (z - lo)). split; [lia|].
  apply in_seq. lia.
Qed.

Lemma small_numeral (d : Z) : 0 <= d <= 99 -> Spec.oneOrTwo (JS.showZ d) = true.
Proof.
  intros Hd. apply (in_range (fun z => Spec.oneOrTwo (JS.showZ z)) 0 100); [|lia].
  vm_compute. reflexivity.
Qed.

Lemma padded_numeral (d : Z) :
  0 <= d <= 99 -> Spec.digitsOfLength 2 (JS.padStart 2 "0" (JS.showZ d)) = true.
Proof.
  intros Hd.
  apply (in_range (fun z => Spec.digitsOfLength 2 (JS.padStart 2 "0" (JS.showZ z))) 0 100);
    [|lia].
  vm_compute. reflexivity.
Qed.

Lemma year_numeral (y : Z) :
  1000 <= y <= 9999 -> Spec.digitsOfLength 4 (JS.showZ y) = true.
Proof.
  intros Hy. apply (in_range (fun z => Spec.digitsOfLength 4 (JS.showZ z)) 1000 (Z.to_nat 9000));
    [|lia].
  vm_compute. reflexivity.
Qed.

Lemma append_empty (s : string) : s +:+ EmptyString = s.
Proof.
  induction s as [|c s IH]; [reflexivity|].
  change (String c (s +:+ EmptyString) = String c s). now rewrite IH.
Qed.

Lemma digitsOfLength_take (n : nat) (s rest : string) :
  Spec.digitsOfLength n s = true -> Notifications.takeDigits n (s +:+ rest) = Some (s, rest).
Proof.
  unfold Spec.digitsOfLength. intros [Hd Hl]%andb_prop. apply Nat.eqb_eq in Hl.
  subst n. now apply takeDigits_app.
Qed.

Lemma oneOrTwoDigits_some {A : Type} (g rest : string) (c : ascii)
      (k : string -> string -> option A) (r : A) :
  Spec.oneOrTwo g = true -> JS.isDigit c = false ->
  k g (String c rest) = Some r ->
  Notifications.oneOrTwoDigits (g +:+ String c rest) k = Some r.
Proof.
  intros Hg Hc Hk. unfold Notifications.oneOrTwoDigits.
  destruct g as [|a [|b [|x g]]]; try discriminate; cbn [Spec.oneOrTwo] in Hg.
  - simpl. rewrite Hg, Hc. cbn [Notifications.orElse]. exact Hk.
  - apply andb_prop in Hg as [Ha Hb]. simpl. rewrite Ha, Hb.
    change (EmptyString +:+ String c rest) with (String c rest).
    rewrite Hk. reflexivity.
Qed.

Lemma separator_not_digit (c : ascii) : Spec.isSeparator c = true -> JS.isDigit c = false.
Proof. destruct c as [[] [] [] [] [] [] [] []]; vm_compute; congruence. Qed.

Lemma dateMatch_at_start (s : string) (m : string * string * string) :
  Notifications.dateMatchAt s = Some m -> Notifications.dateMatch s = Some m.
Proof. intros Hm. destruct s; cbn [Notifications.dateMatch]; now rewrite Hm. Qed.

Lemma digitsValue_showZ (n : Z) : 0 <= n -> Notifications.digitsValue (JS.showZ n) = n.
Proof.
  intros Hn. unfold Notifications.digitsValue. rewrite showZ_nonneg by lia.
  rewrite showN_value. lia.
Qed.

(** X13.  A date written day, month, four-digit year, each pair separated
  by a slash or a hyphen, is read by [parseDate] as 09:00 local time of
  that day: the first number is the day and the second the month. *)
Theorem parseDate_day_month_year (H : Host) (d m y : Z) (s1 s2 : ascii) :
  0 <= d <= 99 -> 0 <= m <= 99 -> 1000 <= y <= 9999 ->
  Spec.isSeparator s1 = true -> Spec.isSeparator s2 = true ->
  Notifications.parseDate H
    (JS.showZ d +:+ String s1 (JS.showZ m +:+ String s2 (JS.showZ y)))
  = Some (host_localDate H y (m - 1) d 9 0 0).
Proof.
  intros Hd Hm Hy H1 H2.
  assert (Hmatch : Notifications.dateMatch
            (JS.showZ d +:+ String s1 (JS.showZ m +:+ String s2 (JS.showZ y)))
          = Some (JS.showZ d, JS.showZ m, JS.showZ y)).
  { apply dateMatch_at_start. unfold Notifications.dateMatchAt.
    apply oneOrTwoDigits_some;
      [apply small_numeral; lia | now apply separator_not_digit|].
    unfold Notifications.afterSeparator. fold (Spec.isSeparator s1). rewrite H1.
    apply oneOrTwoDigits_some;
      [apply small_numeral; lia | now apply separator_not_digit|].
    fold (Spec.isSeparator s2). rewrite H2.
    rewrite <- (append_empty (JS.showZ y)) at 1.
    rewrite (digitsOfLength_take 4 _ _ (year_numeral y Hy)). reflexivity. }
  unfold Notifications.parseDate. rewrite Hmatch, !digitsValue_showZ by lia.
  pose proof (small_numeral d Hd) as Hs.
  destruct (JS.showZ d); [discriminate | reflexivity].
Qed.

Lemma parseDate_day_month_year_witness :
  Notifications.parseDate Device.host "6/3/2024" = Some (Device.localDate 2024 2 6 9 0 0).
Proof.
  apply (parseDate_day_month_year Device.host 6 3 2024 "/" "/");
    solve [lia | reflexivity].
Defined.

Lemma iso_never_matches (y1 y2 y3 y4 m1 m2 d1 d2 : ascii) :
  JS.isDigit y1 = true -> JS.isDigit y2 = true -> JS.isDigit y3 = true ->
  JS.isDigit y4 = true -> JS.isDigit m1 = true -> JS.isDigit m2 = true ->
  JS.isDigit d1 = true -> JS.isDigit d2 = true ->
  Notifications.dateMatch
    (String y1 (String y2 (String y3 (String y4 (String "-"
       (String m1 (String m2 (String "-" (String d1 (String d2 EmptyString))))))))))
  = None.
Proof.
  intros Hy1 Hy2 Hy3 Hy4 Hm1 Hm2 Hd1 Hd2.
  assert (Hs : forall c, JS.isDigit c = true ->
                         (Ascii.eqb c "/" || Ascii.eqb c "-")%bool = false).
  { intros c Hc. destruct (Ascii.eqb c "/" || Ascii.eqb c "-")%bool eqn:E; [|reflexivity].
    apply separator_not_digit in E. congruence. }
  pose proof (Hs _ Hy1). pose proof (Hs _ Hy2). pose proof (Hs _ Hy3). pose proof (Hs _ Hy4).
  pose proof (Hs _ Hm1). pose proof (Hs _ Hm2). pose proof (Hs _ Hd1). pose proof (Hs _ Hd2).
  unfold Notifications.dateMatch, Notifications.dateMatchAt, Notifications.oneOrTwoDigits,
    Notifications.afterSeparator.
  repeat (cbn [Notifications.takeDigits Notifications.orElse];
          rewrite ?Hy1, ?Hy2, ?Hy3, ?Hy4, ?Hm1, ?Hm2, ?Hd1, ?Hd2;
          repeat match goal with
                 | Hx : (Ascii.eqb ?c "/" || Ascii.eqb ?c "-")%bool = false |- _ =>
                     rewrite Hx
                 end;
          change (JS.isDigit "-") with false;
          change (Ascii.eqb "-" "/" || Ascii.eqb "-" "-")%bool with true).
  reflexivity.
Qed.

Lemma four_digits (s : string) :
  Spec.digitsOfLength 4 s = true ->
  exists a b c d,
    s = String a (String b (String c (String d EmptyString)))
    /\ JS.isDigit a = true /\ JS.isDigit b = true
    /\ JS.isDigit c = true /\ JS.isDigit d = true.
Proof.
  unfold Spec.digitsOfLength. intros [Hd Hl]%andb_prop. apply Nat.eqb_eq in Hl.
  destruct s as [|a [|b [|c [|d [|e s]]]]]; try discriminate.
  cbn [Spec.allDigits] in Hd.
  apply andb_prop in Hd as [Ha Hd]. apply andb_prop in Hd as [Hb Hd].
  apply andb_prop in Hd as [Hc Hd]. apply andb_prop in Hd as [Hd _].
  exists a, b, c, d. auto.
Qed.

Lemma two_digits (s : string) :
  Spec.digitsOfLength 2 s = true ->
  exists a b, s = String a (String b EmptyString)
              /\ JS.isDigit a = true /\ JS.isDigit b = true.
Proof.
  unfold Spec.digitsOfLength. intros [Hd Hl]%andb_prop. apply Nat.eqb_eq in Hl.
  destruct s as [|a [|b [|c s]]]; try discriminate.
  cbn [Spec.allDigits] in Hd.
  apply andb_prop in Hd as [Ha Hd]. apply andb_prop in Hd as [Hb _].
  exists a, b. auto.
Qed.

(** X14.  The text that the date picker writes (year of four digits, month
  and day padded to two digits, joined by hyphens) is never matched by the
  day-month-year pattern of [parseDate]: its reading is the one of the
  host's date parser, and no 09:00 default hour is applied. *)
Theorem picker_date_left_to_host (H : Host) (C : Calendar) (year month d : Z) :
  1000 <= year <= 9999 -> 0 <= month <= 11 ->
  1 <= d <= 31 -> 1 <= DatePicker.lastDay H C year month ->
  let text := DatePicker.selectDay H C year (Some month) d in
  Notifications.dateMatch text = None
  /\ Notifications.parseDate H text = host_dateParse H text.
Proof.
  intros Hy Hm Hd Hl text.
  destruct (four_digits _ (year_numeral year Hy))
    as (y1 & y2 & y3 & y4 & Ey & Hy1 & Hy2 & Hy3 & Hy4).
  destruct (two_digits _ (padded_numeral (month + 1) ltac:(lia)))
    as (m1 & m2 & Em & Hm1 & Hm2).
  destruct (two_digits _ (padded_numeral
                            (Z.min d (DatePicker.lastDay H C year month)) ltac:(lia)))
    as (d1 & d2 & Ed & Hd1 & Hd2).
  assert (Htext : text
                  = String y1 (String y2 (String y3 (String y4 (String "-"
                      (String m1 (String m2 (String "-"
                         (String d1 (String d2 EmptyString)))))))))).
  { unfold text, DatePicker.selectDay. rewrite Ey, Em, Ed. reflexivity. }
  assert (Hnone : Notifications.dateMatch text = None).
  { rewrite Htext. now apply iso_never_matches. }
  split; [exact Hnone|].
  unfold Notifications.parseDate. rewrite Hnone. rewrite Htext at 1.
  cbn [JS.truthyString negb]. destruct (host_dateParse H text); reflexivity.
Qed.

Lemma picker_date_left_to_host_witness :
  Notifications.parseDate Device.host
    (DatePicker.selectDay Device.host Device.calendar 2024 (Some 1) 31)
  = host_dateParse Device.host "2024-02-29".
Proof.
  apply (proj2 (picker_date_left_to_host Device.host Device.calendar 2024 1 31
                  ltac:(lia) ltac:(lia) ltac:(lia) ltac:(vm_compute; discriminate))).
Defined.

Lemma digit_not_hyphen (c : ascii) : JS.isDigit c = true -> Ascii.eqb c "-" = false.
Proof. destruct c as [[] [] [] [] [] [] [] []]; vm_compute; congruence. Qed.

Lemma split_digits (a : string) :
  Spec.allDigits a = true ->
  DatePicker.split "-" a = [a]
  /\ forall rest, DatePicker.split "-" (a +:+ String "-" rest)
                  = a :: DatePicker.split "-" rest.
Proof.
  induction a as [|c a IH]; [split; reflexivity|]. cbn [Spec.allDigits].
  intros [Hc Ha]%andb_prop. destruct (IH Ha) as [IH1 IH2]. split.
  - cbn [DatePicker.split]. rewrite (digit_not_hyphen c Hc), IH1. reflexivity.
  - intros rest.
    change (String c a +:+ String "-" rest) with (String c (a +:+ String "-" rest)).
    cbn [DatePicker.split]. rewrite (digit_not_hyphen c Hc), IH2. reflexivity.
Qed.

Lemma padStart_zeros_any (width : nat) (s : string) :
  JS.padStart width "0" s = Spec.zeros (width - String.length s) +:+ s.
Proof.
  unfold JS.padStart. destruct (Nat.leb_spec width (String.length s)) as [Hle|Hlt].
  - replace (width - String.length s)%nat with 0%nat by lia. reflexivity.
  - now rewrite (proj1 (cycle_zeros _)).
Qed.

Lemma padded_any (width : nat) (n : Z) :
  0 <= n ->
  JS.parseInt (JS.padStart width "0" (JS.showZ n)) = Some n
  /\ Spec.allDigits (JS.padStart width "0" (JS.showZ n)) = true.
Proof.
  intros Hn. rewrite showZ_nonneg by assumption. rewrite padStart_zeros_any. split.
  - rewrite parseInt_digits by (apply zeros_head, showN_head).
    rewrite zeros_scan, showN_value. f_equal. lia.
  - rewrite zeros_allDigits. unfold JS.showN. now rewrite digitsFrom_allDigits.
Qed.

(** X15.  The date picker reads its own text back: the year, the month and
  the day that it wrote, the day being the chosen one capped at the last
  day of the month. *)
Theorem picker_date_round_trip (H : Host) (C : Calendar) (year month d : Z) :
  0 <= year -> 0 <= month -> 0 <= d -> 0 <= DatePicker.lastDay H C year month ->
  DatePicker.parsed (DatePicker.selectDay H C year (Some month) d)
  = Some (DatePicker.mkParsed (Some year) (Some month)
            (Some (Z.min d (DatePicker.lastDay H C year month)))).
Proof.
  intros Hy Hm Hd Hl. unfold DatePicker.selectDay. cbv zeta.
  set (day := Z.min d (DatePicker.lastDay H C year month)).
  assert (Hday : 0 <= day) by (unfold day; lia).
  destruct (padded_any 2 (month + 1) ltac:(lia)) as [Pm Dm].
  destruct (padded_any 2 day Hday) as [Pd Dd].
  destruct (padded_any 0 year Hy) as [Py Dy].
  assert (Eq0 : JS.padStart 0 "0" (JS.showZ year) = JS.showZ year) by reflexivity.
  rewrite Eq0 in Py, Dy.
  unfold DatePicker.parsed.
  assert (Ht : JS.truthyString
                 (JS.showZ year +:+ "-" +:+ JS.padStart 2 "0" (JS.showZ (month + 1))
                  +:+ "-" +:+ JS.padStart 2 "0" (JS.showZ day)) = true).
  { rewrite showZ_nonneg by lia. pose proof (showN_head (Z.to_N year)) as Hh.
    destruct (JS.showN (Z.to_N year)); [discriminate | reflexivity]. }
  rewrite Ht. cbn [negb].
  change (JS.showZ year +:+ "-" +:+ JS.padStart 2 "0" (JS.showZ (month + 1))
          +:+ "-" +:+ JS.padStart 2 "0" (JS.showZ day))
    with (JS.showZ year +:+ String "-" (JS.padStart 2 "0" (JS.showZ (month + 1))
          +:+ String "-" (JS.padStart 2 "0" (JS.showZ day)))).
  rewrite (proj2 (split_digits _ Dy)), (proj2 (split_digits _ Dm)),
    (proj1 (split_digits _ Dd)).
  rewrite Py, Pm, Pd. do 3 f_equal. lia.
Qed.

Lemma picker_date_round_trip_witness :
  DatePicker.parsed (DatePicker.selectDay Device.host Device.calendar 2024 (Some 1) 31)
  = Some (DatePicker.mkParsed (Some 2024) (Some 1) (Some 29)).
Proof.
  apply (picker_date_round_trip Device.host Device.calendar 2024 1 31);
    solve [lia | vm_compute; discriminate].
Defined.

(** ** More of the upcoming-shoots screen *)

(** X16.  With the completed shoots hidden, the screen lists overdue shoots
  and then upcoming ones.  No shoot is in both parts, and only shoots that
  are not completed are listed.  A shoot that is not completed and whose
  date is a whole number of days from today is listed; one whose local
  midnight is less than a day before today's is in neither part. *)
Theorem pending_lists_partition (H : Host) (all : list UpcomingShoot.t)
        (s : UpcomingShoot.t) :
  (In s (UpcomingTab.overdueShoots H all) ->
   ~ In s (Storage.getUpcomingShootsFromToday H all))
  /\ (In s (UpcomingTab.displayList H false all) ->
      In s all /\ UpcomingShoot.completed s = false)
  /\ (forall t k,
        In s all -> UpcomingShoot.completed s = false ->
        Storage.midnightOf H (UpcomingShoot.shootDate s) = Some t ->
        t - Storage.todayMidnight H = k * 86400000 ->
        In s (UpcomingTab.displayList H false all))
  /\ (forall t,
        Storage.midnightOf H (UpcomingShoot.shootDate s) = Some t ->
        Storage.todayMidnight H - 86400000 < t < Storage.todayMidnight H ->
        ~ In s (UpcomingTab.displayList H false all)).
Proof.
  unfold UpcomingTab.displayList, UpcomingTab.overdueShoots,
    Storage.getUpcomingShootsFromToday, Storage.getDaysUntil.
  change (1000 * 60 * 60 * 24) with 86400000.
  split; [|split; [|split]].
  - intros [_ Ho]%filter_In [_ Hu]%filter_In.
    destruct (Storage.midnightOf H (UpcomingShoot.shootDate s)) as [t|]; [|discriminate].
    apply andb_prop in Ho as [_ Ho]. apply andb_prop in Hu as [Hu _].
    apply Z.ltb_lt in Ho. apply Z.leb_le in Hu.
    pose proof (ceilDiv_bounds (t - Storage.todayMidnight H) 86400000 ltac:(lia)). lia.
  - intros Hin. apply in_app_or in Hin as [[Hin Hf]%filter_In|[Hin Hf]%filter_In];
      (split; [exact Hin|]).
    + apply andb_prop in Hf as [Hf _]. now apply negb_true_iff in Hf.
    + destruct (Storage.midnightOf H _); [|discriminate].
      apply andb_prop in Hf as [_ Hf]. now apply negb_true_iff in Hf.
  - intros t k Hin Hc Ht Hk. apply in_or_app.
    destruct (Z.le_gt_cases (Storage.todayMidnight H) t) as [Hle|Hgt].
    + right. apply filter_In. split; [exact Hin|]. rewrite Ht, Hc.
      apply andb_true_intro. split; [now apply Z.leb_le | reflexivity].
    + left. apply filter_In. split; [exact Hin|]. rewrite Ht, Hc. cbn [negb andb].
      apply Z.ltb_lt.
      pose proof (ceilDiv_bounds (t - Storage.todayMidnight H) 86400000 ltac:(lia)). nia.
  - intros t Ht Hgap Hin. apply in_app_or in Hin as [[_ Hf]%filter_In|[_ Hf]%filter_In].
    + rewrite Ht in Hf. apply andb_prop in Hf as [_ Hf]. apply Z.ltb_lt in Hf.
      pose proof (ceilDiv_bounds (t - Storage.todayMidnight H) 86400000 ltac:(lia)). nia.
    + rewrite Ht in Hf. apply andb_prop in Hf as [Hf _]. apply Z.leb_le in Hf. lia.
Qed.

Lemma pending_lists_partition_witness :
  In (Storage.backfillUpcoming (Device.booking "b0" "2024-03-01" false))
     (UpcomingTab.overdueShoots Device.host
        [Storage.backfillUpcoming (Device.booking "b0" "2024-03-01" false)])
  /\ ~ In (Storage.backfillUpcoming (Device.booking "b0" "2024-03-01" false))
          (Storage.getUpcomingShootsFromToday Device.host
             [Storage.backfillUpcoming (Device.booking "b0" "2024-03-01" false)]).
Proof.
  assert (Hin : In (Storage.backfillUpcoming (Device.booking "b0" "2024-03-01" false))
                   (UpcomingTab.overdueShoots Device.host
                      [Storage.backfillUpcoming (Device.booking "b0" "2024-03-01" false)]))
    by (vm_compute; left; reflexivity).
  split; [exact Hin|].
  exact (proj1 (pending_lists_partition Device.host _ _) Hin).
Defined.

Lemma schedule_frame (H : Host) (w : World)
      (ident name date time type place : string) :
  let w' := snd (Notifications.scheduleShootReminder H ident name date time type place w) in
  ns_shoots (store w') = ns_shoots (store w)
  /\ ns_upcoming_shoots (store w') = ns_upcoming_shoots (store w).
Proof.
  cbv zeta.
  destruct (scheduleShootReminder_cases H w ident name date time type place)
    as [Heq|(target & _ & _ & _ & _ & Heq)]; rewrite Heq; [split; reflexivity|].
  destruct (register_effect H ("shoot_" +:+ ident)
              (Spec.shootNotification H (reminderTiming (Spec.settingsOf H w)) ident name
                 type place (target - Spec.leadTime H w)) w)
    as (_ & _ & Hs & Hu & _).
  split; assumption.
Qed.

(** X17.  Marking a completed upcoming shoot as not completed again
  succeeds, clears the flag of its record and keeps every record of the
  upcoming collection; the shoots collection is left as it is, so the
  shoot entry that was added on completion stays. *)
Theorem uncompleting_keeps_entries (H : Host) (w : World) (stored : list StoredUpcoming.t)
        (s : UpcomingShoot.t) :
  Spec.reliable H ->
  ns_upcoming_shoots (store w) = Some stored ->
  In s (map Storage.backfillUpcoming stored) ->
  UpcomingShoot.completed s = true ->
  let w' := snd (UpcomingTab.handleToggleComplete H s w) in
  fst (UpcomingTab.handleToggleComplete H s w) = Ok tt
  /\ ns_shoots (store w') = ns_shoots (store w)
  /\ exists stored',
       ns_upcoming_shoots (store w') = Some stored'
       /\ Permutation (map StoredUpcoming.id stored') (map StoredUpcoming.id stored)
       /\ exists r, In r stored'
                    /\ StoredUpcoming.id r = UpcomingShoot.id s
                    /\ StoredUpcoming.completed r = false.
Proof.
  intros Hr Hstored Hin Hc.
  set (shoots := sortBy (Spec.byShootDate H) (map Storage.backfillUpcoming stored)).
  assert (Hin' : In s shoots).
  { apply (Permutation_in _ (Permutation_sym (sortBy_perm _ _))). exact Hin. }
  destruct (findIndex_In _ shoots s Hin' eq_refl) as [i Hfind].
  destruct (findIndex_Some _ _ _ Hfind) as (old & Hold & Hid).
  pose proof (updateUpcomingShoot_found H w (UpcomingShoot.id s) [SetCompleted false] i old
                Hr) as Hupd.
  cbv zeta in Hupd. rewrite Hstored in Hupd.
  change (default [] (Some stored)) with stored in Hupd. specialize (Hupd Hfind Hold).
  set (u := Storage.setUpdatedAt (fold_left Storage.applyUpdate [SetCompleted false] old)
                                 (host_isoNow H)) in *.
  assert (Hu : UpcomingShoot.id u = UpcomingShoot.id old
               /\ UpcomingShoot.completed u = false) by (destruct old; split; reflexivity).
  destruct Hu as [Huid Huc].
  set (w1 := withStore w (withUpcoming (store w)
               (map Storage.storeUpcoming (<[i := u]> shoots)))) in *.
  assert (Hrun : UpcomingTab.handleToggleComplete H s w
                 = (Ok tt, snd (Notifications.scheduleShootReminder H
                      (UpcomingShoot.id s) (UpcomingShoot.clientName s)
                      (UpcomingShoot.shootDate s) (UpcomingShoot.shootTime s)
                      (shootTypeName (UpcomingShoot.shootType s))
                      (UpcomingShoot.shootLocation s) w1))).
  { unfold UpcomingTab.handleToggleComplete. rewrite Hc. cbn [negb].
    unfold bind. rewrite Hupd. reflexivity. }
  destruct (schedule_frame H w1 (UpcomingShoot.id s) (UpcomingShoot.clientName s)
              (UpcomingShoot.shootDate s) (UpcomingShoot.shootTime s)
              (shootTypeName (UpcomingShoot.shootType s)) (UpcomingShoot.shootLocation s))
    as [Hfs Hfu].
  cbv zeta. rewrite Hrun. cbn [fst snd]. split; [reflexivity|].
  split; [rewrite Hfs; reflexivity|].
  exists (map Storage.storeUpcoming (<[i := u]> shoots)). split; [rewrite Hfu; reflexivity|].
  split.
  - rewrite map_map.
    rewrite (map_ext _ UpcomingShoot.id) by reflexivity.
    rewrite (map_insert_same UpcomingShoot.id shoots i old u Hold Huid).
    apply sorted_upcoming_ids.
  - exists (Storage.storeUpcoming u). split.
    + apply in_map. eapply insert_In. exact Hold.
    + split; [cbn; rewrite Huid; exact Hid | cbn; exact Huc].
Qed.

Lemma uncompleting_keeps_entries_witness :
  Spec.reliable Device.host
  /\ ns_shoots (store (snd (UpcomingTab.handleToggleComplete Device.host
                              (Storage.backfillUpcoming (Device.booking "b9" "2024-03-09" true))
                              (mkWorld (mkStore ∅ None None
                                          (Some [Device.booking "b9" "2024-03-09" true]) None)
                                       ∅ [] 0)))) = None.
Proof.
  assert (Hr : Spec.reliable Device.host) by (intros op; reflexivity).
  split; [exact Hr|].
  exact (proj1 (proj2 (uncompleting_keeps_entries Device.host
           (mkWorld (mkStore ∅ None None (Some [Device.booking "b9" "2024-03-09" true]) None)
                    ∅ [] 0)
           [Device.booking "b9" "2024-03-09" true]
           (Storage.backfillUpcoming (Device.booking "b9" "2024-03-09" true))
           Hr eq_refl (or_introl eq_refl) eq_refl))).
Defined.

(** X18.  Deleting a booking from the screen removes every record with its
  id from the upcoming collection, and cancels the reminder stored under
  ["shoot_<id>"]: the handle is removed and the platform is asked to cancel
  the notification. *)
Theorem deleting_a_booking (H : Host) (w : World) (id : string)
        (old : list UpcomingShoot.t) :
  Spec.reliable H ->
  Storage.getAllUpcomingShoots H w = (Ok old, w) ->
  (exists x, In x old /\ UpcomingShoot.id x = id) ->
  let w' := snd (UpcomingTab.handleDelete H id w) in
  let key := Notifications.notifKey ("shoot_" +:+ id) in
  fst (UpcomingTab.handleDelete H id w) = Ok tt
  /\ (exists all,
        Storage.getAllUpcomingShoots H w' = (Ok all, w')
        /\ forall y, In y all <-> In y old /\ UpcomingShoot.id y <> id)
  /\ (forall h,
        items (store w) !! key = Some h -> h <> EmptyString ->
        items (store w') !! key = None
        /\ scheduled w' !! h = None
        /\ In h (cancelRequests w')).
Proof.
  intros Hr Hold Hex. rewrite getAllUpcomingShoots_run in Hold by apply Hr.
  injection Hold as Hold.
  pose proof (deleteUpcomingShoot_run H w id Hr) as Hdel. cbv zeta in Hdel.
  rewrite Hold in Hdel. destruct Hex as (x & Hx & Hid).
  rewrite (filter_some_out _ old x Hx) in Hdel
    by (apply negb_false_iff, String.eqb_eq; exact Hid).
  set (kept := List.filter (fun s => negb (String.eqb (UpcomingShoot.id s) id)) old) in *.
  set (w1 := withStore w (withUpcoming (store w) (map Storage.storeUpcoming kept))) in *.
  assert (Hrun : UpcomingTab.handleDelete H id w
                 = (Ok tt, snd (Notifications.cancelReminder H ("shoot_" +:+ id) w1))).
  { unfold UpcomingTab.handleDelete, bind. rewrite Hdel. reflexivity. }
  destruct (cancelReminder_only_deletes H ("shoot_" +:+ id) w1)
    as (_ & _ & _ & Hu & _ & _ & _).
  cbv zeta. rewrite Hrun. cbn [fst snd]. split; [reflexivity|]. split.
  - eexists. split.
    + apply upcoming_after_write; [exact Hr|]. rewrite Hu. reflexivity.
    + intros y. rewrite (Permutation_in' eq_refl (sortBy_perm _ _)). unfold kept.
      rewrite filter_In, negb_true_iff, String.eqb_neq. reflexivity.
  - intros h Hh Hne.
    rewrite (cancelReminder_present H _ h w1 Hr Hh Hne). cbn [snd store withItems items
      scheduled cancelRequests].
    split; [apply lookup_delete_eq|]. split; [apply lookup_delete_eq | now left].
Qed.

Lemma deleting_a_booking_witness :
  Spec.reliable Device.host
  /\ items (store (snd (UpcomingTab.handleDelete Device.host "b1" Device.bookedWorld)))
     !! Notifications.notifKey "shoot_b1" = None.
Proof.
  assert (Hr : Spec.reliable Device.host) by (intros op; reflexivity).
  split; [exact Hr|].
  destruct (deleting_a_booking Device.host Device.bookedWorld "b1" _ Hr
              (getAllUpcomingShoots_run Device.host Device.bookedWorld (Hr _)))
    as (_ & _ & Hrem).
  - eexists. split; [left; reflexivity | reflexivity].
  - assert (Hh : items (store Device.bookedWorld) !! Notifications.notifKey "shoot_b1"
                 = Some "notification-7"%string) by (vm_compute; reflexivity).
    assert (Hne : "notification-7"%string <> EmptyString) by discriminate.
    exact (proj1 (Hrem "notification-7"%string Hh Hne)).
Defined.

Lemma handleSave_ok (H : Host) (f : UpcomingTab.Form) (w : World) :
  fst (UpcomingTab.handleSave H f w) = Ok tt.
Proof.
  unfold UpcomingTab.handleSave, tryCatch, ret.
  match goal with |- context [match ?m w with _ => _ end] => destruct (m w) as [[[]|] w1] end;
    reflexivity.
Qed.

Lemma join_concat (separator : string) (parts : list string) :
  UpcomingTab.join separator parts = String.concat separator parts.
Proof.
  induction parts as [|p r IH]; [reflexivity|].
  cbn [UpcomingTab.join String.concat]. destruct r; [reflexivity|]. now rewrite IH.
Qed.

Lemma contactOf_concat (f : UpcomingTab.Form) :
  UpcomingTab.contactOf f
  = String.concat ", " (List.filter (fun n => negb (String.eqb n EmptyString))
                                    (map JS.trim (UpcomingTab.phoneNumbers f))).
Proof.
  unfold UpcomingTab.contactOf. rewrite join_concat. f_equal.
  apply filter_ext. intros [|c n]; reflexivity.
Qed.

(** X19.  Saving the form of a new booking never fails (a rejected write is
  caught).  On a platform that accepts the calls the collection read
  afterwards is the former one plus one record: not completed, under the
  generated id and with the current time as time stamps, with the client
  name, the time, the location, the salon, the model and the notes
  trimmed, the date, the type, the price and the advance as typed, and as
  contact the phone numbers trimmed, the empty ones dropped and the rest
  joined by a comma and a space.  When shoot reminders are on and the
  trigger time is after the current time, a notification for the new id is
  registered and its handle stored. *)
Theorem new_booking_is_saved (H : Host) (f : UpcomingTab.Form) (w : World) :
  fst (UpcomingTab.handleSave H f w) = Ok tt
  /\ (Spec.reliable H ->
      UpcomingTab.editingId f = None ->
      let w' := snd (UpcomingTab.handleSave H f w) in
      let newId := host_randomId H (drawn w) in
      let new :=
        UpcomingShoot.mk newId
          (JS.trim (UpcomingTab.clientName f)) (UpcomingTab.shootDate f)
          (JS.trim (UpcomingTab.shootTime f)) (JS.trim (UpcomingTab.shootLocation f))
          (JS.trim (UpcomingTab.salonName f)) (JS.trim (UpcomingTab.modelName f))
          (UpcomingTab.shootType f)
          (String.concat ", "
             (List.filter (fun n => negb (String.eqb n EmptyString))
                          (map JS.trim (UpcomingTab.phoneNumbers f))))
          (UpcomingTab.packagePrice f) (UpcomingTab.advancePaid f)
          (JS.trim (UpcomingTab.notes f)) false (host_isoNow H) (host_isoNow H) in
      exists old all,
        Storage.getAllUpcomingShoots H w = (Ok old, w)
        /\ Storage.getAllUpcomingShoots H w' = (Ok all, w')
        /\ Permutation all (new :: old)
        /\ (forall target,
              Notifications.isWeb H = false ->
              shootReminders (Spec.settingsOf H w) = true ->
              Spec.shootTarget H (UpcomingTab.shootDate f) (JS.trim (UpcomingTab.shootTime f))
              = Some target ->
              host_now H < target - Spec.leadTime H w ->
              exists ident n,
                items (store w') !! Notifications.notifKey ("shoot_" +:+ newId) = Some ident
                /\ scheduled w' !! ident = Some n
                /\ dataId n = newId
                /\ triggerDate n = target - Spec.leadTime H w)).
Proof.
  split; [apply handleSave_ok|]. intros Hr Hnew. cbv zeta.
  rewrite <- contactOf_concat.
  pose proof (saveUpcomingShoot_run H w
    (UpcomingFields.mk (JS.trim (UpcomingTab.clientName f)) (UpcomingTab.shootDate f)
       (JS.trim (UpcomingTab.shootTime f)) (JS.trim (UpcomingTab.shootLocation f))
       (JS.trim (UpcomingTab.salonName f)) (JS.trim (UpcomingTab.modelName f))
       (UpcomingTab.shootType f) (UpcomingTab.contactOf f) (UpcomingTab.packagePrice f)
       (UpcomingTab.advancePaid f) (JS.trim (UpcomingTab.notes f)) false) Hr) as Hsave.
  cbv zeta in Hsave.
  cbn [UpcomingFields.clientName UpcomingFields.shootDate UpcomingFields.shootTime
       UpcomingFields.shootLocation UpcomingFields.salonName UpcomingFields.modelName
       UpcomingFields.shootType UpcomingFields.contactNumber UpcomingFields.packagePrice
       UpcomingFields.advancePaid UpcomingFields.notes UpcomingFields.completed] in Hsave.
  set (old := sortBy (Spec.byShootDate H)
                (map Storage.backfillUpcoming
                     (default [] (ns_upcoming_shoots (store w))))) in *.
  set (new := UpcomingShoot.mk (host_randomId H (drawn w)) _ _ _ _ _ _ _ _ _ _ _ _ _ _) in *.
  set (w1 := mkWorld (withUpcoming (store w) (map Storage.storeUpcoming (old ++ [new])))
                     (scheduled w) (cancelRequests w) (S (drawn w))) in *.
  set (sched := Notifications.scheduleShootReminder H (host_randomId H (drawn w))
                  (JS.trim (UpcomingTab.clientName f)) (UpcomingTab.shootDate f)
                  (JS.trim (UpcomingTab.shootTime f))
                  (shootTypeName (UpcomingTab.shootType f))
                  (JS.trim (UpcomingTab.shootLocation f))).
  assert (Hrun : UpcomingTab.handleSave H f w = (Ok tt, snd (sched w1))).
  { unfold UpcomingTab.handleSave, tryCatch, bind. rewrite Hnew, Hsave.
    unfold UpcomingTab.remind, detached. reflexivity. }
  destruct (schedule_frame H w1 (host_randomId H (drawn w))
              (JS.trim (UpcomingTab.clientName f)) (UpcomingTab.shootDate f)
              (JS.trim (UpcomingTab.shootTime f)) (shootTypeName (UpcomingTab.shootType f))
              (JS.trim (UpcomingTab.shootLocation f))) as [_ Hfu]. fold sched in Hfu.
  rewrite Hrun. cbn [snd].
  exists old, (sortBy (Spec.byShootDate H) (old ++ [new])).
  split; [apply getAllUpcomingShoots_run, Hr|].
  split. { apply upcoming_after_write; [exact Hr|]. rewrite Hfu. reflexivity. }
  split. { rewrite sortBy_perm. apply Permutation_sym, Permutation_cons_append. }
  intros target Hweb Hon Htarget Hdue.
  assert (Hset : Spec.settingsOf H w1 = Spec.settingsOf H w)
    by (apply settingsOf_store; reflexivity).
  assert (Hlead : Spec.leadTime H w1 = Spec.leadTime H w)
    by (unfold Spec.leadTime; now rewrite Hset).
  destruct (schedule_replaces_reminder_parts H w1 (host_randomId H (drawn w))
              (JS.trim (UpcomingTab.clientName f)) (UpcomingTab.shootDate f)
              (JS.trim (UpcomingTab.shootTime f)) (shootTypeName (UpcomingTab.shootType f))
              (JS.trim (UpcomingTab.shootLocation f)) target Hr Hweb
              ltac:(now rewrite Hset) Htarget ltac:(now rewrite Hlead))
    as (w2 & n & Hsched & Hitem & Hreg & Htrig & Hdata).
  fold sched in Hsched. rewrite Hsched. cbn [snd].
  eexists _, n. split; [exact Hitem|]. split; [exact Hreg|].
  split; [exact Hdata | now rewrite Htrig, Hlead].
Qed.

Lemma new_booking_is_saved_witness :
  Spec.reliable Device.host
  /\ exists all,
       fst (Storage.getAllUpcomingShoots Device.host
              (snd (UpcomingTab.handleSave Device.host
                      (Device.form " Nimal " "2024-03-09" "4:30 PM") Device.emptyWorld)))
       = Ok all
       /\ Permutation all
            [UpcomingShoot.mk (host_randomId Device.host 0) "Nimal" "2024-03-09" "4:30 PM"
               "Kandy" "" "" Wedding "0771234567, 0112345678" "45000" "10000" "" false
               (host_isoNow Device.host) (host_isoNow Device.host)].
Proof.
  assert (Hr : Spec.reliable Device.host) by (intros op; reflexivity).
  split; [exact Hr|].
  destruct (proj2 (new_booking_is_saved Device.host
                     (Device.form " Nimal " "2024-03-09" "4:30 PM") Device.emptyWorld)
              Hr eq_refl) as (old & all & Hold & Hall & Hperm & _).
  apply (f_equal fst) in Hold. vm_compute in Hold. injection Hold as <-.
  exists all. rewrite Hall. split; [reflexivity | exact Hperm].
Defined.

(** ** Invoices and shoots in the record store *)

Lemma getAllInvoices_run (H : Host) (w : World) :
  host_fails H (OpGetItem Storage.INVOICES_KEY) = false ->
  Storage.getAllInvoices H w
  = (Ok (sortBy (Spec.byCreatedDesc H) (default [] (ns_invoices (store w)))), w).
Proof.
  intros Hr. unfold Storage.getAllInvoices, bind, call. rewrite Hr.
  destruct (ns_invoices (store w)); reflexivity.
Qed.

Lemma find_unique {A : Type} (p : A -> bool) (l : list A) (x : A) :
  In x l -> p x = true -> (forall y, In y l -> p y = true -> y = x) ->
  List.find p l = Some x.
Proof.
  induction l as [|z l IH]; [intros []|]. intros Hin Hp Huniq. cbn [List.find].
  destruct (p z) eqn:Hz.
  - f_equal. apply Huniq; [now left | exact Hz].
  - destruct Hin as [->|Hin]; [congruence|].
    apply IH; [exact Hin | exact Hp|]. intros y Hy. apply Huniq. now right.
Qed.

Lemma find_none {A : Type} (p : A -> bool) (l : list A) :
  (forall y, In y l -> p y = false) -> List.find p l = None.
Proof.
  induction l as [|z l IH]; [reflexivity|]. intros Hall. cbn [List.find].
  rewrite (Hall z) by now left. apply IH. intros y Hy. apply Hall. now right.
Qed.

(** X20.  Saving an invoice under an id that no stored invoice has gives it
  that id and the current time as time stamps and keeps the given fields;
  [getInvoice] with the new id then returns exactly the saved invoice, and
  the invoices stored before are all still there. *)
Theorem saved_invoice_is_found (H : Host) (w : World) (fields : InvoiceFields.t) :
  Spec.reliable H ->
  (forall x, In x (default [] (ns_invoices (store w))) ->
             Invoice.id x <> host_randomId H (drawn w)) ->
  exists inv old all w',
    Storage.getAllInvoices H w = (Ok old, w)
    /\ Storage.saveInvoice H fields w = (Ok inv, w')
    /\ inv = Invoice.mk (host_randomId H (drawn w))
               (InvoiceFields.invoiceNumber fields) (InvoiceFields.invoiceDate fields)
               (InvoiceFields.customerNames fields) (InvoiceFields.eventDate fields)
               (InvoiceFields.eventLocation fields) (InvoiceFields.phoneNumber fields)
               (InvoiceFields.items fields) (InvoiceFields.fullPrice fields)
               (InvoiceFields.advancePayment fields) (host_isoNow H) (host_isoNow H)
    /\ Storage.getInvoice H (Invoice.id inv) w' = (Ok (Some inv), w')
    /\ Storage.getAllInvoices H w' = (Ok all, w')
    /\ Permutation all (inv :: old).
Proof.
  intros Hr Hfresh.
  set (old := sortBy (Spec.byCreatedDesc H) (default [] (ns_invoices (store w)))).
  set (inv := Invoice.mk (host_randomId H (drawn w)) _ _ _ _ _ _ _ _ _ _ _).
  set (w' := mkWorld (withInvoices (store w) (old ++ [inv])) (scheduled w)
                     (cancelRequests w) (S (drawn w))).
  assert (Hsave : Storage.saveInvoice H fields w = (Ok inv, w')).
  { unfold Storage.saveInvoice. unfold bind at 1. rewrite getAllInvoices_run by apply Hr.
    unfold bind, generateId. cbn [store scheduled cancelRequests drawn].
    rewrite (call_reliable H _ _ _ Hr). reflexivity. }
  assert (Hall : Storage.getAllInvoices H w'
                 = (Ok (sortBy (Spec.byCreatedDesc H) (old ++ [inv])), w')).
  { rewrite getAllInvoices_run by apply Hr. reflexivity. }
  exists inv, old, (sortBy (Spec.byCreatedDesc H) (old ++ [inv])), w'.
  split; [apply getAllInvoices_run, Hr|]. split; [exact Hsave|]. split; [reflexivity|].
  split; [|split; [exact Hall|]].
  - unfold Storage.getInvoice, bind. rewrite Hall. unfold ret. do 2 f_equal.
    apply find_unique.
    + apply (Permutation_in _ (Permutation_sym (sortBy_perm _ _))).
      apply in_or_app. right. now left.
    + apply String.eqb_refl.
    + intros y Hy Hid. apply String.eqb_eq in Hid.
      apply (Permutation_in _ (sortBy_perm _ _)) in Hy.
      apply in_app_or in Hy as [Hy|[<-|[]]]; [|reflexivity].
      exfalso. apply (Hfresh y); [|exact Hid].
      apply (Permutation_in _ (sortBy_perm _ _)) in Hy. exact Hy.
  - rewrite sortBy_perm. rewrite Permutation_app_comm. reflexivity.
Qed.

Lemma saved_invoice_is_found_witness :
  Spec.reliable Device.host
  /\ exists inv w',
       Storage.saveInvoice Device.host
         (InvoiceFields.mk "0001" "2024-03-01" "Kamal" "2024-04-01" "Colombo" "077" []
                           "45000" "10000") Device.emptyWorld = (Ok inv, w')
       /\ Storage.getInvoice Device.host (Invoice.id inv) w' = (Ok (Some inv), w').
Proof.
  assert (Hr : Spec.reliable Device.host) by (intros op; reflexivity).
  split; [exact Hr|].
  destruct (saved_invoice_is_found Device.host Device.emptyWorld
              (InvoiceFields.mk "0001" "2024-03-01" "Kamal" "2024-04-01" "Colombo" "077" []
                                "45000" "10000") Hr)
    as (inv & old & all & w' & _ & Hsave & _ & Hget & _).
  - intros x [].
  - exists inv, w'. split; [exact Hsave | exact Hget].
Defined.

(** X21.  [deleteInvoice] returns whether some stored invoice has the id.
  When none has, nothing is written.  In both cases [getInvoice] with that
  id finds nothing afterwards, and every invoice with another id is still
  stored. *)
Theorem deleted_invoice_is_gone (H : Host) (w : World) (id : string)
        (old : list Invoice.t) :
  Spec.reliable H ->
  Storage.getAllInvoices H w = (Ok old, w) ->
  exists (b : bool) (all : list Invoice.t) (w' : World),
    Storage.deleteInvoice H id w = (Ok b, w')
    /\ (b = true <-> exists x, In x old /\ Invoice.id x = id)
    /\ (b = false -> w' = w)
    /\ Storage.getInvoice H id w' = (Ok None, w')
    /\ Storage.getAllInvoices H w' = (Ok all, w')
    /\ (forall x, In x all <-> In x old /\ Invoice.id x <> id).
Proof.
  intros Hr Hold. rewrite getAllInvoices_run in Hold by apply Hr. injection Hold as Hold.
  set (kept := List.filter (fun inv => negb (String.eqb (Invoice.id inv) id)) old).
  assert (Hdel : Storage.deleteInvoice H id w
                 = if (List.length kept =? List.length old)%nat then (Ok false, w)
                   else (Ok true, withStore w (withInvoices (store w) kept))).
  { unfold Storage.deleteInvoice. unfold bind at 1.
    rewrite getAllInvoices_run by apply Hr. rewrite Hold. fold kept.
    destruct (List.length kept =? List.length old)%nat; [reflexivity|].
    unfold bind. rewrite (call_reliable H _ _ _ Hr). reflexivity. }
  assert (Hkept : forall x, In x kept <-> In x old /\ Invoice.id x <> id).
  { intros x. unfold kept. rewrite filter_In, negb_true_iff, String.eqb_neq. reflexivity. }
  assert (Hnone : forall l, (forall x, In x l <-> In x old /\ Invoice.id x <> id) ->
                  List.find (fun inv => String.eqb (Invoice.id inv) id) l = None).
  { intros l Hl. apply find_none. intros y Hy. apply String.eqb_neq. now apply Hl. }
  destruct (List.length kept =? List.length old)%nat eqn:Hlen.
  - apply Nat.eqb_eq in Hlen. apply filter_length_same in Hlen. fold kept in Hlen.
    assert (Hsame : forall x, In x old <-> In x old /\ Invoice.id x <> id).
    { intros x. rewrite <- Hkept, Hlen. reflexivity. }
    exists false, old, w. split; [exact Hdel|]. split.
    { split; [discriminate|]. intros (x & Hx & Hid). apply Hsame in Hx as [_ Hx]. congruence. }
    split; [reflexivity|]. split.
    { unfold Storage.getInvoice, bind. rewrite getAllInvoices_run by apply Hr.
      rewrite Hold. unfold ret. now rewrite Hnone. }
    split; [rewrite getAllInvoices_run by apply Hr; now rewrite Hold | exact Hsame].
  - assert (Hall : forall x, In x (sortBy (Spec.byCreatedDesc H) kept)
                             <-> In x old /\ Invoice.id x <> id).
    { intros x. rewrite (Permutation_in' eq_refl (sortBy_perm _ _)). apply Hkept. }
    eexists true, _, _. split; [exact Hdel|]. split.
    { split; [intros _|reflexivity].
      destruct (existsb (fun inv => String.eqb (Invoice.id inv) id) old) eqn:Hex.
      - apply existsb_exists in Hex as (x & Hx & Hid). apply String.eqb_eq in Hid. eauto.
      - exfalso. apply Nat.eqb_neq in Hlen. apply Hlen. unfold kept.
        rewrite filter_all; [reflexivity|]. intros x Hx.
        destruct (String.eqb (Invoice.id x) id) eqn:E; [|reflexivity].
        assert (existsb (fun inv => String.eqb (Invoice.id inv) id) old = true)
          by (apply existsb_exists; eauto).
        congruence. }
    split; [discriminate|]. split.
    { unfold Storage.getInvoice, bind. rewrite getAllInvoices_run by apply Hr.
      unfold ret. cbn [store withStore withInvoices ns_invoices default]. now rewrite Hnone. }
    split; [rewrite getAllInvoices_run by apply Hr; reflexivity | exact Hall].
Qed.

Lemma deleted_invoice_is_gone_witness :
  Spec.reliable Device.host
  /\ exists b w',
       Storage.deleteInvoice Device.host "i1"
         (mkWorld (mkStore ∅ (Some [Device.invoice "45000" "10000"]) None None None) ∅ [] 0)
       = (Ok b, w')
       /\ Storage.getInvoice Device.host "i1" w' = (Ok None, w').
Proof.
  assert (Hr : Spec.reliable Device.host) by (intros op; reflexivity).
  split; [exact Hr|].
  destruct (deleted_invoice_is_gone Device.host
              (mkWorld (mkStore ∅ (Some [Device.invoice "45000" "10000"]) None None None)
                       ∅ [] 0) "i1" _ Hr (getAllInvoices_run Device.host _ (Hr _)))
    as (b & all & w' & Hdel & _ & _ & Hget & _).
  exists b, w'. split; [exact Hdel | exact Hget].
Defined.

(** X22.  A shoot saved under an id that no stored shoot has is found by
  [getShoot] with the given fields, the generated id and the current time
  as time stamps, except that an empty client name is read back as the
  model name. *)
Theorem saved_shoot_reads_back (H : Host) (w : World) (fields : ShootFields.t) :
  Spec.reliable H ->
  (forall x, In x (default [] (ns_shoots (store w))) ->
             StoredShoot.id x <> host_randomId H (drawn w)) ->
  exists e w',
    Storage.saveShoot H fields w = (Ok e, w')
    /\ e = ShootEntry.mk (host_randomId H (drawn w))
             (ShootFields.clientName fields) (ShootFields.shootDate fields)
             (ShootFields.shootTime fields) (ShootFields.shootLocation fields)
             (ShootFields.salonName fields) (ShootFields.modelName fields)
             (ShootFields.shootType fields) (ShootFields.price fields)
             (ShootFields.advancePaid fields) (ShootFields.phoneNumber fields)
             (ShootFields.notes fields) (host_isoNow H) (host_isoNow H)
    /\ Storage.getShoot H (ShootEntry.id e) w' = (Ok (Some (Spec.readBack e)), w')
    /\ ShootEntry.clientName (Spec.readBack e)
       = JS.orString (ShootFields.clientName fields) (ShootFields.modelName fields)
    /\ (ShootFields.clientName fields <> EmptyString
        \/ ShootFields.modelName fields = EmptyString ->
        Spec.readBack e = e).
Proof.
  intros Hr Hfresh. pose proof (saveShoot_run H w fields Hr) as Hsave. cbv zeta in Hsave.
  set (old := sortBy (Spec.byShootDateDesc H)
                (map Storage.backfillShoot (default [] (ns_shoots (store w))))) in *.
  set (e := ShootEntry.mk (host_randomId H (drawn w)) _ _ _ _ _ _ _ _ _ _ _ _ _) in *.
  set (w' := mkWorld _ _ _ _) in *.
  exists e, w'. split; [exact Hsave|]. split; [reflexivity|].
  assert (Hname : ShootEntry.clientName (Spec.readBack e)
                  = JS.orString (ShootFields.clientName fields)
                                (ShootFields.modelName fields)).
  { subst e. unfold Spec.readBack. cbn.
    destruct (ShootFields.clientName fields), (ShootFields.modelName fields); reflexivity. }
  split; [|split; [exact Hname|]].
  - unfold Storage.getShoot, bind. rewrite getAllShoots_run by apply Hr.
    unfold ret. do 2 f_equal.
    subst w'. cbn [store withShoots ns_shoots].
    match goal with |- context [default [] (Some ?l)] => change (default [] (Some l)) with l end.
    rewrite map_map. fold (Spec.readBack e).
    apply find_unique.
    + apply (Permutation_in _ (Permutation_sym (sortBy_perm _ _))).
      apply in_map_iff. exists e. split; [reflexivity|].
      apply in_or_app. right. now left.
    + apply String.eqb_refl.
    + intros y Hy Hid. apply String.eqb_eq in Hid.
      apply (Permutation_in _ (sortBy_perm _ _)) in Hy.
      apply in_map_iff in Hy as (z & <- & Hz).
      apply in_app_or in Hz as [Hz|[<-|[]]]; [|reflexivity].
      exfalso. unfold old in Hz. apply (Permutation_in _ (sortBy_perm _ _)) in Hz.
      apply in_map_iff in Hz as (r & <- & Hr0). apply (Hfresh r Hr0). exact Hid.
  - intros Hcase. unfold Spec.readBack. subst e. cbn.
    destruct Hcase as [Hc|Hm].
    + destruct (ShootFields.clientName fields); [congruence|].
      destruct (ShootFields.shootTime fields), (ShootFields.salonName fields),
        (ShootFields.modelName fields), (ShootFields.advancePaid fields); reflexivity.
    + rewrite Hm.
      destruct (ShootFields.clientName fields), (ShootFields.shootTime fields),
        (ShootFields.salonName fields), (ShootFields.advancePaid fields); reflexivity.
Qed.

Lemma saved_shoot_reads_back_witness :
  Spec.reliable Device.host
  /\ exists e w',
       Storage.saveShoot Device.host
         (ShootFields.mk "" "2024-02-10" "" "Galle" "" "Ama" Bridal "25000" "" "" "")
         Device.emptyWorld = (Ok e, w')
       /\ ShootEntry.clientName (Spec.readBack e) = "Ama"%string.
Proof.
  assert (Hr : Spec.reliable Device.host) by (intros op; reflexivity).
  split; [exact Hr|].
  destruct (saved_shoot_reads_back Device.host Device.emptyWorld
              (ShootFields.mk "" "2024-02-10" "" "Galle" "" "Ama" Bridal "25000" "" "" "")
              Hr) as (e & w' & Hsave & _ & _ & Hname & _).
  - intros x [].
  - exists e, w'. split; [exact Hsave | exact Hname].
Defined.

(** ** Searching invoices, month lists and displayed dates *)

Lemma searchInvoices_filter (invoices : list Invoice.t) (query : string) :
  Storage.searchInvoices invoices query
  = List.filter (fun inv =>
      negb (JS.truthyString (JS.trim (JS.toLowerCase query)))
      || Spec.anyFieldIncludes (JS.trim (JS.toLowerCase query))
                               (Spec.searchedInvoiceFields inv)) invoices.
Proof.
  unfold Storage.searchInvoices.
  destruct (JS.truthyString (JS.trim (JS.toLowerCase query))); cbn [negb orb].
  - apply filter_ext. intros inv.
    unfold Spec.anyFieldIncludes, Spec.searchedInvoiceFields. cbn [existsb].
    rewrite orb_false_r, !orb_assoc. reflexivity.
  - symmetry. apply filter_all. reflexivity.
Qed.

(** X23.  [searchInvoices] keeps, in their order, the invoices of which the
  customer names, the invoice number, the event location or the phone number
  contains the trimmed query, letter case ignored, and keeps every invoice
  when the trimmed query is empty.  Searching the result again with the same
  query changes nothing. *)
Theorem searchInvoices_exact (invoices : list Invoice.t) (query : string) :
  let q := JS.trim (JS.toLowerCase query) in
  (forall inv, In inv (Storage.searchInvoices invoices query)
     <-> In inv invoices
         /\ (q = EmptyString
             \/ exists f, In f (Spec.searchedInvoiceFields inv)
                          /\ Spec.occursIn q (JS.toLowerCase f)))
  /\ (exists keep, Storage.searchInvoices invoices query = List.filter keep invoices)
  /\ Storage.searchInvoices (Storage.searchInvoices invoices query) query
     = Storage.searchInvoices invoices query.
Proof.
  intros q. split; [|split].
  - intros inv. rewrite searchInvoices_filter, filter_In, orb_true_iff.
    rewrite anyFieldIncludes_occurs. fold q.
    assert (Hq : negb (JS.truthyString q) = true <-> q = EmptyString).
    { destruct q; cbn; split; congruence. }
    rewrite Hq. reflexivity.
  - eexists. apply searchInvoices_filter.
  - rewrite !searchInvoices_filter.
    induction invoices as [|inv l IH]; [reflexivity|]. cbn [List.filter].
    destruct (negb _ || _) eqn:E; [|exact IH].
    cbn [List.filter]. rewrite E. f_equal. exact IH.
Qed.

Lemma inMonth_true (H : Host) (C : Calendar) (dateStr : string) (year month : Z) :
  Storage.inMonth H C dateStr year month = true
  <-> exists t, host_dateParse H dateStr = Some t
                /\ cal_getFullYear C t = year /\ cal_getMonth C t = month.
Proof.
  unfold Storage.inMonth. destruct (host_dateParse H dateStr) as [t|].
  - rewrite andb_true_iff, !Z.eqb_eq. split.
    + intros [Hy Hm]. eauto.
    + intros (t' & [= <-] & Hy & Hm). auto.
  - split; [discriminate|]. intros (t & Ht & _). discriminate.
Qed.

(** X24.  [getShootsByMonth] keeps exactly the shoots whose date
  parses to a time stamp of the given year and month.  A shoot whose date
  does not parse is in the list of no month, and no shoot is in the lists of
  two different months. *)
Theorem month_lists (H : Host) (C : Calendar) (shoots : list ShootEntry.t) :
  (forall year month s,
     In s (Storage.getShootsByMonth H C shoots year month)
     <-> In s shoots
         /\ exists t, host_dateParse H (ShootEntry.shootDate s) = Some t
                      /\ cal_getFullYear C t = year /\ cal_getMonth C t = month)
  /\ (forall s, host_dateParse H (ShootEntry.shootDate s) = None ->
        forall year month, ~ In s (Storage.getShootsByMonth H C shoots year month))
  /\ (forall year month year' month' s,
        In s (Storage.getShootsByMonth H C shoots year month) ->
        In s (Storage.getShootsByMonth H C shoots year' month') ->
        year = year' /\ month = month')
  /\ (forall year month,
        Storage.getShootsByMonth H C (Storage.getShootsByMonth H C shoots year month)
                                 year month
        = Storage.getShootsByMonth H C shoots year month).
Proof.
  assert (Hin : forall year month s,
     In s (Storage.getShootsByMonth H C shoots year month)
     <-> In s shoots
         /\ exists t, host_dateParse H (ShootEntry.shootDate s) = Some t
                      /\ cal_getFullYear C t = year /\ cal_getMonth C t = month).
  { intros year month s. unfold Storage.getShootsByMonth.
    rewrite filter_In, inMonth_true. reflexivity. }
  split; [exact Hin|]. split; [|split].
  - intros s Hs year month [_ (t & Ht & _)]%Hin. congruence.
  - intros year month year' month' s [_ (t & Ht & <- & <-)]%Hin
           [_ (t' & Ht' & <- & <-)]%Hin.
    rewrite Ht in Ht'. injection Ht' as <-. split; reflexivity.
  - intros year month. unfold Storage.getShootsByMonth.
    induction shoots as [|s l IH]; [reflexivity|]. cbn [List.filter].
    destruct (Storage.inMonth H C (ShootEntry.shootDate s) year month) eqn:E.
    + cbn [List.filter]. rewrite E. f_equal. apply IH.
      intros y m x. unfold Storage.getShootsByMonth.
      rewrite filter_In, inMonth_true. reflexivity.
    + apply IH. intros y m x. unfold Storage.getShootsByMonth.
      rewrite filter_In, inMonth_true. reflexivity.
Qed.

Lemma month_lists_witness :
  let shoots := [Device.shoot "Nimal" "0771234567" "100";
                 ShootEntry.mk "t" "Kamal" "soon" "" "Galle" "" "" Bridal "200" ""
                               "" "" "2024-02-01T08:00:00.000Z"
                               "2024-02-01T08:00:00.000Z"] in
  host_dateParse Device.host "soon" = None
  /\ Storage.getShootsByMonth Device.host Device.calendar shoots 2024 1
     = [Device.shoot "Nimal" "0771234567" "100"]
  /\ forall year month,
       ~ In (nth 1 shoots (Device.shoot "" "" ""))
            (Storage.getShootsByMonth Device.host Device.calendar shoots year month).
Proof.
  intros shoots.
  assert (Hsoon : host_dateParse Device.host "soon" = None) by reflexivity.
  split; [exact Hsoon|]. split; [vm_compute; reflexivity|].
  exact (proj1 (proj2 (month_lists Device.host Device.calendar shoots))
           (nth 1 shoots (Device.shoot "" "" "")) Hsoon).
Defined.

Lemma length_append (a b : string) :
  String.length (a +:+ b) = (String.length a + String.length b)%nat.
Proof.
  induction a as [|c a IH]; [reflexivity|].
  change (String c a +:+ b) with (String c (a +:+ b)). cbn [String.length].
  now rewrite IH.
Qed.

Lemma month_name (m : Z) :
  0 <= m <= 11 ->
  exists mon,
    Storage.textAt ["Jan"; "Feb"; "Mar"; "Apr"; "May"; "Jun";
                    "Jul"; "Aug"; "Sep"; "Oct"; "Nov"; "Dec"]%string m = mon
    /\ nth_error ["Jan"; "Feb"; "Mar"; "Apr"; "May"; "Jun";
                  "Jul"; "Aug"; "Sep"; "Oct"; "Nov"; "Dec"]%string (Z.to_nat m) = Some mon
    /\ String.length mon = 3%nat.
Proof.
  intros Hm.
  pose (months := ["Jan"; "Feb"; "Mar"; "Apr"; "May"; "Jun";
                   "Jul"; "Aug"; "Sep"; "Oct"; "Nov"; "Dec"]%string).
  pose (ok := fun z : Z =>
          match nth_error months (Z.to_nat z) with
          | Some mon => String.eqb (Storage.textAt months z) mon
                        && (String.length mon =? 3)%nat
          | None => false
          end).
  assert (Hok : ok m = true).
  { apply (in_range ok 0 12); [vm_compute; reflexivity | lia]. }
  unfold ok in Hok. fold months.
  destruct (nth_error months (Z.to_nat m)) as [mon|]; [|discriminate].
  apply andb_prop in Hok as [Ht Hl]. apply String.eqb_eq in Ht. apply Nat.eqb_eq in Hl.
  exists mon. auto.
Qed.

(** X25.  [formatDate] shows an empty date as the empty text and a date
  that does not parse unchanged.  A date that parses, with a day of the month
  from 1 to 31, a month from 0 to 11 and a four-digit year, is shown as
  eleven characters: the day as two digits, a dot, the three-letter name of
  the month, a dot and the year. *)
Theorem formatDate_shape (H : Host) (C : Calendar) (dateStr : string) :
  Storage.formatDate H C EmptyString = EmptyString
  /\ (host_dateParse H dateStr = None -> Storage.formatDate H C dateStr = dateStr)
  /\ forall t,
       dateStr <> EmptyString ->
       host_dateParse H dateStr = Some t ->
       1 <= cal_getDate C t <= 31 ->
       0 <= cal_getMonth C t <= 11 ->
       1000 <= cal_getFullYear C t <= 9999 ->
       exists dd mon yyyy,
         Storage.formatDate H C dateStr = dd +:+ "." +:+ mon +:+ "." +:+ yyyy
         /\ Spec.digitsOfLength 2 dd = true
         /\ JS.parseInt dd = Some (cal_getDate C t)
         /\ nth_error ["Jan"; "Feb"; "Mar"; "Apr"; "May"; "Jun";
                       "Jul"; "Aug"; "Sep"; "Oct"; "Nov"; "Dec"]%string
                      (Z.to_nat (cal_getMonth C t)) = Some mon
         /\ Spec.digitsOfLength 4 yyyy = true
         /\ JS.parseInt yyyy = Some (cal_getFullYear C t)
         /\ String.length (Storage.formatDate H C dateStr) = 11%nat.
Proof.
  split; [reflexivity|]. split.
  - intros Hnone. unfold Storage.formatDate. rewrite Hnone.
    destruct dateStr; reflexivity.
  - intros t Hne Ht Hd Hm Hy.
    destruct (month_name (cal_getMonth C t) Hm) as (mon & Hmon & Hnth & Hlen).
    assert (Hfmt : Storage.formatDate H C dateStr
                   = JS.padStart 2 "0" (JS.showZ (cal_getDate C t)) +:+ "."
                     +:+ mon +:+ "." +:+ JS.showZ (cal_getFullYear C t)).
    { unfold Storage.formatDate. rewrite Ht, Hmon.
      destruct dateStr; [congruence | reflexivity]. }
    pose proof (padded_numeral (cal_getDate C t) ltac:(lia)) as Hdd.
    pose proof (year_numeral (cal_getFullYear C t) Hy) as Hyyyy.
    exists (JS.padStart 2 "0" (JS.showZ (cal_getDate C t))), mon,
           (JS.showZ (cal_getFullYear C t)).
    split; [exact Hfmt|]. split; [exact Hdd|].
    split; [apply padded_any; lia|]. split; [exact Hnth|]. split; [exact Hyyyy|].
    split; [apply parseInt_showZ; lia|].
    rewrite Hfmt, !length_append, Hlen.
    unfold Spec.digitsOfLength in Hdd, Hyyyy.
    apply andb_prop in Hdd as [_ Hdd]. apply andb_prop in Hyyyy as [_ Hyyyy].
    apply Nat.eqb_eq in Hdd, Hyyyy. rewrite Hdd, Hyyyy. reflexivity.
Qed.

Lemma formatDate_shape_witness :
  host_dateParse Device.host "soon" = None
  /\ Storage.formatDate Device.host Device.calendar "soon" = "soon"%string
  /\ host_dateParse Device.host "2024-03-05" = Some 1709596800000
  /\ Storage.formatDate Device.host Device.calendar "2024-03-05" = "05.Mar.2024"%string
  /\ String.length (Storage.formatDate Device.host Device.calendar "2024-03-05") = 11%nat.
Proof.
  assert (Hsoon : host_dateParse Device.host "soon" = None) by reflexivity.
  assert (Ht : host_dateParse Device.host "2024-03-05" = Some 1709596800000)
    by (vm_compute; reflexivity).
  assert (Hne : "2024-03-05"%string <> EmptyString) by discriminate.
  assert (Hd : 1 <= cal_getDate Device.calendar 1709596800000 <= 31)
    by (vm_compute; split; discriminate).
  assert (Hm : 0 <= cal_getMonth Device.calendar 1709596800000 <= 11)
    by (vm_compute; split; discriminate).
  assert (Hy : 1000 <= cal_getFullYear Device.calendar 1709596800000 <= 9999)
    by (vm_compute; split; discriminate).
  split; [exact Hsoon|]. split.
  - exact (proj1 (proj2 (formatDate_shape Device.host Device.calendar "soon")) Hsoon).
  - split; [exact Ht|]. split; [vm_compute; reflexivity|].
    destruct (proj2 (proj2 (formatDate_shape Device.host Device.calendar "2024-03-05"))
                _ Hne Ht Hd Hm Hy) as (dd & mon & yyyy & _ & _ & _ & _ & _ & _ & Hlen).
    exact Hlen.
Defined.

Lemma readBack_backfilled (s : StoredShoot.t) :
  Spec.readBack (Storage.backfillShoot s) = Storage.backfillShoot s.
Proof.
  unfold Spec.readBack, Storage.backfillShoot, Storage.storeShoot. cbn.
  destruct s as [id [[|c cn]|] date [[|t tm]|] loc [[|a sn]|] [[|m mn]|] ty price
                 [[|p ap]|] phone notes created updated]; reflexivity.
Qed.

(** X26.  [deleteShoot] returns whether some shoot that [getAllShoots] reads
  has the id.  When none has, nothing is written.  In both cases [getShoot]
  with that id finds nothing afterwards, and [getAllShoots] reads exactly the
  shoots with another id that it read before. *)
Theorem deleted_shoot_is_gone (H : Host) (w : World) (id : string)
        (old : list ShootEntry.t) :
  Spec.reliable H ->
  Storage.getAllShoots H w = (Ok old, w) ->
  exists (b : bool) (all : list ShootEntry.t) (w' : World),
    Storage.deleteShoot H id w = (Ok b, w')
    /\ (b = true <-> exists x, In x old /\ ShootEntry.id x = id)
    /\ (b = false -> w' = w)
    /\ Storage.getShoot H id w' = (Ok None, w')
    /\ Storage.getAllShoots H w' = (Ok all, w')
    /\ (forall x, In x all <-> In x old /\ ShootEntry.id x <> id).
Proof.
  intros Hr Hold. rewrite getAllShoots_run in Hold by apply Hr. injection Hold as Hold.
  set (kept := List.filter (fun s => negb (String.eqb (ShootEntry.id s) id)) old).
  assert (Hdel : Storage.deleteShoot H id w
                 = if (List.length kept =? List.length old)%nat then (Ok false, w)
                   else (Ok true, withStore w (withShoots (store w)
                                                 (map Storage.storeShoot kept)))).
  { unfold Storage.deleteShoot. unfold bind at 1.
    rewrite getAllShoots_run by apply Hr. rewrite Hold. fold kept.
    destruct (List.length kept =? List.length old)%nat; [reflexivity|].
    unfold bind. rewrite (call_reliable H _ _ _ Hr). reflexivity. }
  assert (Hkept : forall x, In x kept <-> In x old /\ ShootEntry.id x <> id).
  { intros x. unfold kept. rewrite filter_In, negb_true_iff, String.eqb_neq. reflexivity. }
  assert (Hnone : forall l, (forall x, In x l <-> In x old /\ ShootEntry.id x <> id) ->
                  List.find (fun s => String.eqb (ShootEntry.id s) id) l = None).
  { intros l Hl. apply find_none. intros y Hy. apply String.eqb_neq. now apply Hl. }
  assert (Hback : map Storage.backfillShoot (map Storage.storeShoot kept) = kept).
  { rewrite map_map. rewrite <- (map_id kept) at 2. apply map_ext_in.
    intros x [Hx _]%Hkept. rewrite <- Hold in Hx.
    apply (Permutation_in _ (sortBy_perm _ _)) in Hx.
    apply in_map_iff in Hx as (r & <- & _). apply readBack_backfilled. }
  destruct (List.length kept =? List.length old)%nat eqn:Hlen.
  - apply Nat.eqb_eq in Hlen. apply filter_length_same in Hlen. fold kept in Hlen.
    assert (Hsame : forall x, In x old <-> In x old /\ ShootEntry.id x <> id).
    { intros x. rewrite <- Hkept, Hlen. reflexivity. }
    exists false, old, w. split; [exact Hdel|]. split.
    { split; [discriminate|]. intros (x & Hx & Hid). apply Hsame in Hx as [_ Hx]. congruence. }
    split; [reflexivity|]. split.
    { unfold Storage.getShoot, bind. rewrite getAllShoots_run by apply Hr.
      rewrite Hold. unfold ret. now rewrite Hnone. }
    split; [rewrite getAllShoots_run by apply Hr; now rewrite Hold | exact Hsame].
  - assert (Hall : forall x, In x (sortBy (Spec.byShootDateDesc H) kept)
                             <-> In x old /\ ShootEntry.id x <> id).
    { intros x. rewrite (Permutation_in' eq_refl (sortBy_perm _ _)). apply Hkept. }
    assert (Hread : Storage.getAllShoots H
                      (withStore w (withShoots (store w) (map Storage.storeShoot kept)))
                    = (Ok (sortBy (Spec.byShootDateDesc H) kept),
                       withStore w (withShoots (store w) (map Storage.storeShoot kept)))).
    { rewrite getAllShoots_run by apply Hr.
      cbn [store withStore withShoots ns_shoots].
      match goal with
      | |- context [default [] (Some ?l)] => change (default [] (Some l)) with l
      end.
      rewrite Hback. reflexivity. }
    eexists true, _, _. split; [exact Hdel|]. split.
    { split; [intros _|reflexivity].
      destruct (existsb (fun s => String.eqb (ShootEntry.id s) id) old) eqn:Hex.
      - apply existsb_exists in Hex as (x & Hx & Hid). apply String.eqb_eq in Hid. eauto.
      - exfalso. apply Nat.eqb_neq in Hlen. apply Hlen. unfold kept.
        rewrite filter_all; [reflexivity|]. intros x Hx.
        destruct (String.eqb (ShootEntry.id x) id) eqn:E; [|reflexivity].
        assert (existsb (fun s => String.eqb (ShootEntry.id s) id) old = true)
          by (apply existsb_exists; eauto).
        congruence. }
    split; [discriminate|]. split.
    { unfold Storage.getShoot, bind. rewrite Hread. unfold ret. now rewrite Hnone. }
    split; [exact Hread | exact Hall].
Qed.

Lemma deleted_shoot_is_gone_witness :
  Spec.reliable Device.host
  /\ exists b w',
       Storage.deleteShoot Device.host "s1"
         (mkWorld (mkStore ∅ None (Some [Device.legacyShoot]) None None) ∅ [] 0)
       = (Ok b, w')
       /\ Storage.getShoot Device.host "s1" w' = (Ok None, w').
Proof.
  assert (Hr : Spec.reliable Device.host) by (intros op; reflexivity).
  split; [exact Hr|].
  destruct (deleted_shoot_is_gone Device.host
              (mkWorld (mkStore ∅ None (Some [Device.legacyShoot]) None None) ∅ [] 0)
              "s1" _ Hr (getAllShoots_run Device.host _ (Hr _)))
    as (b & all & w' & Hdel & _ & _ & Hget & _).
  exists b, w'. split; [exact Hdel | exact Hget].
Defined.
